(** * HidroBio price monitor: extraction, store and report logic

    A shallow embedding of the decision logic of the price monitor
    (scrapers/base_scraper.py, scrapers/generic.py, scrapers/casarica.py,
    the text fallback of scrapers/stock.py, utils/database.py and
    main.py) together with the properties its specification states and
    further properties of the code.

    Conventions.
    - A Python [str] is read as the byte string of its UTF-8 encoding, so
      Rocq string literals denote the same text as the Python literals.
      Substring search and replacement on the encoding agree with the
      code-point operations because UTF-8 is self-synchronising.
    - Python exceptions are explicit: a function that can raise returns
      a value of [Py.res].
    - A Python [float] is the rational it denotes; every float operation
      is the exact operation followed by rounding to binary64.
    - Of the Unicode tables behind [str.lower] and the pattern [\d] the
      model keeps Basic Latin and the Latin-1 Supplement, the alphabet of
      the configured names; white space is the full Unicode set. The
      digits of the pattern [\d] and of [float] are modelled as 0 to 9:
      the statements about prices are made for the texts of
      [Py.digits_are_ascii], which hold no other decimal digit.
    - The clock is an input: [today] is the day number of
      [datetime.now().date()], its proleptic Gregorian ordinal
      ([date.toordinal()]), which lies between 1 and 3652059. *)

From Stdlib Require Import ZArith QArith Qabs Qround List String Ascii Bool Lia Sorted.
From Stdlib Require Import Permutation DecimalString.
Import ListNotations.

Local Open Scope Z_scope.

(** ** The Python runtime used by the program *)

Module Py.

(** The exception classes the program can meet. [RequestException] is
    the [requests] hierarchy (timeouts, connection errors, HTTP status
    errors); [OtherException] stands for every further subclass of
    [Exception]. *)
Inductive exn : Type :=
| ValueError
| OverflowError
| ZeroDivisionError
| KeyError
| StatisticsError
| RequestException
| OtherException.

(** Outcome of a call: a value, or a raised exception. *)
Inductive res (A : Type) : Type :=
| Ret (a : A)
| Raise (e : exn).
Arguments Ret {A} a.
Arguments Raise {A} e.

Definition bind {A B : Type} (m : res A) (k : A -> res B) : res B :=
  match m with
  | Ret a => k a
  | Raise e => Raise e
  end.

Local Open Scope string_scope.

Definition bytes (l : list nat) : string :=
  fold_right (fun n s => String (ascii_of_nat n) s) EmptyString l.

Definition code (c : ascii) : nat := nat_of_ascii c.

(** [sub in s] *)
Fixpoint contains (sub s : string) : bool :=
  if prefix sub s then true
  else match s with
       | EmptyString => false
       | String _ s' => contains sub s'
       end.

(** [s.replace(old, new)] for a non-empty [old]: occurrences are taken
    left to right and do not overlap. [skip] counts the characters of
    the current occurrence still to be dropped. *)
Fixpoint replace_from (old new : string) (skip : nat) (s : string) : string :=
  match s with
  | EmptyString => EmptyString
  | String c s' =>
      match skip with
      | S k => replace_from old new k s'
      | O =>
          if prefix old s
          then new ++ replace_from old new (String.length old - 1) s'
          else String c (replace_from old new 0 s')
      end
  end.

(** With an empty [old] Python puts [new] before every character and
    at the end. *)
Fixpoint interleave (new s : string) : string :=
  match s with
  | EmptyString => new
  | String c s' => new ++ String c (interleave new s')
  end.

Definition replace (old new s : string) : string :=
  match old with
  | EmptyString => interleave new s
  | String _ _ => replace_from old new 0 s
  end.

(** [str.lower] on Basic Latin and on the Latin-1 Supplement (the
    two-byte sequences led by 0xC3: U+00C0..U+00DE without U+00D7);
    every other character is kept. *)
Definition lower_ascii (c : ascii) : ascii :=
  let n := code c in
  if (65 <=? n)%nat && (n <=? 90)%nat then ascii_of_nat (n + 32) else c.

Definition lower_latin1 (d : ascii) : ascii :=
  let n := code d in
  if (128 <=? n)%nat && (n <=? 158)%nat && negb (n =? 151)%nat
  then ascii_of_nat (n + 32) else d.

Fixpoint lower (s : string) : string :=
  match s with
  | EmptyString => EmptyString
  | String c s' =>
      if (code c =? 195)%nat then
        match s' with
        | EmptyString => String c EmptyString
        | String d s'' => String c (String (lower_latin1 d) (lower s''))
        end
      else String (lower_ascii c) (lower s')
  end.

(** The white space of [str.isspace], [str.strip] and the pattern [\s]:
    U+0009..U+000D, U+001C..U+0020, U+0085, U+00A0, U+1680,
    U+2000..U+200A, U+2028, U+2029, U+202F, U+205F and U+3000, each as
    its UTF-8 encoding. *)
Definition whitespace : list string :=
  map bytes
    [ [9]; [10]; [11]; [12]; [13]; [28]; [29]; [30]; [31]; [32];
      [194; 133]; [194; 160]; [225; 154; 128];
      [226; 128; 128]; [226; 128; 129]; [226; 128; 130]; [226; 128; 131];
      [226; 128; 132]; [226; 128; 133]; [226; 128; 134]; [226; 128; 135];
      [226; 128; 136]; [226; 128; 137]; [226; 128; 138];
      [226; 128; 168]; [226; 128; 169]; [226; 128; 175];
      [226; 129; 159]; [227; 128; 128] ]%nat.

Fixpoint drop (n : nat) (s : string) : string :=
  match n, s with
  | O, _ => s
  | S _, EmptyString => EmptyString
  | S k, String _ s' => drop k s'
  end.

(** Length in bytes of the white-space character [s] starts with, or 0. *)
Definition space_width (s : string) : nat :=
  match find (fun w => prefix w s) whitespace with
  | Some w => String.length w
  | None => O
  end.

(** [skip] as in [replace_from]. *)
Fixpoint lstrip_from (skip : nat) (s : string) : string :=
  match s with
  | EmptyString => EmptyString
  | String _ s' =>
      match skip with
      | S k => lstrip_from k s'
      | O =>
          match space_width s with
          | O => s
          | S k => lstrip_from k s'
          end
      end
  end.

Definition lstrip (s : string) : string := lstrip_from 0 s.

Definition isspace_or_empty (s : string) : bool :=
  match lstrip s with
  | EmptyString => true
  | String _ _ => false
  end.

Fixpoint rstrip (s : string) : string :=
  match s with
  | EmptyString => EmptyString
  | String c s' => if isspace_or_empty s then EmptyString else String c (rstrip s')
  end.

(** [s.strip()] *)
Definition strip (s : string) : string := rstrip (lstrip s).

(** [s.split(sep)] for a one-character separator. *)
Fixpoint split (sep : ascii) (s : string) : list string :=
  match s with
  | EmptyString => [EmptyString]
  | String c s' =>
      if Ascii.eqb c sep then EmptyString :: split sep s'
      else match split sep s' with
           | [] => [String c EmptyString]
           | p :: ps => String c p :: ps
           end
  end.

(** The pattern class [\d], on Basic Latin. *)
Definition is_digit (c : ascii) : bool :=
  (48 <=? code c)%nat && (code c <=? 57)%nat.

(** The pattern class [[\d.,]]. *)
Definition is_price_char (c : ascii) : bool :=
  is_digit c || Ascii.eqb c "."%char || Ascii.eqb c ","%char.

Fixpoint take_while (p : ascii -> bool) (s : string) : string :=
  match s with
  | EmptyString => EmptyString
  | String c s' => if p c then String c (take_while p s') else EmptyString
  end.

(** [re.search(r"[\d.,]+", s)] and [.group()] of the match: the
    leftmost run, taken as far as it goes. *)
Fixpoint search_price_run (s : string) : option string :=
  match s with
  | EmptyString => None
  | String c s' =>
      if is_price_char c then Some (take_while is_price_char s)
      else search_price_run s'
  end.

(** [len(s)]: the number of code points, that is of bytes that are not
    UTF-8 continuation bytes (0x80..0xBF). *)
Fixpoint len (s : string) : nat :=
  match s with
  | EmptyString => O
  | String c s' =>
      ((if (128 <=? code c)%nat && (code c <=? 191)%nat then 0 else 1) + len s')%nat
  end.

(** [s.lstrip(c)] and [s.rstrip(c)] for one character. *)
Fixpoint lstrip_char (c : ascii) (s : string) : string :=
  match s with
  | EmptyString => EmptyString
  | String c' s' => if Ascii.eqb c' c then lstrip_char c s' else s
  end.

Fixpoint rstrip_char (c : ascii) (s : string) : string :=
  match s with
  | EmptyString => EmptyString
  | String c' s' =>
      match rstrip_char c s' with
      | EmptyString => if Ascii.eqb c' c then EmptyString else String c' EmptyString
      | rest => String c' rest
      end
  end.

Fixpoint take (n : nat) (s : string) : string :=
  match n, s with
  | O, _ => EmptyString
  | S _, EmptyString => EmptyString
  | S k, String c s' => String c (take k s')
  end.

(** The pattern [[Gs₲G\$]\s*[\d.,]+] tried at the start of [s]: one
    marker character, any white space, then a run of digits and
    separators; the matched text. *)
Definition marker_width (s : string) : nat :=
  match s with
  | String "G" _ | String "s" _ | String "$" _ => 1
  | _ => if prefix "₲" s then 3 else 0
  end%nat.

Definition match_currency_here (s : string) : option string :=
  match marker_width s with
  | O => None
  | w =>
      let rest := drop w s in
      let after := lstrip rest in
      match take_while is_price_char after with
      | EmptyString => None
      | run => Some (take (String.length s - String.length after) s ++ run)
      end
  end.

(** [re.search] of that pattern: the leftmost position that matches. *)
Fixpoint search_currency (s : string) : option string :=
  match match_currency_here s with
  | Some m => Some m
  | None =>
      match s with
      | EmptyString => None
      | String _ s' => search_currency s'
      end
  end.

(** The texts on which the digits of the pattern [\d] and of [float] are
    the digits 0 to 9: every character is below U+0640 or in
    U+2000..U+2FFF (punctuation, currency symbols and other symbols).
    The decimal digits of Unicode outside Basic Latin start at U+0660,
    and none lies in U+2000..U+2FFF. On the UTF-8 encoding: every byte
    is a Basic Latin character, a continuation byte, a lead byte from
    0xC2 to 0xD8, or the lead byte 0xE2. *)
Definition plain_byte (c : ascii) : bool :=
  let n := code c in
  (n <? 192)%nat || ((194 <=? n)%nat && (n <=? 216)%nat) || (n =? 226)%nat.

Fixpoint digits_are_ascii (s : string) : bool :=
  match s with
  | EmptyString => true
  | String c s' => plain_byte c && digits_are_ascii s'
  end.

(** The texts of Basic Latin and the Latin-1 Supplement, on which the
    model of [str.lower] is exact: on the UTF-8 encoding every byte is a
    Basic Latin character, a continuation byte, or the lead byte 0xC2 or
    0xC3. *)
Definition latin1_byte (c : ascii) : bool :=
  let n := code c in
  (n <? 192)%nat || (n =? 194)%nat || (n =? 195)%nat.

Fixpoint latin1_text (s : string) : bool :=
  match s with
  | EmptyString => true
  | String c s' => latin1_byte c && latin1_text s'
  end.

(** Vocabulary for statements about price text. *)
Fixpoint has_price_char (s : string) : bool :=
  match s with
  | EmptyString => false
  | String c s' => is_price_char c || has_price_char s'
  end.

(** A text that starts with a character that is no digit. *)
Definition starts_plain (old : string) : bool :=
  match old with
  | EmptyString => false
  | String c0 _ => negb (is_digit c0)
  end.

Fixpoint has_digit (s : string) : bool :=
  match s with
  | EmptyString => false
  | String c s' => is_digit c || has_digit s'
  end.

Fixpoint all_digits (s : string) : bool :=
  match s with
  | EmptyString => true
  | String c s' => is_digit c && all_digits s'
  end.

Fixpoint all_price_chars (s : string) : bool :=
  match s with
  | EmptyString => true
  | String c s' => is_price_char c && all_price_chars s'
  end.

Fixpoint count_char (c : ascii) (s : string) : nat :=
  match s with
  | EmptyString => O
  | String c' s' => ((if Ascii.eqb c' c then 1 else 0) + count_char c s')%nat
  end.

(** Every [c] of [s] replaced by the text [new]. *)
Fixpoint subst_char (c : ascii) (new s : string) : string :=
  match s with
  | EmptyString => EmptyString
  | String c' s' =>
      if Ascii.eqb c' c then new ++ subst_char c new s'
      else String c' (subst_char c new s')
  end.

(** [timedelta(days=days)]: the magnitude is limited. *)
Definition timedelta (days : Z) : res Z :=
  if (Z.abs days <=? 999999999)%Z then Ret days else Raise OverflowError.

(** [d - delta] on a [date]: the result has to be a date of the years 1
    to 9999, ordinals 1 to 3652059. *)
Definition date_sub (d delta : Z) : res Z :=
  let ordinal := (d - delta)%Z in
  if ((1 <=? ordinal) && (ordinal <=? 3652059))%Z then Ret ordinal
  else Raise OverflowError.

End Py.

(** ** Python floats *)

Module PyFloat.
Import Py.
Local Open Scope Z_scope.

(** [n / d * 2 ^ k] as a fraction, for positive [n] and [d]. *)
Definition scaled (n d k : Z) : Z * Z :=
  if 0 <=? k then (n * 2 ^ k, d) else (n, d * 2 ^ (- k)).

(** The mantissa [m] and the binary scale [k] of the binary64 number
    [m / 2 ^ k] nearest to [n / d], for positive [n] and [d]: 53
    significant bits, ties to the even mantissa, and no scale beyond
    1074 (gradual underflow). *)
Definition round_pos (n d : Z) : Z * Z :=
  let k0 := 52 - (Z.log2 n - Z.log2 d) in
  let k1 := if fst (scaled n d k0) / snd (scaled n d k0) <? 2 ^ 52 then k0 + 1 else k0 in
  let k := Z.min k1 1074 in
  let (num, den) := scaled n d k in
  let m := num / den in
  let r := num mod den in
  let m' := if 2 * r <? den then m
            else if den <? 2 * r then m + 1
            else if Z.even m then m else m + 1 in
  (m', k).

(** The rational [m / 2 ^ k], in lowest terms. *)
Definition dyadic (m k : Z) : Q :=
  Qred (if 0 <=? k then Qmake m (Z.to_pos (2 ^ k)) else Qmake (m * 2 ^ (- k)) 1).

(** Rounding of a rational to binary64 (overflow left to the caller). *)
Definition b64 (q : Q) : Q :=
  match Qnum q with
  | Z0 => 0%Q
  | Zpos n => let (m, k) := round_pos (Zpos n) (Zpos (Qden q)) in dyadic m k
  | Zneg n => let (m, k) := round_pos (Zpos n) (Zpos (Qden q)) in dyadic (- m) k
  end.

(** Above the largest binary64 number rounding gives an infinity. *)
Definition overflows (x : Q) : bool :=
  Qle_bool (inject_Z (2 ^ 1024)) (Qabs x).

(** [int(x)]: truncation towards zero. *)
Definition trunc (x : Q) : Z := Z.quot (Qnum x) (Zpos (Qden x)).

Definition Qltb (x y : Q) : bool := negb (Qle_bool y x).

(** Float arithmetic on finite operands whose result is in range. *)
Definition fadd (x y : Q) : Q := b64 (x + y)%Q.
Definition fsub (x y : Q) : Q := b64 (x - y)%Q.
Definition fmul (x y : Q) : Q := b64 (x * y)%Q.

(** [x / y] on floats, and on integers (true division is correctly
    rounded). *)
Definition fdiv (x y : Q) : res Q :=
  if Qeq_bool y 0%Q then Raise ZeroDivisionError else Ret (b64 (x / y)%Q).

Definition truediv (a b : Z) : res Q :=
  if b =? 0 then Raise ZeroDivisionError else Ret (b64 (inject_Z a / inject_Z b)%Q).

(** [float(n)] for an integer in range. *)
Definition of_int (n : Z) : Q := b64 (inject_Z n).

(** Round half to even, to an integer. *)
Definition round_half_even (q : Q) : Z :=
  let f := Qfloor q in
  let twice := ((q - inject_Z f) * 2)%Q in
  if Qltb twice 1%Q then f
  else if Qltb 1%Q twice then f + 1
  else if Z.even f then f else f + 1.

(** [round(x, 1)]: the decimal with one place nearest to the exact value
    of [x], ties to even, read back as a float. *)
Definition round1 (x : Q) : Q :=
  b64 (inject_Z (round_half_even (x * 10)%Q) / 10)%Q.

Definition digit_value (c : ascii) : Z := Z.of_nat (code c) - 48.

(** Reading [float(s)] for a text of digits and points, the only
    characters a price run holds: [num / scale] is the value read so far
    and [ndigits] counts the digits. *)
Fixpoint scan_literal (s : string) (seen_point : bool) (num scale : Z) (ndigits : nat)
  : option (Z * Z * nat) :=
  match s with
  | EmptyString => Some (num, scale, ndigits)
  | String c s' =>
      if is_digit c then
        scan_literal s' seen_point (10 * num + digit_value c)
          (if seen_point then 10 * scale else scale) (S ndigits)
      else if Ascii.eqb c "."%char then
        if seen_point then None else scan_literal s' true num scale ndigits
      else None
  end.

(** The number a string of decimal digits denotes. *)
Fixpoint digits_value_from (acc : Z) (s : string) : Z :=
  match s with
  | EmptyString => acc
  | String c s' => digits_value_from (10 * acc + digit_value c) s'
  end.

Definition digits_value (s : string) : Z := digits_value_from 0 s.

(** The exact value of the literal; [None] is Python's [ValueError]: a
    second point, no digit at all, or a foreign character. *)
Definition literal_value (s : string) : option Q :=
  match scan_literal s false 0 1 0 with
  | Some (num, scale, S _) => Some (Qmake num (Z.to_pos scale))
  | _ => None
  end.

(** [int(float(s))] inside [try ... except ValueError: return None]:
    [float] of a literal too large for binary64 is an infinity, and [int]
    of an infinity raises [OverflowError]. *)
Definition int_of_float_literal (s : string) : res (option Z) :=
  match literal_value s with
  | None => Ret None
  | Some q =>
      let x := b64 q in
      if overflows x then Raise OverflowError else Ret (Some (trunc x))
  end.

End PyFloat.

(** ** scrapers/base_scraper.py *)

Module BaseScraper.
Import Py.
Local Open Scope string_scope.

(** [for term in terms: if term in name: return ...] *)
Fixpoint any_term_in (terms : list string) (name : string) : bool :=
  match terms with
  | [] => false
  | term :: rest => if contains term name then true else any_term_in rest name
  end.

Definition exclude_terms : list string :=
  [ "extracto"; "pure"; "puré"; "salsa"; "pelado"; "enlatado";
    "conserva"; "lata"; "botella"; "tetra"; "sachet"; "sobre";
    "sardina"; "atun"; "atún"; "ketchup"; "pasta"; "pulpa" ].

Definition include_terms : list string :=
  [ "por kg"; "por kilo"; "x kg"; "/kg"; "kg x"; "1 kg";
    "fresco"; "bandeja"; "granel"; "x 1" ].

Definition _is_fresh_produce (name : string) : bool :=
  let name_lower := lower name in
  if any_term_in exclude_terms name_lower then false
  else if any_term_in include_terms name_lower then true
  else if contains "kg" name_lower then true
  else true.

(** The classifier as the specification words it: an ordered list of
    rules, each a test on the lowercased name with the verdict it gives;
    the first rule whose test holds decides, otherwise the default. *)
Definition rule : Type := (string -> bool) * bool.

Fixpoint first_match (rules : list rule) (default : bool) (name : string) : bool :=
  match rules with
  | [] => default
  | (test, verdict) :: rest =>
      if test name then verdict else first_match rest default name
  end.

Definition contains_any (terms : list string) (name : string) : bool :=
  existsb (fun term => contains term name) terms.

Definition classifier_rules : list rule :=
  [ (contains_any exclude_terms, false);
    (contains_any include_terms, true);
    (contains "kg", true) ].

Definition classify_by_rules (name : string) : bool :=
  first_match classifier_rules true (lower name).

(** The one-predicate reading: no exclusion term occurs in the
    lowercased name. *)
Definition no_exclusion_term (name : string) : bool :=
  negb (contains_any exclude_terms (lower name)).

(** The currency markers and unit suffixes [_extract_price] removes,
    in the order of the calls to [replace]. *)
Definition markers : list string := [ "Gs"; "₲"; "G$"; "/kg"; "/un"; "/u" ].

Definition remove_markers (text : string) : string :=
  let cleaned := replace "G$" "" (replace "₲" "" (replace "Gs" "" text)) in
  replace "/u" "" (replace "/un" "" (replace "/kg" "" cleaned)).

(** The separator rules applied to the matched run. *)
Definition rewrite_separators (price_str : string) : string :=
  if contains "." price_str && contains "," price_str then
    replace "," "." (replace "." "" price_str)
  else if contains "." price_str then
    let parts := split "."%char price_str in
    if (String.length (last parts "") =? 3)%nat
    then replace "." "" price_str
    else price_str
  else if contains "," price_str then replace "," "" price_str
  else price_str.

Definition _extract_price (text : string) : res (option Z) :=
  match text with
  | EmptyString => Ret None
  | String _ _ =>
      let cleaned := strip (remove_markers text) in
      match search_price_run cleaned with
      | None => Ret None
      | Some price_str => PyFloat.int_of_float_literal (rewrite_separators price_str)
      end
  end.

(** The run of digits and separators the normalizer works on. *)
Definition price_run (text : string) : option string :=
  search_price_run (strip (remove_markers text)).

(** The normalizer as the specification words it. With both separators
    the points are removed and everything from the first comma on is
    dropped; with points only they are removed when the last segment has
    three characters; with commas only they are removed. What remains is
    read as a number, exactly, and its integer part is the price; a
    remainder that is no number gives no price. *)
Definition drop_from_comma (s : string) : string :=
  take_while (fun c => negb (Ascii.eqb c ","%char)) s.

Definition separators_as_specified (run : string) : string :=
  if contains "." run && contains "," run then
    drop_from_comma (replace "." "" run)
  else if contains "." run then
    if (String.length (last (split "."%char run) "") =? 3)%nat
    then replace "." "" run
    else run
  else if contains "," run then replace "," "" run
  else run.

Definition normalize_as_specified (text : string) : option Z :=
  match price_run text with
  | None => None
  | Some run =>
      option_map PyFloat.trunc (PyFloat.literal_value (separators_as_specified run))
  end.

(** A candidate listing, the dict a parser returns per product. *)
Record Listing : Type := mkListing {
  l_name : string;
  l_price : Z;
  l_unit : string;
  l_url : string;
  l_supermarket : string
}.

(** One entry of the [supermarkets] list of the configuration; an absent
    key is [None]. *)
Record SupermarketConfig : Type := mkSupermarketConfig {
  cfg_name : option string;
  cfg_base_url : option string;
  cfg_search_url : option string;
  cfg_enabled : option bool
}.

(** [dict.get(key, default)] *)
Definition get {A : Type} (entry : option A) (default : A) : A :=
  match entry with
  | Some a => a
  | None => default
  end.

(** The fields [__init__] sets from the configuration. *)
Record Scraper : Type := mkScraper {
  name : string;
  base_url : string;
  search_url : string;
  enabled : bool
}.

Definition __init__ (config : SupermarketConfig) : Scraper :=
  {| name := get (cfg_name config) "Unknown";
     base_url := get (cfg_base_url config) "";
     search_url := get (cfg_search_url config) "";
     enabled := get (cfg_enabled config) true |}.

(** The network as the adapter sees it: an opaque state of the outside
    world and the URLs requested so far, oldest first. *)
Record Net (World : Type) : Type := mkNet {
  world : World;
  requests : list string
}.
Arguments mkNet {World} world requests.
Arguments world {World} n.
Arguments requests {World} n.

Section Adapter.

Variable World : Type.

(** [template.format(query=query)]; a malformed template raises. *)
Variable format : string -> string -> res string.

(** [session.get(url, timeout=30)] followed by [raise_for_status()] and
    [response.text]: the body, or the exception of a timeout, a refused
    connection or a non-2xx status. *)
Variable session_get : string -> World -> res string * World.

(** [BeautifulSoup(text, "lxml")] followed by the abstract method
    [_parse_products] of the concrete scraper. *)
Variable _parse_products : string -> res (list Listing).

(** The body of the [try] block of [search]. *)
Definition search_body (self : Scraper) (query : string) (net : Net World)
  : res (list Listing) * Net World :=
  match format (search_url self) query with
  | Raise e => (Raise e, net)
  | Ret url =>
      let (response, w) := session_get url (world net) in
      let net' := mkNet w (requests net ++ [url]) in
      match response with
      | Raise e => (Raise e, net')
      | Ret text => (_parse_products text, net')
      end
  end.

Definition search (self : Scraper) (query : string) (net : Net World)
  : res (list Listing) * Net World :=
  if negb (enabled self) then (Ret [], net)
  else
    let (outcome, net') := search_body self query net in
    match outcome with
    | Ret products => (Ret products, net')
    | Raise RequestException => (Ret [], net')
    | Raise _ => (Ret [], net')
    end.

End Adapter.

End BaseScraper.

(** ** scrapers/generic.py *)

Module GenericScraper.
Import Py BaseScraper.
Local Open Scope string_scope.

(** The patterns [_extract_product_data] tries for the name, in order:
    the four headings, then [a], [span], [p] and [div] whose class
    matches [name|title]. *)
Inductive name_pattern : Type :=
| h1 | h2 | h3 | h4 | a_name_title | span_name_title | p_name_title | div_name_title.

Definition name_patterns : list name_pattern :=
  [h1; h2; h3; h4; a_name_title; span_name_title; p_name_title; div_name_title].

(** The patterns and tags tried for the price. *)
Inductive price_pattern : Type :=
| class_price | class_valor | class_costo | itemprop_price.

Inductive price_tag : Type := span | div | p | strong.

Definition price_patterns : list price_pattern :=
  [class_price; class_valor; class_costo; itemprop_price].

Definition price_tags : list price_tag := [span; div; p; strong].

(** A container element of the parsed page, as the answers it gives to
    the lookups of [_extract_product_data]: [find(tag, ...)] followed by
    [get_text(strip=True)] for the name and price patterns ([None] when
    nothing matches), the [title] of the first link that has one, the
    [href] of the first link that has one, and [get_text()] of the
    container. *)
Record Element : Type := mkElement {
  name_text : name_pattern -> option string;
  link_title : option string;
  price_text : price_pattern -> price_tag -> option string;
  get_text : string;
  link_href : option string
}.

(** [for tag, attrs in name_patterns], from the current value of [name]. *)
Fixpoint for_name_patterns (element : Element) (patterns : list name_pattern)
  (name : option string) : option string :=
  match patterns with
  | [] => name
  | pattern :: rest =>
      match name_text element pattern with
      | Some text =>
          if (3 <? len text)%nat then Some text
          else for_name_patterns element rest (Some text)
      | None => for_name_patterns element rest name
      end
  end.

(** Python truth of an optional string and of an optional integer. *)
Definition truthy_str (s : option string) : bool :=
  match s with
  | Some (String _ _) => true
  | _ => false
  end.

Definition truthy_int (n : option Z) : bool :=
  match n with
  | Some z => negb (z =? 0)%Z
  | None => false
  end.

(** [for tag in ["span", "div", "p", "strong"]] for one price pattern. *)
Fixpoint for_price_tags (element : Element) (pattern : price_pattern)
  (tags : list price_tag) (price : option Z) : res (option Z) :=
  match tags with
  | [] => Ret price
  | tag :: rest =>
      match price_text element pattern tag with
      | Some text =>
          bind (_extract_price text) (fun price' =>
            if truthy_int price' then Ret price'
            else for_price_tags element pattern rest price')
      | None => for_price_tags element pattern rest price
      end
  end.

(** [for pattern in price_patterns] *)
Fixpoint for_price_patterns (element : Element) (patterns : list price_pattern)
  (price : option Z) : res (option Z) :=
  match patterns with
  | [] => Ret price
  | pattern :: rest =>
      bind (for_price_tags element pattern price_tags price) (fun price' =>
        if truthy_int price' then Ret price'
        else for_price_patterns element rest price')
  end.

Definition resolve_url (self : Scraper) (element : Element) : string :=
  match link_href element with
  | None => ""
  | Some url =>
      if truthy_str (Some url) && negb (prefix "http" url)
      then rstrip_char "/" (base_url self) ++ "/" ++ lstrip_char "/" url
      else url
  end.

(** [_extract_product_data]; [Ret None] is the [return None]. *)
Definition _extract_product_data (self : Scraper) (element : Element)
  : res (option Listing) :=
  let name := for_name_patterns element name_patterns None in
  let name := if truthy_str name then name else
                match link_title element with
                | Some title => Some title
                | None => name
                end in
  if negb (truthy_str name) then Ret None
  else
    bind (for_price_patterns element price_patterns None) (fun price =>
    bind (if truthy_int price then Ret price
          else match search_currency (get_text element) with
               | Some m => _extract_price m
               | None => Ret price
               end) (fun price =>
    match name, price with
    | Some name, Some price =>
        if (price =? 0)%Z then Ret None
        else Ret (Some {| l_name := name;
                          l_price := price;
                          l_unit := "kg";
                          l_url := resolve_url self element;
                          l_supermarket := BaseScraper.name self |})
    | _, _ => Ret None
    end)).

(** The container signatures tried on the whole page, in order. *)
Inductive container_pattern : Type :=
| class_product | class_item | class_card | data_product | data_item | itemtype_product.

Definition container_patterns : list container_pattern :=
  [class_product; class_item; class_card; data_product; data_item; itemtype_product].

(** The parsed page: [find_all("div", ...)] per signature and
    [find_all("article")]. *)
Record Soup : Type := mkSoup {
  find_all_div : container_pattern -> list Element;
  find_all_article : list Element
}.

Fixpoint first_containers (soup : Soup) (patterns : list container_pattern)
  : list Element :=
  match patterns with
  | [] => []
  | pattern :: rest =>
      match find_all_div soup pattern with
      | [] => first_containers soup rest
      | elements => elements
      end
  end.

(** [for element in product_elements], each turn inside its own
    [try ... except Exception: continue]. *)
Fixpoint for_elements (self : Scraper) (elements : list Element) : list Listing :=
  match elements with
  | [] => []
  | element :: rest =>
      match _extract_product_data self element with
      | Ret (Some product) =>
          if _is_fresh_produce (l_name product)
          then product :: for_elements self rest
          else for_elements self rest
      | Ret None => for_elements self rest
      | Raise _ => for_elements self rest
      end
  end.

Definition _parse_products (self : Scraper) (soup : Soup) : list Listing :=
  let product_elements :=
    match first_containers soup container_patterns with
    | [] => find_all_article soup
    | elements => elements
    end in
  for_elements self product_elements.

End GenericScraper.

(** ** scrapers/casarica.py *)

Module CasaRicaScraper.
Import Py BaseScraper.
Local Open Scope string_scope.

(** The class attribute [CATEGORY_URLS], keys in source order. *)
Definition CATEGORY_URLS : list (string * string) :=
  [ ("verduras", "/catalogo/verduras-c287");
    ("frutas", "/catalogo/frutas-c282") ].

(** [CATEGORY_URLS[category]] behind the test [category in CATEGORY_URLS]. *)
Definition category_path (category : string) : option string :=
  option_map snd (find (fun entry => String.eqb (fst entry) category) CATEGORY_URLS).

(** [re.search(r"(\d+)", s)] and [.group(1)] of the match. *)
Fixpoint search_digits (s : string) : option string :=
  match s with
  | EmptyString => None
  | String c s' =>
      if is_digit c then Some (take_while is_digit s) else search_digits s'
  end.

(** [int(s)] for a string of decimal digits. From CPython 3.11 on a
    string of more than [sys.get_int_max_str_digits()] digits is refused
    with [ValueError]; the limit is 4300 unless configured, and 0 stands
    for no limit, which is also the behaviour of earlier versions. *)
Definition int_of_digits (max_str_digits : nat) (s : string) : res Z :=
  if (0 <? max_str_digits)%nat && (max_str_digits <? String.length s)%nat
  then Raise ValueError
  else Ret (PyFloat.digits_value s).

(** The text [_extract_casarica_price] searches: the currency symbols
    and the separators removed, in the order of the calls to [replace],
    then stripped. *)
Definition cleaned (price_text : string) : string :=
  let cleaned := replace "," "" (replace "." "" (replace "₲" "" price_text)) in
  strip (replace "Gs" "" cleaned).

Definition _extract_casarica_price (max_str_digits : nat) (price_text : string)
  : res (option Z) :=
  match price_text with
  | EmptyString => Ret None
  | String _ _ =>
      match search_digits (cleaned price_text) with
      | Some group1 =>
          match int_of_digits max_str_digits group1 with
          | Ret n => Ret (Some n)
          | Raise ValueError => Ret None
          | Raise e => Raise e
          end
      | None => Ret None
      end
  end.

(** [str(n)] for a natural number. *)
Definition str (n : nat) : string := NilZero.string_of_uint (Nat.to_uint n).

Section Category.

Variable World : Type.
Variable session_get : string -> World -> res string * World.
Variable _parse_products : string -> res (list Listing).

(** [for page in ...] of [search_category]: each turn requests one
    page inside [try ... except Exception: break]; an empty page also
    breaks. *)
Fixpoint for_pages (url : string) (pages : list nat) (all_products : list Listing)
  (net : Net World) : list Listing * Net World :=
  match pages with
  | [] => (all_products, net)
  | page :: rest =>
      let page_url := url ++ "?page=" ++ str page in
      let (response, w) := session_get page_url (world net) in
      let net' := mkNet w (requests net ++ [page_url]) in
      match response with
      | Raise _ => (all_products, net')
      | Ret text =>
          match _parse_products text with
          | Raise _ => (all_products, net')
          | Ret [] => (all_products, net')
          | Ret products => for_pages url rest (all_products ++ products) net'
          end
      end
  end.

Definition search_category (self : Scraper) (category : string) (net : Net World)
  : list Listing * Net World :=
  match category_path category with
  | None => ([], net)
  | Some path =>
      let url := rstrip_char "/" (base_url self) ++ path in
      for_pages url (seq 1 5) [] net
  end.

End Category.


(** A [div.product] container, as the answers it gives to the lookups of
    [_parse_products]: [get_text(strip=True)] of the first
    [h2.ecommercepro-loop-product__title], [h2] and [h3], of the first
    [span.price] and [span.amount] ([None] when there is none), the
    [stripped_strings] of the container and the [href] of its first link
    that has one. *)
Record Element : Type := mkElement {
  h2_title : option string;
  h2 : option string;
  h3 : option string;
  span_price : option string;
  span_amount : option string;
  stripped_strings : list string;
  a_href : option string
}.

(** [a or b] on the results of [find]: a tag that was found is true. *)
Definition or_else {A : Type} (a b : option A) : option A :=
  match a with
  | Some _ => a
  | None => b
  end.

(** [for text in element.stripped_strings], from the current [price]. *)
Fixpoint for_stripped_strings (max_str_digits : nat) (texts : list string)
  (price : option Z) : res (option Z) :=
  match texts with
  | [] => Ret price
  | text :: rest =>
      if contains "₲" text then
        bind (_extract_casarica_price max_str_digits text) (fun price' =>
          if GenericScraper.truthy_int price' then Ret price'
          else for_stripped_strings max_str_digits rest price')
      else for_stripped_strings max_str_digits rest price
  end.

Definition resolve_url (self : Scraper) (href : option string) : string :=
  match href with
  | None => ""
  | Some url =>
      if GenericScraper.truthy_str (Some url) && negb (prefix "http" url)
      then rstrip_char "/" (base_url self) ++ "/" ++ lstrip_char "/" url
      else url
  end.

(** The body of the [try] block of [_parse_products] for one container;
    [Ret None] is a [continue]. *)
Definition parse_element (max_str_digits : nat) (self : Scraper) (element : Element)
  : res (option Listing) :=
  match or_else (h2_title element) (or_else (h2 element) (h3 element)) with
  | None => Ret None
  | Some name =>
      if negb (_is_fresh_produce name) then Ret None
      else
        bind (match or_else (span_price element) (span_amount element) with
              | Some price_text => _extract_casarica_price max_str_digits price_text
              | None => Ret None
              end) (fun price =>
        bind (if GenericScraper.truthy_int price then Ret price
              else for_stripped_strings max_str_digits (stripped_strings element) price)
             (fun price =>
        match price with
        | Some price =>
            if (price =? 0)%Z then Ret None
            else Ret (Some {| l_name := name;
                              l_price := price;
                              l_unit := "kg";
                              l_url := resolve_url self (a_href element);
                              l_supermarket := BaseScraper.name self |})
        | None => Ret None
        end))
  end.

(** [for element in product_elements], each turn inside its own
    [try ... except Exception: continue]; the argument is
    [soup.find_all("div", class_="product")]. *)
Fixpoint _parse_products (max_str_digits : nat) (self : Scraper)
  (product_elements : list Element) : list Listing :=
  match product_elements with
  | [] => []
  | element :: rest =>
      match parse_element max_str_digits self element with
      | Ret (Some product) => product :: _parse_products max_str_digits self rest
      | Ret None => _parse_products max_str_digits self rest
      | Raise _ => _parse_products max_str_digits self rest
      end
  end.

End CasaRicaScraper.

(** ** scrapers/stock.py: the text fallback *)

Module StockScraper.
Import Py BaseScraper.
Local Open Scope string_scope.

Definition produce_terms : list string :=
  [ "tomate"; "locote"; "pimiento"; "lechuga"; "morron"; "morrón" ].

(** The pattern [Gs\s*([\d.,]+)] tried at the start of [s]: the matched
    text. *)
Definition match_price_here (s : string) : option string :=
  if prefix "Gs" s then
    let after := lstrip (drop 2 s) in
    match take_while is_price_char after with
    | EmptyString => None
    | run => Some (take (String.length s - String.length after) s ++ run)
    end
  else None.

(** [re.search] of that pattern: the text before the leftmost match,
    [line[:match.start()]], and the match, [match.group(0)]. *)
Fixpoint search_price (s : string) : option (string * string) :=
  match match_price_here s with
  | Some m => Some ("", m)
  | None =>
      match s with
      | EmptyString => None
      | String c s' =>
          match search_price s' with
          | Some (before, m) => Some (String c before, m)
          | None => None
          end
      end
  end.

(** [for line in lines] *)
Fixpoint for_lines (self : Scraper) (lines : list string) (products : list Listing)
  : res (list Listing) :=
  match lines with
  | [] => Ret products
  | line :: rest =>
      let line := strip line in
      match line with
      | EmptyString => for_lines self rest products
      | String _ _ =>
          match search_price line with
          | None => for_lines self rest products
          | Some (before, group0) =>
              if existsb (fun term => contains term (lower line)) produce_terms then
                bind (_extract_price group0) (fun price =>
                  match price with
                  | Some price =>
                      if (price =? 0)%Z then for_lines self rest products
                      else
                        let name_part := strip before in
                        if (5 <? len name_part)%nat && _is_fresh_produce name_part
                        then for_lines self rest
                               (products ++
                                [ {| l_name := name_part;
                                     l_price := price;
                                     l_unit := "kg";
                                     l_url := "";
                                     l_supermarket := BaseScraper.name self |} ])%list
                        else for_lines self rest products
                  | None => for_lines self rest products
                  end)
              else for_lines self rest products
          end
      end
  end.

(** [_parse_from_text]; the argument is [soup.get_text()]. *)
Definition _parse_from_text (self : Scraper) (text : string) : res (list Listing) :=
  let lines := split (ascii_of_nat 10) text in
  for_lines self lines [].

End StockScraper.

(** ** utils/database.py *)

Module PriceDatabase.
Import Py.
Local Open Scope string_scope.
Local Open Scope Z_scope.

(** A row of the table [prices]. Dates are day numbers (the ISO text
    SQLite stores compares as the days do). [product_name_raw] is the
    only nullable column the program writes. [price_guaranies] is an
    INTEGER, a signed 64-bit value. The columns [id] and [created_at] are
    read by no query; the order of the list is the order of the rowids. *)
Record Row : Type := mkRow {
  date : Z;
  supermarket : string;
  product : string;
  product_name_raw : option string;
  price_guaranies : Z;
  unit : string
}.

Definition Table : Type := list Row.

Definition in_int64 (z : Z) : bool :=
  (- 2 ^ 63 <=? z) && (z <? 2 ^ 63).

(** Equality as the UNIQUE constraint sees a nullable column: NULL is
    distinct from every value, NULL included. *)
Definition same_non_null (a b : option string) : bool :=
  match a, b with
  | Some x, Some y => String.eqb x y
  | _, _ => false
  end.

(** [UNIQUE(date, supermarket, product, product_name_raw)]: does the
    stored row [old] collide with the row [new] being inserted? *)
Definition unique_conflict (new old : Row) : bool :=
  (date old =? date new) &&
  String.eqb (supermarket old) (supermarket new) &&
  String.eqb (product old) (product new) &&
  same_non_null (product_name_raw old) (product_name_raw new).

(** [INSERT OR REPLACE]: the rows that collide with the new row are
    deleted, then the new row is inserted with a fresh rowid. *)
Definition insert_or_replace (new : Row) (table : Table) : Table :=
  (filter (fun old => negb (unique_conflict new old)) table ++ [new])%list.

(** [save_price]; [today] is [datetime.now().date()]. The sqlite3
    binding refuses an integer outside 64 bits with [OverflowError], which
    the handler for [IntegrityError] does not catch. *)
Definition save_price (today : Z) (table : Table)
  (supermarket product : string) (price_guaranies : Z)
  (product_name_raw : option string) (unit : string) (date : option Z)
  : res Table :=
  let date := match date with None => today | Some d => d end in
  if in_int64 price_guaranies
  then Ret (insert_or_replace
              (mkRow date supermarket product product_name_raw price_guaranies unit)
              table)
  else Raise OverflowError.

(** The dict a query returns per row. *)
Record Price : Type := mkPrice {
  pr_supermarket : string;
  pr_product : string;
  pr_price : Z;
  pr_product_name_raw : option string;
  pr_unit : string
}.

(** [ORDER BY]: insertion sort, rows that compare equal stay in rowid
    order (SQL leaves their order open). *)
Fixpoint insert_by {A : Type} (le : A -> A -> bool) (x : A) (l : list A) : list A :=
  match l with
  | [] => [x]
  | y :: l' => if le x y then x :: l else y :: insert_by le x l'
  end.

Definition order_by {A : Type} (le : A -> A -> bool) (l : list A) : list A :=
  fold_right (insert_by le) [] l.

Definition price_asc (a b : Row) : bool :=
  price_guaranies a <=? price_guaranies b.

(** [ORDER BY product, price_guaranies ASC] under the BINARY collation. *)
Definition product_price_asc (a b : Row) : bool :=
  match String.compare (product a) (product b) with
  | Lt => true
  | Eq => price_guaranies a <=? price_guaranies b
  | Gt => false
  end.

Definition date_desc (a b : Row) : bool := date b <=? date a.

Definition to_price (r : Row) : Price :=
  mkPrice (supermarket r) (product r) (price_guaranies r) (product_name_raw r) (unit r).

(** Python truth of an optional string: neither [None] nor empty. *)
Definition truthy (s : option string) : bool :=
  match s with
  | None => false
  | Some EmptyString => false
  | Some (String _ _) => true
  end.

Definition get_prices_for_date (table : Table) (d : Z) (product_filter : option string)
  : list Price :=
  if truthy product_filter then
    let p := match product_filter with Some p => p | None => "" end in
    map to_price
      (order_by price_asc
         (filter (fun r => (date r =? d) && String.eqb (product r) p) table))
  else
    map to_price
      (order_by product_price_asc (filter (fun r => date r =? d) table)).

Definition get_today_prices (today : Z) (table : Table) (product_filter : option string)
  : list Price :=
  get_prices_for_date table today product_filter.

(** [ORDER BY date DESC LIMIT 1] over the rows of the pair before today. *)
Definition get_previous_price (today : Z) (table : Table) (sm p : string) : option Z :=
  match order_by date_desc
          (filter (fun r => String.eqb (supermarket r) sm &&
                            String.eqb (product r) p &&
                            (date r <? today)) table) with
  | [] => None
  | row :: _ => Some (price_guaranies row)
  end.

(** [AVG(price_guaranies)] over a non-empty group of integers, in the
    order of the rows: SQLite adds each value, as a double, to a running
    double, and divides that sum by the count. *)
Definition AVG (prices : list Z) : Q :=
  let zero := 0%Q in
  let rSum := fold_left (fun acc v => PyFloat.fadd acc (PyFloat.of_int v)) prices zero in
  let count := PyFloat.of_int (Z.of_nat (List.length prices)) in
  PyFloat.b64 (rSum / count)%Q.

(** [GROUP BY date ORDER BY date ASC]: the dates present, each once,
    ascending. *)
Fixpoint insert_date (d : Z) (dates : list Z) : list Z :=
  match dates with
  | [] => [d]
  | x :: rest =>
      if d <? x then d :: dates
      else if d =? x then dates
      else x :: insert_date d rest
  end.

Definition distinct_dates (rows : list Row) : list Z :=
  fold_right insert_date [] (map date rows).

Definition prices_on (rows : list Row) (d : Z) : list Z :=
  map price_guaranies (filter (fun r => date r =? d) rows).

(** The rows of the product with [date BETWEEN start_date AND end_date]. *)
Definition window_rows (table : Table) (p : string) (start_date end_date : Z)
  : list Row :=
  filter (fun r => String.eqb (product r) p &&
                   (start_date <=? date r) && (date r <=? end_date)) table.

(** The result set of the query of [get_price_trend]. *)
Definition daily_averages (rows : list Row) : list (Z * Q) :=
  map (fun d => (d, AVG (prices_on rows d))) (distinct_dates rows).



Inductive trend_class : Type := up | down | stable.

(** The dict [get_price_trend] returns: the short form for too few
    dates, or the classification with the rounded change and the two
    truncated averages. *)
Inductive TrendSummary : Type :=
| insufficient_data
| trend_summary (trend : trend_class) (change_percent : Q) (first_price last_price : Z).

(** [((last - first) / first) * 100] on floats. *)
Definition percent_change (first_price last_price : Q) : res Q :=
  bind (PyFloat.fdiv (PyFloat.fsub last_price first_price) first_price)
       (fun ratio => Ret (PyFloat.fmul ratio 100)).

Definition classify (change_percent : Q) : trend_class :=
  if PyFloat.Qltb 2 change_percent then up
  else if PyFloat.Qltb change_percent (-2) then down
  else stable.

Definition get_price_trend (today : Z) (table : Table) (p : string) (days : Z)
  : res TrendSummary :=
  let end_date := today in
  bind (timedelta days) (fun delta =>
  bind (date_sub end_date delta) (fun start_date =>
  let data := daily_averages (window_rows table p start_date end_date) in
  if (List.length data <? 2)%nat then Ret insufficient_data
  else
    let first_price := snd (hd (0, 0%Q) data) in
    let last_price := snd (List.last data (0, 0%Q)) in
    bind (percent_change first_price last_price) (fun change_percent =>
      Ret (trend_summary (classify change_percent)
             (PyFloat.round1 change_percent)
             (PyFloat.trunc first_price)
             (PyFloat.trunc last_price))))).

(** No two rows of the table collide under the UNIQUE constraint. *)
Fixpoint keys_unique (table : Table) : Prop :=
  match table with
  | [] => True
  | r :: rest => (forall r', In r' rest -> unique_conflict r r' = false) /\ keys_unique rest
  end.

End PriceDatabase.

(** ** main.py *)

Module PriceMonitor.
Import Py BaseScraper.
Local Open Scope string_scope.
Local Open Scope Z_scope.

(** One entry of the [products] list of the configuration. *)
Record Product : Type := mkProduct {
  p_name : option string;
  p_search_terms : option (list string);
  p_unit : option string
}.

(** One collected price, the dict appended to [all_prices]. *)
Record PriceData : Type := mkPriceData {
  pd_supermarket : string;
  pd_product : string;
  pd_product_name_raw : string;
  pd_price : Z;
  pd_unit : string
}.

Fixpoint any_term_lower_in (search_terms : list string) (raw_lower : string) : bool :=
  match search_terms with
  | [] => false
  | term :: rest =>
      if contains (lower term) raw_lower then true
      else any_term_lower_in rest raw_lower
  end.

Definition _matches_product (raw_name : string) (product : Product) : bool :=
  let raw_lower := lower raw_name in
  let search_terms := get (p_search_terms product) [] in
  any_term_lower_in search_terms raw_lower.

(** The dict [seen_supermarkets]: keys in insertion order. *)
Fixpoint dict_get {V : Type} (key : string) (d : list (string * V)) : option V :=
  match d with
  | [] => None
  | (k, v) :: rest => if String.eqb k key then Some v else dict_get key rest
  end.

Fixpoint dict_set {V : Type} (key : string) (value : V) (d : list (string * V))
  : list (string * V) :=
  match d with
  | [] => [(key, value)]
  | (k, v) :: rest =>
      if String.eqb k key then (k, value) :: rest
      else (k, v) :: dict_set key value rest
  end.

(** The deduplication loop of [_generate_report_data]. *)
Fixpoint for_prices (prices : list PriceDatabase.Price)
  (seen_supermarkets : list (string * PriceDatabase.Price))
  : list (string * PriceDatabase.Price) :=
  match prices with
  | [] => seen_supermarkets
  | p :: rest =>
      let sm := PriceDatabase.pr_supermarket p in
      let keep :=
        match dict_get sm seen_supermarkets with
        | None => true
        | Some q => PriceDatabase.pr_price p <? PriceDatabase.pr_price q
        end in
      for_prices rest (if keep then dict_set sm p seen_supermarkets else seen_supermarkets)
  end.

Definition deduplicate (prices : list PriceDatabase.Price) : list PriceDatabase.Price :=
  map snd (for_prices prices []).

(** [sorted(values)] *)
Definition sorted (values : list Z) : list Z :=
  PriceDatabase.order_by Z.leb values.

(** [int(statistics.median(values))] *)
Definition int_median (values : list Z) : res Z :=
  let data := sorted values in
  let n := List.length data in
  match n with
  | O => Raise StatisticsError
  | _ =>
      if Nat.odd n then Ret (nth (n / 2) data 0)
      else
        let i := (n / 2)%nat in
        bind (PyFloat.truediv (nth (i - 1) data 0 + nth i data 0) 2)
             (fun x => Ret (PyFloat.trunc x))
  end.

(** The median of a list, stated without sorting it. [x] has rank [k]
    (counted from 0) among [values] when it is one of them, at most [k]
    of them are below it and more than [k] of them are not above it.
    The integer median is the value of middle rank of an odd number of
    values, and the mean of the two values of middle rank, without its
    fraction, of an even number. *)
Definition count_below (x : Z) (values : list Z) : nat :=
  List.length (filter (fun v => v <? x)%Z values).

Definition count_upto (x : Z) (values : list Z) : nat :=
  List.length (filter (fun v => v <=? x)%Z values).

Definition has_rank (values : list Z) (k : nat) (x : Z) : Prop :=
  In x values /\ (count_below x values <= k < count_upto x values)%nat.

Definition is_integer_median (values : list Z) (median : Z) : Prop :=
  let n := List.length values in
  exists a b,
    has_rank values ((n - 1) / 2) a /\ has_rank values (n / 2) b /\
    median = Z.quot (a + b) 2.

(** What [int_median] computes when the division by two is exact: the
    middle position of the sorted list, or the mean of the two middle
    positions without its fraction. *)
Definition integer_median (values : list Z) : Z :=
  let data := sorted values in
  let n := List.length data in
  if Nat.odd n then nth (n / 2) data 0
  else Z.quot (nth (n / 2 - 1) data 0 + nth (n / 2) data 0) 2.

(** One entry of the [alerts] list. *)
Record Alert : Type := mkAlert {
  al_product : string;
  al_supermarket : string;
  al_change_percent : Q;
  al_previous_price : Z;
  al_current_price : Z
}.

(** [((price - previous) / previous) * 100]: integer true division,
    then a float product. *)
Definition alert_change (price previous : Z) : res Q :=
  bind (PyFloat.truediv (price - previous) previous)
       (fun ratio => Ret (PyFloat.fmul ratio 100)).

(** The loop [for price in prices] that collects the alerts of a
    product. [threshold] is [alert_threshold], a number. *)
Fixpoint for_alerts (today : Z) (table : PriceDatabase.Table) (threshold : Q)
  (product_name : string) (prices : list PriceDatabase.Price) (alerts : list Alert)
  : res (list Alert) :=
  match prices with
  | [] => Ret alerts
  | price :: rest =>
      let sm := PriceDatabase.pr_supermarket price in
      match PriceDatabase.get_previous_price today table sm product_name with
      | Some previous =>
          if (previous =? 0)%Z then for_alerts today table threshold product_name rest alerts
          else
            bind (alert_change (PriceDatabase.pr_price price) previous) (fun change =>
              for_alerts today table threshold product_name rest
                (if Qle_bool threshold (Qabs change)
                 then (alerts ++ [ mkAlert product_name sm change previous
                                     (PriceDatabase.pr_price price) ])%list
                 else alerts))
      | None => for_alerts today table threshold product_name rest alerts
      end
  end.

(** One entry of the [products] list of the report. *)
Record ReportProduct : Type := mkReportProduct {
  rp_name : string;
  rp_median : Z;
  rp_prices : list PriceDatabase.Price
}.

(** The report without its time stamp. *)
Record Report : Type := mkReport {
  r_products : list ReportProduct;
  r_alerts : list Alert;
  r_trends : list (string * PriceDatabase.TrendSummary)
}.

Definition price_le (a b : PriceDatabase.Price) : bool :=
  (PriceDatabase.pr_price a <=? PriceDatabase.pr_price b)%Z.

(** One turn of [for product in products_config], from the lists built
    so far. *)
Definition report_product (today : Z) (table : PriceDatabase.Table) (threshold : Q)
  (product : Product) (report : Report) : res Report :=
  let product_name := get (p_name product) "" in
  let prices := PriceDatabase.get_today_prices today table (Some product_name) in
  match prices with
  | [] => Ret report
  | _ :: _ =>
      let prices := deduplicate prices in
      let price_values := map PriceDatabase.pr_price prices in
      bind (int_median price_values) (fun median =>
      bind (for_alerts today table threshold product_name prices (r_alerts report))
        (fun alerts =>
      bind (PriceDatabase.get_price_trend today table product_name 7) (fun trend =>
        Ret (mkReport
               (r_products report ++
                [ mkReportProduct product_name median
                    (PriceDatabase.order_by price_le prices) ])%list
               alerts
               (dict_set product_name trend (r_trends report))))))
  end.

Fixpoint for_report_products (today : Z) (table : PriceDatabase.Table) (threshold : Q)
  (products_config : list Product) (report : Report) : res Report :=
  match products_config with
  | [] => Ret report
  | product :: rest =>
      bind (report_product today table threshold product report)
           (for_report_products today table threshold rest)
  end.

Definition _generate_report_data (today : Z) (table : PriceDatabase.Table)
  (threshold : Q) (products_config : list Product) : res Report :=
  for_report_products today table threshold products_config (mkReport [] [] []).

(** A product whose [search_terms] entry is absent or empty. *)
Definition no_search_terms (product : Product) : Prop :=
  p_search_terms product = None \/ p_search_terms product = Some [].

Section Pipeline.

Variable World : Type.
Variable format : string -> string -> res string.
Variable session_get : string -> World -> res string * World.

(** The parser of each class of the [SCRAPERS] table, by supermarket
    name, and the parser of [GenericScraper]. *)
Variable SCRAPERS : string -> option (string -> res (list Listing)).
Variable GenericScraper_parse : string -> res (list Listing).

Definition parser_for (name : string) : string -> res (list Listing) :=
  match SCRAPERS name with
  | Some parse => parse
  | None => GenericScraper_parse
  end.

(** The state the loops of [_scrape_all_prices] work on: the list
    [all_prices] and the network. *)
Definition Run : Type := (list PriceData * Net World)%type.

(** [for result in results] *)
Fixpoint for_results (name : string) (product : Product) (results : list Listing)
  (all_prices : list PriceData) : list PriceData :=
  match results with
  | [] => all_prices
  | result :: rest =>
      let all_prices' :=
        if _matches_product (l_name result) product
        then (all_prices ++
              [ {| pd_supermarket := name;
                   pd_product := get (p_name product) "";
                   pd_product_name_raw := l_name result;
                   pd_price := l_price result;
                   pd_unit := get (p_unit product) "kg" |} ])%list
        else all_prices in
      for_results name product rest all_prices'
  end.

(** [for term in search_terms] *)
Fixpoint for_terms (name : string) (scraper : Scraper)
  (parse : string -> res (list Listing)) (product : Product)
  (search_terms : list string) (run : Run) : res unit * Run :=
  match search_terms with
  | [] => (Ret tt, run)
  | term :: rest =>
      let (outcome, net') := search World format session_get parse scraper term (snd run) in
      match outcome with
      | Raise e => (Raise e, (fst run, net'))
      | Ret results =>
          for_terms name scraper parse product rest
            (for_results name product results (fst run), net')
      end
  end.

(** The terms the pipeline searches for one product. *)
Definition search_terms_of (product : Product) : list string :=
  let product_name := get (p_name product) "" in
  get (p_search_terms product) [lower product_name].

(** One turn of [for product in products]. *)
Definition scrape_product (name : string) (scraper : Scraper)
  (parse : string -> res (list Listing)) (product : Product) (run : Run)
  : res unit * Run :=
  for_terms name scraper parse product (search_terms_of product) run.

Fixpoint for_products (name : string) (scraper : Scraper)
  (parse : string -> res (list Listing)) (products : list Product) (run : Run)
  : res unit * Run :=
  match products with
  | [] => (Ret tt, run)
  | product :: rest =>
      let (outcome, run') := scrape_product name scraper parse product run in
      match outcome with
      | Raise e => (Raise e, run')
      | Ret _ => for_products name scraper parse rest run'
      end
  end.

(** [for supermarket_config in supermarkets]; the [except Exception]
    of the loop body keeps what was collected and goes on. *)
Fixpoint for_supermarkets (products : list Product)
  (supermarkets : list SupermarketConfig) (run : Run) : Run :=
  match supermarkets with
  | [] => run
  | supermarket_config :: rest =>
      if negb (get (cfg_enabled supermarket_config) true)
      then for_supermarkets products rest run
      else
        let name := get (cfg_name supermarket_config) "" in
        let scraper := __init__ supermarket_config in
        let (_, run') := for_products name scraper (parser_for name) products run in
        for_supermarkets products rest run'
  end.

Definition _scrape_all_prices (products : list Product)
  (supermarkets : list SupermarketConfig) (net : Net World)
  : list PriceData * Net World :=
  for_supermarkets products supermarkets ([], net).

End Pipeline.

(** [_save_prices]: every collected price is saved under today's date;
    each save commits, so an exception leaves the earlier saves in the
    table. *)
Fixpoint _save_prices (today : Z) (prices : list PriceData) (table : PriceDatabase.Table)
  : res Datatypes.unit * PriceDatabase.Table :=
  match prices with
  | [] => (Ret tt, table)
  | price_data :: rest =>
      match PriceDatabase.save_price today table
              (pd_supermarket price_data) (pd_product price_data) (pd_price price_data)
              (Some (pd_product_name_raw price_data)) (pd_unit price_data) None with
      | Ret table' => _save_prices today rest table'
      | Raise e => (Raise e, table)
      end
  end.

(** The row [_save_prices] stores for one collected price. *)
Definition row_of (today : Z) (pd : PriceData) : PriceDatabase.Row :=
  PriceDatabase.mkRow today (pd_supermarket pd) (pd_product pd)
    (Some (pd_product_name_raw pd)) (pd_price pd) (pd_unit pd).

(** What [_scrape_all_prices] records about a price collected for
    [product] at the source called [name]. *)
Definition recorded_for (name : string) (product : Product) (pd : PriceData) : Prop :=
  pd_supermarket pd = name /\
  pd_product pd = get (p_name product) "" /\
  pd_unit pd = get (p_unit product) "kg" /\
  _matches_product (pd_product_name_raw pd) product = true.

End PriceMonitor.

(** ** utils/database.py: the median queries *)

Module PriceStatistics.
Import Py PriceDatabase.
Local Open Scope string_scope.
Local Open Scope Z_scope.

(** [get_median_price(product, date=None)] *)
Definition get_median_price (today : Z) (table : Table) (product : string) (date : option Z)
  : res (option Z) :=
  let date := match date with None => today | Some d => d end in
  let prices := get_prices_for_date table date (Some product) in
  match prices with
  | [] => Ret None
  | _ :: _ =>
      let price_values := map pr_price prices in
      bind (PriceMonitor.int_median price_values) (fun median => Ret (Some median))
  end.

(** [get_week_ago_median(product)] *)
Definition get_week_ago_median (today : Z) (table : Table) (product : string)
  : res (option Z) :=
  bind (timedelta 7) (fun delta =>
  bind (date_sub today delta) (fun week_ago =>
  get_median_price today table product (Some week_ago))).

End PriceStatistics.

(** ** Scenarios used by the examples *)

Module Scenario.
Import Py BaseScraper PriceMonitor.
Local Open Scope string_scope.

(** A run on a world where every request succeeds with an empty page. *)
Definition quiet_format (template query : string) : res string :=
  Ret (template ++ query).

Definition quiet_get (url : string) (w : unit) : res string * unit :=
  (Ret "", w).

(** A world where every request times out. *)
Definition failing_get (url : string) (w : unit) : res string * unit :=
  (Raise RequestException, w).

Definition quiet_run (products : list Product) : list PriceData * Net unit :=
  _scrape_all_prices unit quiet_format quiet_get
    (fun _ => None) (fun _ => Ret [])
    products
    [ mkSupermarketConfig (Some "Biggie") None
        (Some "https://biggie.example/search?q=") (Some true) ]
    (mkNet tt []).

(** A page with one product container whose only name field is the
    heading "Aj" and whose price field reads "Gs 5.000". *)
Definition biggie : Scraper :=
  __init__ (mkSupermarketConfig (Some "Biggie") (Some "https://biggie.example")
              (Some "https://biggie.example/search?q=") (Some true)).

Definition short_name_element : GenericScraper.Element :=
  GenericScraper.mkElement
    (fun pattern => match pattern with GenericScraper.h2 => Some "Aj" | _ => None end)
    None
    (fun pattern tag =>
       match pattern, tag with
       | GenericScraper.class_price, GenericScraper.span => Some "Gs 5.000"
       | _, _ => None
       end)
    "AjGs 5.000"
    None.

Definition short_name_soup : GenericScraper.Soup :=
  GenericScraper.mkSoup
    (fun pattern =>
       match pattern with
       | GenericScraper.class_product => [short_name_element]
       | _ => []
       end)
    [].

(** A store with the history of the trend example: the product at
    20000 six days ago and at 21000 today. *)
Definition trend_table : PriceDatabase.Table :=
  [ PriceDatabase.mkRow 94 "Stock" "Tomate Lisa" (Some "Tomate Lisa x kg") 20000 "kg";
    PriceDatabase.mkRow 100 "Stock" "Tomate Lisa" (Some "Tomate Lisa x kg") 21000 "kg" ].

(** The same averages, each the mean of two prices of the date. *)
Definition averaged_trend_table : PriceDatabase.Table :=
  [ PriceDatabase.mkRow 94 "Stock" "Tomate Lisa" (Some "Tomate Lisa x kg") 19000 "kg";
    PriceDatabase.mkRow 100 "Stock" "Tomate Lisa" (Some "Tomate Lisa x kg") 20000 "kg";
    PriceDatabase.mkRow 94 "Biggie" "Tomate Lisa" (Some "Tomate Lisa") 21000 "kg";
    PriceDatabase.mkRow 100 "Biggie" "Tomate Lisa" (Some "Tomate Lisa") 22000 "kg" ].



(** A store where source "Biggie" has two listings of the product
    today, at 16800 and 16500, and a stored price of 20250 from the day
    before. *)
Definition alert_table : PriceDatabase.Table :=
  [ PriceDatabase.mkRow 99 "Biggie" "Tomate Lisa" (Some "Tomate Lisa") 20250 "kg";
    PriceDatabase.mkRow 100 "Biggie" "Tomate Lisa" (Some "Tomate Lisa Extra") 16800 "kg";
    PriceDatabase.mkRow 100 "Biggie" "Tomate Lisa" (Some "Tomate Lisa") 16500 "kg" ].

(** Stores of one day: three sources (one of them with two listings),
    and two sources. *)
Definition three_source_table : PriceDatabase.Table :=
  [ PriceDatabase.mkRow 100 "Biggie" "Tomate Lisa" (Some "Tomate Lisa Extra") 16800 "kg";
    PriceDatabase.mkRow 100 "Stock" "Tomate Lisa" (Some "Tomate Lisa x kg") 18000 "kg";
    PriceDatabase.mkRow 100 "Biggie" "Tomate Lisa" (Some "Tomate Lisa") 16500 "kg";
    PriceDatabase.mkRow 100 "Superseis" "Tomate Lisa" (Some "Tomate Lisa") 17000 "kg" ].

Definition two_source_table : PriceDatabase.Table :=
  [ PriceDatabase.mkRow 100 "Stock" "Tomate Lisa" (Some "Tomate Lisa x kg") 17500 "kg";
    PriceDatabase.mkRow 100 "Biggie" "Tomate Lisa" (Some "Tomate Lisa") 16500 "kg" ].

(** A product configured without a name, and a store of one day where
    its only fact is priced 20000 and another product of the same source
    is priced 16500. *)
Definition nameless : Product :=
  mkProduct None (Some ["locote"]) (Some "kg").

Definition nameless_table : PriceDatabase.Table :=
  [ PriceDatabase.mkRow 100 "Biggie" "" (Some "Locote rojo") 20000 "kg";
    PriceDatabase.mkRow 100 "Biggie" "Tomate Lisa" (Some "Tomate Lisa") 16500 "kg" ].

Definition tomate_lisa : Product :=
  mkProduct (Some "Tomate Lisa") (Some ["tomate"]) (Some "kg").

(** A source that is switched off, and the same source switched on. *)
Definition closed_source : SupermarketConfig :=
  mkSupermarketConfig (Some "Biggie") None
    (Some "https://biggie.example/search?q=") (Some false).

Definition open_source : SupermarketConfig :=
  mkSupermarketConfig (Some "Biggie") None
    (Some "https://biggie.example/search?q=") (Some true).

(** A run on a world where every page lists one tomato. *)
Definition tomato_parse (text : string) : res (list Listing) :=
  Ret [ mkListing "Tomate Lisa x kg" 12500 "kg" "" "Biggie" ].

Definition tomato_run : list PriceData * Net unit :=
  _scrape_all_prices unit quiet_format quiet_get
    (fun _ => None) tomato_parse
    [tomate_lisa] [open_source] (mkNet tt []).

(** The batch that run collects, and a price no 64-bit column holds. *)
Definition collected : list PriceData :=
  [ mkPriceData "Biggie" "Tomate Lisa" "Tomate Lisa x kg" 12500 "kg" ].

Definition oversized : PriceData :=
  mkPriceData "Biggie" "Tomate Lisa" "Tomate Lisa x kg" (2 ^ 63) "kg".

(** The report built today from [alert_table] with threshold 15. *)
Definition alert_report : Report :=
  match _generate_report_data 100 alert_table 15 [tomate_lisa] with
  | Ret report => report
  | Raise _ => mkReport [] [] []
  end.

(** A Casa Rica container: a title and a price in the site's format. *)
Definition casarica_element : CasaRicaScraper.Element :=
  CasaRicaScraper.mkElement (Some "Tomate perita x kg") None None
    (Some "₲. 48.300") None [] None.

End Scenario.

(** * Properties *)

Section Classifier.
Import Py BaseScraper.
Local Open Scope string_scope.

Lemma any_term_in_existsb (terms : list string) (name : string) :
  any_term_in terms name = contains_any terms name.
Proof.
  unfold contains_any.
  induction terms as [|t ts IH]; simpl; [reflexivity|].
  destruct (contains t name); simpl; [reflexivity | exact IH].
Qed.

(** C6. The classifier is its ordered rule list read top to bottom,
    first match winning, where "contains" is containment in the
    lowercased name: an exclusion term gives false; otherwise an
    inclusion term gives true; otherwise the weight-unit token gives
    true; otherwise the default true. "Tomate frito en lata" is
    rejected and "Tomate Lisa x kg" accepted. *)
Theorem is_fresh_produce_rule_chain :
  (forall name, _is_fresh_produce name = classify_by_rules name) /\
  (forall name,
      classify_by_rules name =
      if contains_any exclude_terms (lower name) then false
      else if contains_any include_terms (lower name) then true
      else if contains "kg" (lower name) then true
      else true) /\
  _is_fresh_produce "Tomate frito en lata" = false /\
  _is_fresh_produce "Tomate Lisa x kg" = true.
Proof.
  split; [|split; [|split]].
  - intro name. unfold _is_fresh_produce, classify_by_rules, classifier_rules.
    cbn [first_match]. rewrite !any_term_in_existsb. reflexivity.
  - intro name. reflexivity.
  - vm_compute. reflexivity.
  - vm_compute. reflexivity.
Qed.

(** C9. The classifier equals the single predicate "no exclusion term
    occurs in the lowercased name": the inclusion rules, the
    weight-unit rule and the default all answer true. *)
Theorem is_fresh_produce_exclusion_only (name : string) :
  _is_fresh_produce name = no_exclusion_term name /\
  classify_by_rules name = no_exclusion_term name.
Proof.
  unfold _is_fresh_produce, classify_by_rules, no_exclusion_term, classifier_rules.
  cbn [first_match]. rewrite !any_term_in_existsb.
  destruct (contains_any exclude_terms (lower name)); cbn [negb]; [split; reflexivity|].
  destruct (contains_any include_terms (lower name)); [split; reflexivity|].
  destruct (contains "kg" (lower name)); split; reflexivity.
Qed.

End Classifier.

Section AdapterFacts.
Import Py BaseScraper.
Local Open Scope string_scope.

Variable World : Type.
Variable format : string -> string -> res string.
Variable session_get : string -> World -> res string * World.
Variable _parse_products : string -> res (list Listing).

Local Abbreviation search :=
  (BaseScraper.search World format session_get _parse_products).
Local Abbreviation search_body :=
  (BaseScraper.search_body World format session_get _parse_products).

Lemma search_disabled (self : Scraper) (query : string) (net : Net World) :
  enabled self = false -> search self query net = (Ret [], net).
Proof.
  intro H. unfold BaseScraper.search. rewrite H. reflexivity.
Qed.

Lemma search_enabled (self : Scraper) (query : string) (net : Net World) :
  enabled self = true ->
  search self query net =
  (match fst (search_body self query net) with
   | Ret products => Ret products
   | Raise _ => Ret []
   end, snd (search_body self query net)).
Proof.
  intro H. unfold BaseScraper.search. rewrite H. cbn [negb].
  destruct (search_body self query net) as [[products|e] net'].
  - reflexivity.
  - destruct e; reflexivity.
Qed.

Lemma search_logs_request (self : Scraper) (query : string) (net : Net World) (url : string) :
  enabled self = true ->
  format (search_url self) query = Ret url ->
  requests (snd (search self query net)) = (requests net ++ [url])%list.
Proof.
  intros Hen Hf. rewrite (search_enabled self query net Hen). cbn [snd].
  unfold BaseScraper.search_body. rewrite Hf.
  destruct (session_get url (world net)) as [[text|e] w]; reflexivity.
Qed.

(** C7. [search] never raises: it always returns a list of listings. A
    disabled adapter returns the empty list and leaves the network
    untouched; a failing URL template, a transport failure (timeout,
    refused connection, non-2xx status) and a parse failure each give
    the empty list; otherwise the parsed listings are returned. *)
Theorem search_never_raises (self : Scraper) (query : string) (net : Net World) :
  exists listings net',
    search self query net = (Ret listings, net') /\
    (enabled self = false -> listings = [] /\ net' = net) /\
    (enabled self = true ->
     forall e, format (search_url self) query = Raise e ->
               listings = [] /\ net' = net) /\
    (enabled self = true ->
     forall url, format (search_url self) query = Ret url ->
       requests net' = (requests net ++ [url])%list /\
       (forall e, fst (session_get url (world net)) = Raise e -> listings = []) /\
       (forall text e, fst (session_get url (world net)) = Ret text ->
                       _parse_products text = Raise e -> listings = []) /\
       (forall text products, fst (session_get url (world net)) = Ret text ->
                       _parse_products text = Ret products -> listings = products)).
Proof.
  destruct (enabled self) eqn:Hen.
  - rewrite (search_enabled self query net Hen).
    unfold BaseScraper.search_body.
    destruct (format (search_url self) query) as [url|e] eqn:Hf.
    + destruct (session_get url (world net)) as [[text|e] w] eqn:Hg.
      * destruct (_parse_products text) as [products|e] eqn:Hp.
        -- exists products, (mkNet w (requests net ++ [url])).
           cbn. split; [reflexivity|]. split; [discriminate|].
           split; [intros _ e He; discriminate|].
           intros _ url' Hu. injection Hu as <-. rewrite Hg. cbn.
           split; [reflexivity|]. split; [discriminate|].
           split; intros text' x Ht Hx; injection Ht as <-; congruence.
        -- exists [], (mkNet w (requests net ++ [url])).
           cbn. split; [reflexivity|]. split; [discriminate|].
           split; [intros _ e' He; discriminate|].
           intros _ url' Hu. injection Hu as <-. rewrite Hg. cbn.
           split; [reflexivity|]. split; [reflexivity|].
           split; intros text' x Ht Hx; injection Ht as <-; congruence.
      * exists [], (mkNet w (requests net ++ [url])).
        cbn. split; [reflexivity|]. split; [discriminate|].
        split; [intros _ e' He; discriminate|].
        intros _ url' Hu. injection Hu as <-. rewrite Hg. cbn.
        split; [reflexivity|]. split; [reflexivity|].
        split; intros text' x Ht Hx; discriminate.
    + exists [], net. cbn. split; [reflexivity|]. split; [discriminate|].
      split; [intros _ e' He; split; reflexivity|].
      intros _ url Hu. discriminate.
  - rewrite (search_disabled self query net Hen).
    exists [], net. split; [reflexivity|]. split; [split; reflexivity|].
    split; discriminate.
Qed.

End AdapterFacts.

Section PipelineFacts.
Import Py BaseScraper PriceMonitor.
Local Open Scope string_scope.

Variable World : Type.
Variable format : string -> string -> res string.
Variable session_get : string -> World -> res string * World.

Local Abbreviation search := (BaseScraper.search World format session_get).
Local Abbreviation for_terms := (PriceMonitor.for_terms World format session_get).
Local Abbreviation scrape_product :=
  (PriceMonitor.scrape_product World format session_get).

Lemma matches_product_no_terms (raw_name : string) (product : Product) :
  no_search_terms product -> _matches_product raw_name product = false.
Proof.
  unfold _matches_product. intros [H|H]; rewrite H; reflexivity.
Qed.

Lemma for_results_no_terms (name : string) (product : Product)
  (results : list Listing) (all_prices : list PriceData) :
  no_search_terms product ->
  for_results name product results all_prices = all_prices.
Proof.
  intro H. revert all_prices.
  induction results as [|result rest IH]; intro all_prices; cbn [for_results].
  - reflexivity.
  - rewrite (matches_product_no_terms _ _ H). apply IH.
Qed.

Lemma for_terms_no_terms (name : string) (scraper : Scraper)
  (parse : string -> res (list Listing)) (product : Product)
  (search_terms : list string) (run : Run World) :
  no_search_terms product ->
  fst (snd (for_terms name scraper parse product search_terms run)) = fst run.
Proof.
  intro H. revert run.
  induction search_terms as [|term rest IH]; intro run; cbn [PriceMonitor.for_terms].
  - reflexivity.
  - destruct (BaseScraper.search World format session_get parse scraper term (snd run))
      as [[results|e] net'].
    + rewrite IH. cbn [fst]. apply for_results_no_terms, H.
    + reflexivity.
Qed.

(** C10 (amended). A product without usable search terms never matches a
    listing and never adds a price, whatever is searched. When the
    [search_terms] entry is absent the pipeline runs exactly one search
    per enabled source for the product, with the lowercased canonical
    name as the term (so a well-formed template puts one request on the
    network); when the entry is present but empty the pipeline performs
    no search at all for the product. *)
Theorem no_search_terms_never_recorded :
  (forall raw_name product,
      no_search_terms product -> _matches_product raw_name product = false) /\
  (forall name scraper parse product run,
      no_search_terms product ->
      fst (snd (scrape_product name scraper parse product run)) = fst run) /\
  (forall name scraper parse product run,
      p_search_terms product = None ->
      snd (snd (scrape_product name scraper parse product run)) =
      snd (search parse scraper (lower (get (p_name product) "")) (snd run)) /\
      (forall url,
          enabled scraper = true ->
          format (search_url scraper) (lower (get (p_name product) "")) = Ret url ->
          requests (snd (snd (scrape_product name scraper parse product run))) =
          (requests (snd run) ++ [url])%list)) /\
  (forall name scraper parse product run,
      p_search_terms product = Some [] ->
      scrape_product name scraper parse product run = (Ret tt, run)).
Proof.
  split; [exact matches_product_no_terms|].
  split; [intros; apply for_terms_no_terms; assumption|].
  assert (Hone : forall name scraper parse product run,
      p_search_terms product = None ->
      snd (snd (scrape_product name scraper parse product run)) =
      snd (search parse scraper (lower (get (p_name product) "")) (snd run))).
  { intros name scraper parse product run H.
    unfold PriceMonitor.scrape_product, search_terms_of.
    rewrite H. cbn [get PriceMonitor.for_terms].
    destruct (BaseScraper.search World format session_get parse scraper
                (lower (get (p_name product) "")) (snd run))
      as [[results|e] net']; reflexivity. }
  split.
  - intros name scraper parse product run H. split; [apply Hone, H|].
    intros url Hen Hf. rewrite (Hone _ _ _ _ _ H).
    apply (search_logs_request World format session_get parse); assumption.
  - intros name scraper parse product run H.
    unfold PriceMonitor.scrape_product, search_terms_of.
    rewrite H. reflexivity.
Qed.

End PipelineFacts.

(** C10 (as stated) fails for an empty search-term list: the product
    "Tomate Lisa" configured with [search_terms: []] causes no request
    at all, while the same product without the entry is searched for
    under "tomate lisa". *)
Lemma empty_search_terms_no_query :
  BaseScraper.requests
    (snd (Scenario.quiet_run
            [ PriceMonitor.mkProduct (Some "Tomate Lisa"%string) (Some []) None ]))
  = [] /\
  BaseScraper.requests
    (snd (Scenario.quiet_run
            [ PriceMonitor.mkProduct (Some "Tomate Lisa"%string) None None ]))
  = [ "https://biggie.example/search?q=tomate lisa"%string ].
Proof.
  split; vm_compute; reflexivity.
Qed.

Section StoreFacts.
Import Py PriceDatabase.
Local Open Scope string_scope.
Local Open Scope Z_scope.

Lemma unique_conflict_refl (r : Row) :
  product_name_raw r <> None -> unique_conflict r r = true.
Proof.
  intro H. unfold unique_conflict.
  rewrite Z.eqb_refl, !String.eqb_refl. cbn [andb].
  destruct (product_name_raw r) as [x|]; [apply String.eqb_refl | contradiction].
Qed.

Lemma filter_idem {A : Type} (f : A -> bool) (l : list A) :
  filter f (filter f l) = filter f l.
Proof.
  induction l as [|a l IH]; cbn; [reflexivity|].
  destruct (f a) eqn:E; cbn; rewrite ?E, IH; reflexivity.
Qed.

(** Saving the same row again changes nothing, provided its raw name is
    not NULL. *)
Lemma insert_or_replace_idempotent (new : Row) (table : Table) :
  product_name_raw new <> None ->
  insert_or_replace new (insert_or_replace new table) = insert_or_replace new table.
Proof.
  intro H. unfold insert_or_replace.
  rewrite filter_app, filter_idem. cbn [filter].
  rewrite (unique_conflict_refl new H). cbn [negb].
  rewrite app_nil_r. reflexivity.
Qed.

(** After a save, the rows that carry the key of the saved row are that
    row alone. *)
Lemma insert_or_replace_key_rows (new : Row) (table : Table) :
  product_name_raw new <> None ->
  filter (unique_conflict new) (insert_or_replace new table) = [new].
Proof.
  intro H. unfold insert_or_replace. rewrite filter_app. cbn [filter].
  rewrite (unique_conflict_refl new H).
  replace (filter (unique_conflict new)
             (filter (fun old => negb (unique_conflict new old)) table))
    with (@nil Row); [reflexivity|].
  induction table as [|r t IH]; cbn; [reflexivity|].
  destruct (unique_conflict new r) eqn:E; cbn; rewrite ?E; exact IH.
Qed.

(** A row with another key survives a save. *)
Lemma insert_or_replace_keeps_others (new old : Row) (table : Table) :
  unique_conflict new old = false ->
  In old table -> In old (insert_or_replace new table).
Proof.
  intros Hc Hin. unfold insert_or_replace. apply in_or_app. left.
  apply filter_In. split; [exact Hin | rewrite Hc; reflexivity].
Qed.

(** C1, the parts the code keeps: on an empty table, saving one fact
    twice leaves one row, and two facts that differ only in the raw name
    leave two rows. *)
Lemma save_price_twice_one_row :
  bind (save_price 100 [] "Stock" "Tomate Lisa" 17950 (Some "Tomate Lisa x kg") "kg" None)
       (fun t => save_price 100 t "Stock" "Tomate Lisa" 17950 (Some "Tomate Lisa x kg") "kg" None)
  = Ret [ mkRow 100 "Stock" "Tomate Lisa" (Some "Tomate Lisa x kg") 17950 "kg" ] /\
  bind (save_price 100 [] "Stock" "Tomate Lisa" 17950 (Some "Tomate Lisa x kg") "kg" None)
       (fun t => save_price 100 t "Stock" "Tomate Lisa" 17950 (Some "Tomate Lisa Extra") "kg" None)
  = Ret [ mkRow 100 "Stock" "Tomate Lisa" (Some "Tomate Lisa x kg") 17950 "kg";
          mkRow 100 "Stock" "Tomate Lisa" (Some "Tomate Lisa Extra") 17950 "kg" ].
Proof.
  split; vm_compute; reflexivity.
Qed.

(** C1, where the code departs from it: a second save under the key of a
    stored row replaces that row. After saving 17950 and then 16500
    for the same (date, source, product, raw name) the table holds the
    single row priced 16500: the stored price was updated. *)
Theorem save_price_collision_overwrites :
  bind (save_price 100 [] "Stock" "Tomate Lisa" 17950 (Some "Tomate Lisa x kg") "kg" None)
       (fun t => save_price 100 t "Stock" "Tomate Lisa" 16500 (Some "Tomate Lisa x kg") "kg" None)
  = Ret [ mkRow 100 "Stock" "Tomate Lisa" (Some "Tomate Lisa x kg") 16500 "kg" ].
Proof.
  vm_compute. reflexivity.
Qed.

(** In general the row saved last is the one stored under its key. *)
Lemma save_price_last_write_wins (today : Z) (table : Table)
  (sm p raw : string) (price1 price2 : Z) (unit1 unit2 : string) (d : option Z) :
  in_int64 price1 = true -> in_int64 price2 = true ->
  exists t1 t2,
    save_price today table sm p price1 (Some raw) unit1 d = Ret t1 /\
    save_price today t1 sm p price2 (Some raw) unit2 d = Ret t2 /\
    let new := mkRow (match d with None => today | Some d => d end)
                     sm p (Some raw) price2 unit2 in
    filter (unique_conflict new) t2 = [new].
Proof.
  intros H1 H2. unfold save_price. rewrite H1, H2.
  eexists; eexists. split; [reflexivity|]. split; [reflexivity|].
  cbv zeta. apply insert_or_replace_key_rows. discriminate.
Qed.

(** Rows saved without a raw name never collide: each save adds a row. *)
Lemma save_price_null_raw_name_duplicates :
  bind (save_price 100 [] "Stock" "Tomate Lisa" 17950 None "kg" None)
       (fun t => save_price 100 t "Stock" "Tomate Lisa" 17950 None "kg" None)
  = Ret [ mkRow 100 "Stock" "Tomate Lisa" None 17950 "kg";
          mkRow 100 "Stock" "Tomate Lisa" None 17950 "kg" ].
Proof.
  vm_compute. reflexivity.
Qed.

End StoreFacts.

(** ** Binary64 rounding *)

Section FloatFacts.
Import Py PyFloat.
Local Open Scope Z_scope.

Lemma trunc_nonneg_floor (x : Q) : 0 <= Qnum x -> trunc x = Qfloor x.
Proof.
  intro H. unfold trunc. destruct x as [n d]. cbn in *.
  apply Z.quot_div_nonneg; lia.
Qed.

Lemma dyadic_eq (m k : Z) : 0 <= k -> (dyadic m k == Qmake m (Z.to_pos (2 ^ k)))%Q.
Proof.
  intro Hk. unfold dyadic. destruct (0 <=? k) eqn:E; [|lia].
  apply Qred_correct.
Qed.

Lemma Qnum_Qred_nonneg (q : Q) : 0 <= Qnum q -> 0 <= Qnum (Qred q).
Proof.
  intro H. pose proof (Qred_correct q) as E. unfold Qeq in E.
  destruct (Qred q) as [n d]. cbn in *.
  assert (0 <= n * Zpos (Qden q)) by (rewrite E; apply Z.mul_nonneg_nonneg; lia).
  nia.
Qed.

Lemma trunc_dyadic (m k : Z) : 0 <= m -> 0 <= k -> trunc (dyadic m k) = m / 2 ^ k.
Proof.
  intros Hm Hk.
  assert (Hp : 0 < 2 ^ k) by (apply Z.pow_pos_nonneg; lia).
  rewrite trunc_nonneg_floor.
  - rewrite (Qfloor_comp _ _ (dyadic_eq m k Hk)). cbn. rewrite Z2Pos.id by lia. reflexivity.
  - unfold dyadic. destruct (0 <=? k) eqn:E; [|lia]. apply Qnum_Qred_nonneg. cbn. exact Hm.
Qed.

Lemma dyadic_no_overflow (m k : Z) :
  0 <= m -> 0 <= k -> m < 2 ^ 1024 * 2 ^ k -> overflows (dyadic m k) = false.
Proof.
  intros Hm Hk Hlt.
  assert (Hp : 0 < 2 ^ k) by (apply Z.pow_pos_nonneg; lia).
  unfold overflows. destruct (Qle_bool _ _) eqn:E; [|reflexivity].
  apply Qle_bool_iff in E. rewrite (dyadic_eq m k Hk) in E.
  rewrite Qabs_pos in E.
  - unfold Qle in E. cbn [Qnum Qden inject_Z] in E. rewrite Z2Pos.id in E by lia. lia.
  - unfold Qle. cbn. lia.
Qed.

(** What [round_pos] returns when the scale is not negative. *)
Lemma round_pos_scale (n d : Z) :
  0 < n -> 0 < d ->
  0 <= 52 - (Z.log2 n - Z.log2 d) < 1074 ->
  exists m k,
    round_pos n d = (m, k) /\
    52 - (Z.log2 n - Z.log2 d) <= k <= 52 - (Z.log2 n - Z.log2 d) + 1 /\
    n * 2 ^ k / d <= m <= n * 2 ^ k / d + 1 /\
    ((n * 2 ^ k) mod d = 0 -> m = n * 2 ^ k / d).
Proof.
  intros Hn Hd Hk0. unfold round_pos. set (k0 := 52 - (Z.log2 n - Z.log2 d)) in *.
  set (k1 := if _ <? _ then k0 + 1 else k0).
  assert (Hk1 : k0 <= k1 <= k0 + 1) by (unfold k1; destruct (_ <? _); lia).
  replace (Z.min k1 1074) with k1 by lia.
  unfold scaled at 1. destruct (0 <=? k1) eqn:E; [|lia].
  set (num := n * 2 ^ k1). set (r := num mod d). set (m := num / d).
  eexists; exists k1. split; [reflexivity|]. split; [exact Hk1|].
  split.
  - change (n * 2 ^ k1 / d) with m. clearbody m r.
    destruct (2 * r <? d); [lia|]. destruct (d <? 2 * r); [lia|]. destruct (Z.even m); lia.
  - intro Hr. change ((n * 2 ^ k1) mod d) with r in Hr. rewrite Hr. cbn [Z.mul].
    destruct (0 <? d) eqn:E'; [reflexivity|lia].
Qed.

Lemma log2_bounds (n : Z) : 0 < n -> 2 ^ Z.log2 n <= n < 2 ^ (Z.log2 n + 1).
Proof. intro H. replace (Z.log2 n + 1) with (Z.succ (Z.log2 n)) by lia. apply Z.log2_spec, H. Qed.

Lemma trunc_b64_integer (n : Z) :
  0 <= n < 2 ^ 53 ->
  trunc (b64 (Qmake n 1)) = n /\ overflows (b64 (Qmake n 1)) = false.
Proof.
  intros [H0 H53].
  destruct n as [|p|p]; [split; reflexivity| |lia].
  unfold b64. cbn [Qnum Qden].
  pose proof (log2_bounds (Zpos p) eq_refl) as [Hlo Hhi].
  assert (Ha : 0 <= Z.log2 (Zpos p) < 53).
  { split; [apply Z.log2_nonneg|]. apply (proj1 (Z.log2_lt_pow2 (Zpos p) 53 eq_refl)), H53. }
  destruct (round_pos_scale (Zpos p) 1 eq_refl eq_refl) as (m & k & Hr & Hk & _ & Hex).
  { change (Z.log2 1) with 0. lia. }
  change (Z.log2 1) with 0 in Hk.
  rewrite Hr.
  assert (Hp : 0 < 2 ^ k) by (apply Z.pow_pos_nonneg; lia).
  assert (Hm : m = Zpos p * 2 ^ k).
  { rewrite Hex by apply Z.mod_1_r. apply Z.div_1_r. }
  subst m. split.
  - rewrite trunc_dyadic by lia. apply Z.div_mul. lia.
  - apply dyadic_no_overflow; try lia.
    assert (2 ^ 53 < 2 ^ 1024) by (apply Z.pow_lt_mono_r; lia). nia.
Qed.

Lemma trunc_b64_fraction (A B S : Z) :
  0 <= A -> 0 <= B < S -> S <= 10 ^ 15 -> A * S + B < 10 ^ 15 ->
  trunc (b64 (Qmake (A * S + B) (Z.to_pos S))) = A /\
  overflows (b64 (Qmake (A * S + B) (Z.to_pos S))) = false.
Proof.
  intros HA HB HS HN.
  set (N := A * S + B) in *.
  assert (HN0 : 0 <= N) by (unfold N; nia).
  destruct N as [|p|p] eqn:EN; [| |lia].
  - assert (A = 0) by nia. subst A. split; reflexivity.
  - unfold b64. cbn [Qnum Qden]. rewrite Z2Pos.id by lia.
    pose proof (log2_bounds (Zpos p) eq_refl) as [Hlo Hhi].
    pose proof (log2_bounds S ltac:(lia)) as [Hlo' Hhi'].
    assert (H1050 : 10 ^ 15 < 2 ^ 50) by reflexivity.
    assert (Ha : 0 <= Z.log2 (Zpos p) < 50).
    { split; [apply Z.log2_nonneg|]. apply (proj1 (Z.log2_lt_pow2 (Zpos p) 50 eq_refl)). lia. }
    assert (Hb : 0 <= Z.log2 S < 50).
    { split; [apply Z.log2_nonneg|]. apply (proj1 (Z.log2_lt_pow2 S 50 ltac:(lia))). lia. }
    destruct (round_pos_scale (Zpos p) S eq_refl ltac:(lia)) as (m & k & Hr & Hk & Hm & _);
      [lia |].
    rewrite Hr.
    set (a := Z.log2 (Zpos p)) in *. set (b := Z.log2 S) in *.
    assert (Hp : 0 < 2 ^ k) by (apply Z.pow_pos_nonneg; lia).
    (* 2 S < 2 ^ k *)
    assert (Hk0 : 2 ^ (52 - (a - b)) <= 2 ^ k) by (apply Z.pow_le_mono_r; lia).
    assert (Hsum : 2 ^ a * 2 ^ (52 - (a - b)) = 2 ^ 51 * 2 ^ (b + 1)).
    { rewrite <- !Z.pow_add_r by lia. f_equal. lia. }
    assert (HS2 : 2 * S < 2 ^ k).
    { assert (2 ^ 51 * S < 2 ^ 50 * 2 ^ (52 - (a - b))) by nia.
      assert (2 ^ 51 = 2 * 2 ^ 50) by reflexivity.
      assert (0 < 2 ^ 50) by reflexivity. nia. }
    set (X := Zpos p * 2 ^ k) in *.
    assert (Hlow : A * 2 ^ k <= X / S).
    { apply Z.div_le_lower_bound; [lia|]. unfold X. rewrite <- EN. nia. }
    assert (Hup : X / S + 1 < (A + 1) * 2 ^ k).
    { pose proof (Z.mul_div_le X S ltac:(lia)) as Hq.
      assert (X <= ((A + 1) * S - 1) * 2 ^ k) by (unfold X; rewrite <- EN; nia).
      nia. }
    assert (Hm0 : 0 <= m) by nia.
    split.
    + rewrite trunc_dyadic by lia.
      symmetry. apply Z.div_unique with (r := m - A * 2 ^ k); lia.
    + apply dyadic_no_overflow; try lia.
      assert (A + 1 <= 10 ^ 15) by nia.
      assert (10 ^ 15 < 2 ^ 1024) by reflexivity. nia.
Qed.

End FloatFacts.

Section FloatQuotientFacts.
Import Py PyFloat.
Local Open Scope Z_scope.

Lemma Qred_int (n : Z) : Qred (Qmake n 1) = Qmake n 1.
Proof.
  unfold Qred.
  pose proof (Z.ggcd_gcd n 1) as Hg. pose proof (Z.ggcd_correct_divisors n 1) as Hd.
  destruct (Z.ggcd n 1) as [g [aa bb]]. cbn [fst snd] in *.
  rewrite Z.gcd_1_r in Hg. subst g. destruct Hd as [H1 H2].
  rewrite Z.mul_1_l in H1, H2. subst aa bb. reflexivity.
Qed.

Lemma b64_integer_exact (n : Z) : 0 <= n < 2 ^ 53 -> b64 (Qmake n 1) = Qmake n 1.
Proof.
  intros [H0 H53].
  destruct n as [|p|p]; [reflexivity| |lia].
  unfold b64. cbn [Qnum Qden].
  assert (Ha : 0 <= Z.log2 (Zpos p) < 53).
  { split; [apply Z.log2_nonneg|]. apply (proj1 (Z.log2_lt_pow2 (Zpos p) 53 eq_refl)), H53. }
  destruct (round_pos_scale (Zpos p) 1 eq_refl eq_refl) as (m & k & Hr & Hk & _ & Hex).
  { change (Z.log2 1) with 0. lia. }
  change (Z.log2 1) with 0 in Hk. rewrite Hr.
  assert (Hp : 0 < 2 ^ k) by (apply Z.pow_pos_nonneg; lia).
  rewrite Hex by apply Z.mod_1_r. rewrite Z.div_1_r.
  rewrite <- Qred_int. unfold dyadic. destruct (0 <=? k) eqn:E; [|lia].
  apply Qred_complete. unfold Qeq. cbn [Qnum Qden]. rewrite Z2Pos.id by lia. lia.
Qed.

(** The quotient of two positive integers below 2^53 does not round to
    zero. *)
Lemma b64_ratio_nonzero (s c : Z) :
  0 < s < 2 ^ 53 -> 0 < c < 2 ^ 53 ->
  Qeq_bool (b64 (inject_Z s / inject_Z c)%Q) 0 = false.
Proof.
  intros Hs Hc.
  destruct s as [|ps|ps]; [lia| |lia]. destruct c as [|pc|pc]; [lia| |lia].
  unfold b64. cbn [Qdiv Qmult Qinv inject_Z Qnum Qden].
  rewrite Z.mul_1_r. cbn [Qnum]. rewrite Pos.mul_1_l.
  pose proof (log2_bounds (Zpos ps) eq_refl) as [Hlo Hhi].
  pose proof (log2_bounds (Zpos pc) eq_refl) as [Hlo' Hhi'].
  assert (Ha : 0 <= Z.log2 (Zpos ps) < 53).
  { split; [apply Z.log2_nonneg|]. apply (proj1 (Z.log2_lt_pow2 (Zpos ps) 53 eq_refl)). lia. }
  assert (Hb : 0 <= Z.log2 (Zpos pc) < 53).
  { split; [apply Z.log2_nonneg|]. apply (proj1 (Z.log2_lt_pow2 (Zpos pc) 53 eq_refl)). lia. }
  destruct (round_pos_scale (Zpos ps) (Zpos pc) eq_refl eq_refl) as (m & k & Hr & Hk & Hm & _);
    [lia|].
  rewrite Hr.
  set (a := Z.log2 (Zpos ps)) in *. set (b := Z.log2 (Zpos pc)) in *.
  assert (Hp : 0 < 2 ^ k) by (apply Z.pow_pos_nonneg; lia).
  assert (Hk0 : 2 ^ (52 - (a - b)) <= 2 ^ k) by (apply Z.pow_le_mono_r; lia).
  assert (Hsum : 2 ^ a * 2 ^ (52 - (a - b)) = 2 ^ 51 * 2 ^ (b + 1)).
  { rewrite <- !Z.pow_add_r by lia. f_equal. lia. }
  assert (Hq : 1 <= Zpos ps * 2 ^ k / Zpos pc).
  { apply Z.div_le_lower_bound; [lia|].
    assert (0 < 2 ^ 51) by reflexivity. nia. }
  assert (Hm0 : 0 < m) by lia.
  destruct (Qeq_bool _ _) eqn:E; [|reflexivity].
  apply Qeq_bool_iff in E. rewrite (dyadic_eq m k) in E by lia.
  unfold Qeq in E. cbn in E. lia.
Qed.

End FloatQuotientFacts.

(** ** Price text *)

Section TextFacts.
Import Py PyFloat.
Local Open Scope string_scope.
Local Open Scope Z_scope.

Lemma has_digit_app (a b : string) : has_digit (a ++ b) = has_digit a || has_digit b.
Proof.
  induction a as [|c a IH]; cbn; [reflexivity|]. rewrite IH. apply orb_assoc.
Qed.

Lemma replace_from_no_digit (old new s : string) (skip : nat) :
  has_digit s = false -> has_digit new = false ->
  has_digit (replace_from old new skip s) = false.
Proof.
  intros Hs Hn. revert skip Hs.
  induction s as [|c s IH]; intros skip Hs; cbn [replace_from]; [reflexivity|].
  cbn [has_digit] in Hs. apply orb_false_iff in Hs as [Hc Hs].
  destruct skip as [|k]; [|apply IH, Hs].
  destruct (prefix old (String c s)).
  - rewrite has_digit_app, Hn. apply IH, Hs.
  - cbn [has_digit]. rewrite Hc. apply IH, Hs.
Qed.

Lemma interleave_no_digit (new s : string) :
  has_digit s = false -> has_digit new = false -> has_digit (interleave new s) = false.
Proof.
  intros Hs Hn. induction s as [|c s IH]; cbn [interleave]; [exact Hn|].
  cbn [has_digit] in Hs. apply orb_false_iff in Hs as [Hc Hs].
  rewrite has_digit_app, Hn. cbn [has_digit orb]. rewrite Hc. apply IH, Hs.
Qed.

Lemma replace_no_digit (old new s : string) :
  has_digit s = false -> has_digit new = false -> has_digit (replace old new s) = false.
Proof.
  intros Hs Hn. unfold replace. destruct old.
  - apply interleave_no_digit; assumption.
  - apply replace_from_no_digit; assumption.
Qed.

Lemma lstrip_from_no_digit (s : string) (skip : nat) :
  has_digit s = false -> has_digit (lstrip_from skip s) = false.
Proof.
  revert skip. induction s as [|c s IH]; intros skip Hs; cbn [lstrip_from]; [reflexivity|].
  pose proof Hs as Hs'. cbn [has_digit] in Hs'. apply orb_false_iff in Hs' as [_ Hs'].
  destruct skip as [|k]; [|apply IH, Hs'].
  destruct (space_width (String c s)); [exact Hs | apply IH, Hs'].
Qed.

Lemma rstrip_no_digit (s : string) : has_digit s = false -> has_digit (rstrip s) = false.
Proof.
  induction s as [|c s IH]; intro Hs; cbn [rstrip]; [reflexivity|].
  cbn [has_digit] in Hs. apply orb_false_iff in Hs as [Hc Hs].
  destruct (isspace_or_empty (String c s)); [reflexivity|].
  cbn [has_digit]. rewrite Hc. apply IH, Hs.
Qed.

Lemma strip_no_digit (s : string) : has_digit s = false -> has_digit (strip s) = false.
Proof.
  intro H. apply rstrip_no_digit, lstrip_from_no_digit, H.
Qed.

Lemma take_while_no_digit (p : ascii -> bool) (s : string) :
  has_digit s = false -> has_digit (take_while p s) = false.
Proof.
  induction s as [|c s IH]; intro Hs; cbn [take_while]; [reflexivity|].
  cbn [has_digit] in Hs. apply orb_false_iff in Hs as [Hc Hs].
  destruct (p c); [|reflexivity]. cbn [has_digit]. rewrite Hc. apply IH, Hs.
Qed.

Lemma search_price_run_no_digit (s run : string) :
  has_digit s = false -> search_price_run s = Some run -> has_digit run = false.
Proof.
  revert run.
  induction s as [|c s IH]; intros run Hs Hr; cbn [search_price_run] in Hr; [discriminate|].
  destruct (is_price_char c).
  - injection Hr as <-. apply (take_while_no_digit is_price_char (String c s)), Hs.
  - cbn [has_digit] in Hs. apply orb_false_iff in Hs as [_ Hs]. apply IH; assumption.
Qed.

Lemma scan_literal_no_digit (s : string) (seen : bool) (num scale : Z) (nd : nat)
  (r : Z * Z * nat) :
  has_digit s = false -> scan_literal s seen num scale nd = Some r -> snd r = nd.
Proof.
  revert seen num scale nd.
  induction s as [|c s IH]; intros seen num scale nd Hs Hr; cbn [scan_literal] in Hr.
  - injection Hr as <-. reflexivity.
  - cbn [has_digit] in Hs. apply orb_false_iff in Hs as [Hc Hs]. rewrite Hc in Hr.
    destruct (Ascii.eqb c "."); [|discriminate].
    destruct seen; [discriminate|]. apply (IH _ _ _ _ Hs Hr).
Qed.

Lemma literal_value_no_digit (s : string) : has_digit s = false -> literal_value s = None.
Proof.
  intro Hs. unfold literal_value.
  destruct (scan_literal s false 0 1 0) as [[[num scale] nd]|] eqn:E; [|reflexivity].
  apply (scan_literal_no_digit _ _ _ _ _ _ Hs) in E. cbn in E. subst nd. reflexivity.
Qed.

(** One-character patterns. *)
Lemma prefix_char (c c' : ascii) (s : string) :
  prefix (String c EmptyString) (String c' s) = Ascii.eqb c' c.
Proof.
  cbn. destruct (ascii_dec c c') as [->|Hne].
  - rewrite Ascii.eqb_refl. destruct s; reflexivity.
  - symmetry. apply Ascii.eqb_neq. congruence.
Qed.

Lemma replace_char (c : ascii) (new s : string) :
  replace (String c EmptyString) new s = subst_char c new s.
Proof.
  unfold replace. induction s as [|c' s IH]; [reflexivity|].
  cbn [replace_from subst_char]. rewrite prefix_char.
  cbn [String.length Nat.sub]. rewrite IH. reflexivity.
Qed.

Lemma subst_char_no_digit (c : ascii) (new s : string) :
  has_digit s = false -> has_digit new = false -> has_digit (subst_char c new s) = false.
Proof.
  intros Hs Hn. rewrite <- replace_char. apply replace_no_digit; assumption.
Qed.

Lemma append_assoc (a b c : string) : (a ++ b) ++ c = a ++ (b ++ c).
Proof.
  induction a as [|x a IH]; [reflexivity|]. cbn. rewrite IH. reflexivity.
Qed.

Lemma subst_char_app (c : ascii) (new a b : string) :
  subst_char c new (a ++ b) = subst_char c new a ++ subst_char c new b.
Proof.
  induction a as [|c' a IH]; [reflexivity|]. cbn [append subst_char].
  rewrite IH. destruct (Ascii.eqb c' c); [|reflexivity].
  symmetry. apply append_assoc.
Qed.

Lemma subst_char_digits (c : ascii) (new s : string) :
  is_digit c = false -> all_digits s = true -> subst_char c new s = s.
Proof.
  intros Hc. induction s as [|c' s IH]; intro Hs; [reflexivity|].
  cbn [all_digits] in Hs. apply andb_true_iff in Hs as [Hc' Hs].
  cbn [subst_char]. destruct (Ascii.eqb c' c) eqn:E.
  - apply Ascii.eqb_eq in E. congruence.
  - rewrite (IH Hs). reflexivity.
Qed.

Lemma count_points_after_rewrite (s : string) :
  count_char "." (subst_char "," "." (subst_char "." "" s)) = count_char "," s.
Proof.
  induction s as [|c s IH]; [reflexivity|].
  cbn [subst_char count_char].
  destruct (Ascii.eqb c ".") eqn:Ep.
  - apply Ascii.eqb_eq in Ep. subst c. cbn [append Ascii.eqb]. cbn. exact IH.
  - cbn [subst_char]. destruct (Ascii.eqb c ",") eqn:Ec.
    + cbn [append count_char]. rewrite IH. reflexivity.
    + cbn [count_char]. rewrite Ep, IH. reflexivity.
Qed.

Lemma scan_literal_points (s : string) (seen : bool) (num scale : Z) (nd : nat) :
  ((if seen then 1 else 2) <= count_char "." s)%nat ->
  scan_literal s seen num scale nd = None.
Proof.
  revert seen num scale nd.
  induction s as [|c s IH]; intros seen num scale nd H; cbn [count_char] in H.
  - destruct seen; lia.
  - cbn [scan_literal]. destruct (is_digit c) eqn:Ed.
    + apply IH. destruct (Ascii.eqb c ".") eqn:E; [|exact H].
      apply Ascii.eqb_eq in E. subst c. discriminate.
    + destruct (Ascii.eqb c "."); [|reflexivity].
      destruct seen; [reflexivity|]. apply IH. lia.
Qed.

Lemma digits_value_from_bounds (s : string) (acc : Z) :
  all_digits s = true ->
  acc * 10 ^ Z.of_nat (String.length s) <= digits_value_from acc s
  < (acc + 1) * 10 ^ Z.of_nat (String.length s).
Proof.
  revert acc. induction s as [|c s IH]; intros acc Hs.
  - cbn. lia.
  - cbn [all_digits] in Hs. apply andb_true_iff in Hs as [Hc Hs].
    cbn [digits_value_from String.length]. rewrite Nat2Z.inj_succ, Z.pow_succ_r by lia.
    specialize (IH (10 * acc + digit_value c) Hs).
    unfold is_digit in Hc. apply andb_true_iff in Hc as [H1 H2].
    apply Nat.leb_le in H1, H2. unfold digit_value in *.
    assert (0 < 10 ^ Z.of_nat (String.length s)) by (apply Z.pow_pos_nonneg; lia).
    nia.
Qed.

Lemma digits_value_from_split (s : string) (acc : Z) :
  digits_value_from acc s = acc * 10 ^ Z.of_nat (String.length s) + digits_value s.
Proof.
  unfold digits_value. revert acc. induction s as [|c s IH]; intro acc.
  - cbn. lia.
  - cbn [digits_value_from String.length]. rewrite Nat2Z.inj_succ, Z.pow_succ_r by lia.
    rewrite IH, (IH (10 * 0 + digit_value c)). lia.
Qed.

Lemma scan_literal_digits (s : string) (seen : bool) (num scale : Z) (nd : nat) :
  all_digits s = true ->
  scan_literal s seen num scale nd =
  Some (digits_value_from num s,
        if seen then scale * 10 ^ Z.of_nat (String.length s) else scale,
        (nd + String.length s)%nat).
Proof.
  revert num scale nd. induction s as [|c s IH]; intros num scale nd Hs.
  - cbn. rewrite Nat.add_0_r. destruct seen; [rewrite Z.mul_1_r|]; reflexivity.
  - cbn [all_digits] in Hs. apply andb_true_iff in Hs as [Hc Hs].
    cbn [scan_literal]. rewrite Hc, (IH _ _ _ Hs).
    cbn [digits_value_from String.length]. rewrite Nat2Z.inj_succ, Z.pow_succ_r by lia.
    f_equal. f_equal; [f_equal; destruct seen; [ring | reflexivity] | lia].
Qed.

Lemma scan_literal_decimal (a b : string) :
  all_digits a = true -> all_digits b = true ->
  scan_literal (a ++ String "." b) false 0 1 0 =
  Some (digits_value a * 10 ^ Z.of_nat (String.length b) + digits_value b,
        10 ^ Z.of_nat (String.length b),
        (String.length a + String.length b)%nat).
Proof.
  intros Ha Hb.
  assert (G : forall num nd,
    scan_literal (a ++ String "." b) false num 1 nd =
    scan_literal b true (digits_value_from num a) 1 (nd + String.length a)%nat).
  { clear Hb. induction a as [|c a IH]; intros num nd.
    - cbn. rewrite Nat.add_0_r. reflexivity.
    - cbn [all_digits] in Ha. apply andb_true_iff in Ha as [Hc Ha].
      cbn [append scan_literal]. rewrite Hc, (IH Ha).
      cbn [digits_value_from String.length]. f_equal. lia. }
  rewrite G, (scan_literal_digits _ _ _ _ _ Hb).
  rewrite digits_value_from_split. fold (digits_value a).
  rewrite Z.mul_1_l. reflexivity.
Qed.

End TextFacts.

(** ** The price text normalizer *)

Section NormalizerFacts.
Import Py PyFloat BaseScraper.
Local Open Scope string_scope.
Local Open Scope Z_scope.

Lemma int_of_float_literal_digits (s : string) :
  all_digits s = true -> s <> "" -> digits_value s < 2 ^ 53 ->
  int_of_float_literal s = Ret (Some (digits_value s)).
Proof.
  intros Hs Hne Hlt. unfold int_of_float_literal, literal_value.
  rewrite (scan_literal_digits s false 0 1 0 Hs). cbn [Nat.add].
  destruct s as [|c s]; [contradiction|]. cbn [String.length].
  change (Z.to_pos 1) with 1%positive. fold (digits_value (String c s)).
  pose proof (digits_value_from_bounds (String c s) 0 Hs) as [H0 _].
  fold (digits_value (String c s)) in H0. rewrite Z.mul_0_l in H0.
  destruct (trunc_b64_integer (digits_value (String c s)) (conj H0 Hlt)) as [Ht Ho].
  rewrite Ho, Ht. reflexivity.
Qed.

Lemma int_of_float_literal_decimal (a b : string) :
  all_digits a = true -> all_digits b = true ->
  (1 <= String.length a + String.length b <= 15)%nat ->
  int_of_float_literal (a ++ String "." b) = Ret (Some (digits_value a)).
Proof.
  intros Ha Hb Hlen. unfold int_of_float_literal, literal_value.
  rewrite (scan_literal_decimal a b Ha Hb).
  destruct (String.length a + String.length b)%nat as [|n] eqn:En; [lia|].
  pose proof (digits_value_from_bounds a 0 Ha) as [Ha0 Ha1].
  pose proof (digits_value_from_bounds b 0 Hb) as [Hb0 Hb1].
  fold (digits_value a) in Ha0, Ha1. fold (digits_value b) in Hb0, Hb1.
  rewrite Z.mul_0_l in Ha0, Hb0. rewrite Z.add_0_l, Z.mul_1_l in Ha1, Hb1.
  set (S := 10 ^ Z.of_nat (String.length b)) in *.
  assert (HS : 0 < S) by (apply Z.pow_pos_nonneg; lia).
  assert (Hpow : 10 ^ Z.of_nat (String.length a) * S <= 10 ^ 15).
  { unfold S. rewrite <- Z.pow_add_r by lia. apply Z.pow_le_mono_r; lia. }
  assert (HS15 : S <= 10 ^ 15).
  { unfold S. apply Z.pow_le_mono_r; lia. }
  destruct (trunc_b64_fraction (digits_value a) (digits_value b) S) as [Ht Ho];
    [lia | lia | lia | nia |].
  rewrite Ho, Ht. reflexivity.
Qed.

Lemma int_of_float_literal_points (s : string) :
  (2 <= count_char "." s)%nat -> int_of_float_literal s = Ret None.
Proof.
  intro H. unfold int_of_float_literal, literal_value.
  rewrite (scan_literal_points s false 0 1 0 H). reflexivity.
Qed.

Lemma extract_price_run (text run : string) :
  text <> "" -> price_run text = Some run ->
  _extract_price text = int_of_float_literal (rewrite_separators run).
Proof.
  intros Hne Hr. unfold _extract_price. destruct text; [contradiction|].
  unfold price_run in Hr. rewrite Hr. reflexivity.
Qed.

Lemma remove_markers_no_digit (text : string) :
  has_digit text = false -> has_digit (remove_markers text) = false.
Proof.
  intro H. unfold remove_markers.
  repeat (apply replace_no_digit; [|reflexivity]). exact H.
Qed.

Lemma rewrite_separators_no_digit (run : string) :
  has_digit run = false -> has_digit (rewrite_separators run) = false.
Proof.
  intro H. unfold rewrite_separators.
  destruct (contains "." run && contains "," run).
  - repeat (apply replace_no_digit; [|reflexivity]). exact H.
  - destruct (contains "." run).
    + destruct (_ =? _)%nat; [apply replace_no_digit; [exact H | reflexivity] | exact H].
    + destruct (contains "," run); [apply replace_no_digit; [exact H | reflexivity] | exact H].
Qed.

Lemma extract_price_no_digit (text : string) :
  has_digit text = false -> _extract_price text = Ret None.
Proof.
  intro H. unfold _extract_price. destruct text as [|c text]; [reflexivity|].
  destruct (search_price_run _) as [run|] eqn:E; [|reflexivity].
  apply search_price_run_no_digit in E;
    [|apply strip_no_digit, remove_markers_no_digit, H].
  unfold int_of_float_literal.
  rewrite (literal_value_no_digit _ (rewrite_separators_no_digit _ E)). reflexivity.
Qed.

(** The characters of a matched run. *)
Lemma take_while_all (s : string) :
  all_price_chars (take_while is_price_char s) = true.
Proof.
  induction s as [|c s IH]; [reflexivity|]. cbn [take_while].
  destruct (is_price_char c) eqn:E; [|reflexivity]. cbn [all_price_chars]. rewrite E. exact IH.
Qed.

Lemma search_price_run_chars (s run : string) :
  search_price_run s = Some run -> all_price_chars run = true /\ run <> "".
Proof.
  revert run. induction s as [|c s IH]; intros run H; cbn [search_price_run] in H; [discriminate|].
  destruct (is_price_char c) eqn:E; [|apply IH, H].
  injection H as <-. split.
  - apply (take_while_all (String c s)).
  - cbn [take_while]. rewrite E. discriminate.
Qed.

Lemma contains_char_count (c : ascii) (s : string) :
  contains (String c EmptyString) s = negb (count_char c s =? 0)%nat.
Proof.
  induction s as [|c' s IH]; [reflexivity|].
  cbn [contains count_char]. rewrite prefix_char, IH.
  destruct (Ascii.eqb c' c); reflexivity.
Qed.

Lemma no_char_count (c : ascii) (s : string) :
  contains (String c EmptyString) s = false -> count_char c s = 0%nat.
Proof.
  rewrite contains_char_count. intro H. apply negb_false_iff, Nat.eqb_eq in H. exact H.
Qed.

Lemma digits_after_removal (c other : ascii) (s : string) :
  (forall x, is_price_char x = true -> is_digit x = true \/ x = c \/ x = other) ->
  is_digit c = false ->
  all_price_chars s = true -> count_char other s = 0%nat ->
  all_digits (subst_char c "" s) = true.
Proof.
  intros Hcls Hc. induction s as [|x s IH]; intros Hs Hn; [reflexivity|].
  cbn [all_price_chars] in Hs. apply andb_true_iff in Hs as [Hx Hs].
  cbn [count_char] in Hn. cbn [subst_char].
  destruct (Ascii.eqb x other) eqn:Eo; [discriminate|].
  destruct (Ascii.eqb x c) eqn:Ec.
  - cbn [append]. apply IH; assumption.
  - cbn [all_digits]. rewrite (IH Hs Hn), andb_true_r.
    destruct (Hcls x Hx) as [Hd|[->| ->]]; [exact Hd| |].
    + rewrite Ascii.eqb_refl in Ec. discriminate.
    + rewrite Ascii.eqb_refl in Eo. discriminate.
Qed.

Lemma price_char_cases (x : ascii) :
  is_price_char x = true -> is_digit x = true \/ x = "."%char \/ x = ","%char.
Proof.
  unfold is_price_char. intro H.
  apply orb_true_iff in H as [H|H]; [apply orb_true_iff in H as [H|H]|].
  - left. exact H.
  - right. left. apply Ascii.eqb_eq, H.
  - right. right. apply Ascii.eqb_eq, H.
Qed.

Lemma price_char_cases' (x : ascii) :
  is_price_char x = true -> is_digit x = true \/ x = ","%char \/ x = "."%char.
Proof. intro H. destruct (price_char_cases x H) as [?|[?|?]]; auto. Qed.

Lemma digits_without_separators (s : string) :
  all_price_chars s = true ->
  count_char "." s = 0%nat -> count_char "," s = 0%nat -> all_digits s = true.
Proof.
  induction s as [|x s IH]; intros Hs Hp Hc; [reflexivity|].
  cbn [all_price_chars] in Hs. apply andb_true_iff in Hs as [Hx Hs].
  cbn [count_char] in Hp, Hc. cbn [all_digits].
  destruct (Ascii.eqb x ".") eqn:Ep; [discriminate|].
  destruct (Ascii.eqb x ",") eqn:Ec; [discriminate|].
  rewrite (IH Hs Hp Hc), andb_true_r.
  destruct (price_char_cases x Hx) as [Hd|[->| ->]]; [exact Hd|discriminate|discriminate].
Qed.

Lemma split_not_nil (sep : ascii) (s : string) : split sep s <> [].
Proof.
  induction s as [|c s IH]; cbn [split]; [discriminate|].
  destruct (Ascii.eqb c sep); [discriminate|]. destruct (split sep s); discriminate.
Qed.

Lemma last_segment_survives (s : string) :
  last (split "." s) "" <> "" -> subst_char "." "" s <> "".
Proof.
  induction s as [|c s IH]; intro H; [exact H|].
  cbn [split] in H. cbn [subst_char].
  destruct (Ascii.eqb c ".") eqn:E; [|discriminate].
  cbn [append]. apply IH.
  pose proof (split_not_nil "." s) as Hn.
  destruct (split "." s) as [|p ps]; [contradiction|]. exact H.
Qed.


Lemma price_run_text (text run : string) : price_run text = Some run -> text <> "".
Proof.
  intros H ->. discriminate H.
Qed.

Lemma rewrite_both (run : string) :
  contains "." run = true -> contains "," run = true ->
  rewrite_separators run = subst_char "," "." (subst_char "." "" run).
Proof.
  intros Hp Hc. unfold rewrite_separators. rewrite Hp, Hc. cbn [andb].
  rewrite !replace_char. reflexivity.
Qed.

Lemma rewrite_points (run : string) :
  contains "." run = true -> contains "," run = false ->
  rewrite_separators run =
  if (String.length (last (split "." run) "") =? 3)%nat
  then subst_char "." "" run else run.
Proof.
  intros Hp Hc. unfold rewrite_separators. rewrite Hp, Hc. cbn [andb].
  rewrite replace_char. reflexivity.
Qed.

Lemma rewrite_commas (run : string) :
  contains "." run = false -> contains "," run = true ->
  rewrite_separators run = subst_char "," "" run.
Proof.
  intros Hp Hc. unfold rewrite_separators. rewrite Hp, Hc. cbn [andb].
  rewrite replace_char. reflexivity.
Qed.

Lemma rewrite_plain (run : string) :
  contains "." run = false -> contains "," run = false ->
  rewrite_separators run = run.
Proof.
  intros Hp Hc. unfold rewrite_separators. rewrite Hp, Hc. reflexivity.
Qed.

Lemma prefix_nil (s : string) : prefix "" s = true.
Proof. destruct s; reflexivity. Qed.

Lemma whitespace_no_price_char (w : string) : In w whitespace -> has_price_char w = false.
Proof.
  intro H. unfold whitespace in H. cbn [map] in H.
  repeat (destruct H as [<-|H]; [reflexivity|]). destruct H.
Qed.

Lemma space_width_prefix (s : string) :
  exists w, prefix w s = true /\ has_price_char w = false /\ space_width s = String.length w.
Proof.
  unfold space_width. destruct (find (fun w => prefix w s) whitespace) as [w|] eqn:E.
  - apply find_some in E as [Hin Hp]. exists w.
    split; [exact Hp|]. split; [apply whitespace_no_price_char, Hin | reflexivity].
  - exists "". split; [apply prefix_nil | split; reflexivity].
Qed.

(** Stripping does not change the first run, nor any run at the start. *)
Lemma lstrip_from_run (t s : string) :
  prefix t s = true -> has_price_char t = false ->
  search_price_run (lstrip_from (String.length t) s) = search_price_run s.
Proof.
  revert t. induction s as [|c s IH]; intros t Hp Ht.
  - destruct t; reflexivity.
  - destruct t as [|c' t].
    + cbn [String.length lstrip_from].
      destruct (space_width_prefix (String c s)) as (w & Hw & Hd & El). rewrite El.
      destruct w as [|c0 w]; [reflexivity|].
      cbn [String.length]. cbn [prefix] in Hw.
      destruct (ascii_dec c0 c) as [<-|Hc0]; [|discriminate].
      cbn [has_price_char] in Hd. apply orb_false_iff in Hd as [Hc Hd].
      rewrite (IH w Hw Hd). cbn [search_price_run]. rewrite Hc. reflexivity.
    + cbn [prefix] in Hp. destruct (ascii_dec c' c) as [<-|Hc']; [|discriminate].
      cbn [has_price_char] in Ht. apply orb_false_iff in Ht as [Hc Ht].
      cbn [String.length lstrip_from search_price_run]. rewrite Hc.
      apply IH; assumption.
Qed.

Lemma lstrip_run (s : string) : search_price_run (lstrip s) = search_price_run s.
Proof. apply (lstrip_from_run "" s (prefix_nil s) eq_refl). Qed.

Lemma search_price_run_None (s : string) :
  search_price_run s = None <-> has_price_char s = false.
Proof.
  induction s as [|c s IH]; cbn [search_price_run has_price_char]; [tauto|].
  destruct (is_price_char c); cbn [orb]; [split; discriminate | exact IH].
Qed.

Lemma isspace_no_price_char (s : string) :
  isspace_or_empty s = true -> has_price_char s = false.
Proof.
  unfold isspace_or_empty. destruct (lstrip s) eqn:E; [|discriminate]. intros _.
  apply search_price_run_None. rewrite <- lstrip_run, E. reflexivity.
Qed.

Lemma rstrip_take_while (s : string) :
  take_while is_price_char (rstrip s) = take_while is_price_char s.
Proof.
  induction s as [|c s IH]; [reflexivity|].
  cbn [rstrip]. destruct (isspace_or_empty (String c s)) eqn:E.
  - apply isspace_no_price_char in E. cbn [has_price_char] in E.
    apply orb_false_iff in E as [Hc _]. cbn [take_while]. rewrite Hc. reflexivity.
  - cbn [take_while]. rewrite IH. reflexivity.
Qed.

Lemma rstrip_run (s : string) : search_price_run (rstrip s) = search_price_run s.
Proof.
  induction s as [|c s IH]; [reflexivity|].
  cbn [rstrip]. destruct (isspace_or_empty (String c s)) eqn:E.
  - apply isspace_no_price_char, search_price_run_None in E. rewrite E. reflexivity.
  - cbn [search_price_run]. destruct (is_price_char c); [|exact IH].
    f_equal. cbn [take_while]. rewrite rstrip_take_while. reflexivity.
Qed.

Lemma strip_run (s : string) : search_price_run (strip s) = search_price_run s.
Proof. unfold strip. rewrite rstrip_run. apply lstrip_run. Qed.

(** The run is the first one, taken as far as it goes. *)
Lemma take_while_run (run post : string) :
  all_price_chars run = true ->
  (post = "" \/ exists c post', post = String c post' /\ is_price_char c = false) ->
  take_while is_price_char (run ++ post) = run.
Proof.
  intros Hrun Hpost. induction run as [|c run IH].
  - cbn [append]. destruct Hpost as [->|(c & post' & -> & Hc)]; [reflexivity|].
    cbn [take_while]. rewrite Hc. reflexivity.
  - cbn [all_price_chars] in Hrun. apply andb_prop in Hrun as [Hc Hrun].
    cbn [append take_while]. rewrite Hc, (IH Hrun). reflexivity.
Qed.

Lemma search_first_run (pre run post : string) :
  has_price_char pre = false -> all_price_chars run = true -> run <> "" ->
  (post = "" \/ exists c post', post = String c post' /\ is_price_char c = false) ->
  search_price_run (pre ++ run ++ post) = Some run.
Proof.
  intros Hpre Hrun Hne Hpost. induction pre as [|c pre IH].
  - cbn [append]. destruct run as [|c run]; [contradiction|].
    pose proof (take_while_run (String c run) post Hrun Hpost) as Ht.
    cbn [all_price_chars] in Hrun. apply andb_prop in Hrun as [Hc _].
    cbn [append search_price_run]. rewrite Hc. f_equal. exact Ht.
  - cbn [has_price_char] in Hpre. apply orb_false_iff in Hpre as [Hc Hpre].
    cbn [append search_price_run]. rewrite Hc. apply IH, Hpre.
Qed.

(** Replacing a text that does not occur changes nothing. *)
Lemma replace_absent (old new s : string) :
  old <> "" -> contains old s = false -> replace old new s = s.
Proof.
  intros Hne H. unfold replace. destruct old as [|c0 old']; [contradiction|].
  induction s as [|c s IH]; [reflexivity|].
  cbn [contains] in H. cbn [replace_from].
  destruct (prefix (String c0 old') (String c s)); [discriminate|].
  rewrite (IH H). reflexivity.
Qed.

Lemma remove_markers_absent (text : string) :
  (forall m, In m markers -> contains m text = false) -> remove_markers text = text.
Proof.
  intro H. unfold remove_markers.
  rewrite (replace_absent "Gs") by (try discriminate; apply H; cbn; auto 10).
  rewrite (replace_absent "₲") by (try discriminate; apply H; cbn; auto 10).
  rewrite (replace_absent "G$") by (try discriminate; apply H; cbn; auto 10).
  rewrite (replace_absent "/kg") by (try discriminate; apply H; cbn; auto 10).
  rewrite (replace_absent "/un") by (try discriminate; apply H; cbn; auto 10).
  rewrite (replace_absent "/u") by (try discriminate; apply H; cbn; auto 10).
  reflexivity.
Qed.


(** A marker between two strings of digits is removed, and the digits
    join. *)
Lemma append_nil_r (s : string) : s ++ "" = s.
Proof. induction s as [|c s IH]; [reflexivity|]. cbn. rewrite IH. reflexivity. Qed.

Lemma prefix_cons (c c' : ascii) (old s : string) :
  prefix (String c old) (String c' s) = Ascii.eqb c c' && prefix old s.
Proof.
  cbn [prefix]. destruct (ascii_dec c c') as [<-|Hne].
  - rewrite Ascii.eqb_refl. reflexivity.
  - apply Ascii.eqb_neq in Hne. rewrite Hne. reflexivity.
Qed.

Lemma prefix_digits (old b : string) :
  starts_plain old = true -> all_digits b = true -> prefix old b = false.
Proof.
  intros Hold Hb. destruct old as [|c0 old']; [discriminate|].
  apply negb_true_iff in Hold. destruct b as [|c b]; [reflexivity|].
  cbn [all_digits] in Hb. apply andb_prop in Hb as [Hc _].
  rewrite prefix_cons. replace (Ascii.eqb c0 c) with false; [reflexivity|].
  symmetry. apply Ascii.eqb_neq. intros ->. congruence.
Qed.

Lemma contains_digits (old b : string) :
  starts_plain old = true -> all_digits b = true -> contains old b = false.
Proof.
  intros Hold Hb. induction b as [|c b IH].
  - cbn [contains]. rewrite (prefix_digits old "" Hold eq_refl). reflexivity.
  - cbn [contains]. rewrite (prefix_digits old _ Hold Hb).
    cbn [all_digits] in Hb. apply andb_prop in Hb as [_ Hb]. apply IH, Hb.
Qed.

Lemma replace_from_digits (c0 : ascii) (old' new a t : string) :
  is_digit c0 = false -> all_digits a = true ->
  replace_from (String c0 old') new 0 (a ++ t) =
  a ++ replace_from (String c0 old') new 0 t.
Proof.
  intros Hc0 Ha. induction a as [|c a IH]; [reflexivity|].
  cbn [all_digits] in Ha. apply andb_prop in Ha as [Hc Ha].
  cbn [append replace_from prefix].
  destruct (ascii_dec c0 c) as [<-|Hne]; [congruence|].
  rewrite (IH Ha). reflexivity.
Qed.

Lemma replace_after_digits (old new a t : string) :
  starts_plain old = true -> all_digits a = true ->
  replace old new (a ++ t) = a ++ replace old new t.
Proof.
  intros Hold Ha. destruct old as [|c0 old']; [discriminate|].
  apply negb_true_iff in Hold. unfold replace.
  apply replace_from_digits; assumption.
Qed.

Lemma replace_from_skip (old new t b : string) :
  replace_from old new (String.length t) (t ++ b) = replace_from old new 0 b.
Proof.
  induction t as [|c t IH]; [reflexivity|]. cbn [String.length append replace_from]. exact IH.
Qed.

Lemma prefix_append (old b : string) : prefix old (old ++ b) = true.
Proof.
  induction old as [|c old IH]; [apply prefix_nil|].
  cbn [append]. rewrite prefix_cons, Ascii.eqb_refl. exact IH.
Qed.

Lemma replace_hit (old new b : string) :
  old <> "" -> replace old new (old ++ b) = new ++ replace old new b.
Proof.
  intro Hne. destruct old as [|c0 old']; [contradiction|].
  unfold replace. pose proof (prefix_append (String c0 old') b) as Hp.
  cbn [append] in *. cbn [replace_from]. rewrite Hp. f_equal.
  replace (String.length (String c0 old') - 1)%nat with (String.length old')
    by (cbn [String.length]; lia).
  apply replace_from_skip.
Qed.

Lemma remove_markers_joins (a m b : string) :
  In m markers -> all_digits a = true -> all_digits b = true ->
  remove_markers (a ++ m ++ b) = a ++ b.
Proof.
  intros Hm Ha Hb. unfold remove_markers.
  assert (Hkeep : forall old, starts_plain old = true -> replace old "" b = b).
  { intros old Hold. apply replace_absent; [destruct old; discriminate|].
    apply contains_digits; assumption. }
  assert (Hpre : forall old, starts_plain old = true -> prefix old b = false)
    by (intros old Hold; apply prefix_digits; assumption).
  assert (Hcon : forall old, starts_plain old = true -> contains old b = false)
    by (intros old Hold; apply contains_digits; assumption).
  assert (Hmiss : forall old x, starts_plain old = true -> contains old (x ++ b) = false ->
                                replace old "" (a ++ x ++ b) = a ++ x ++ b).
  { intros old x Hold Hx. rewrite (replace_after_digits old "" a _ Hold Ha).
    rewrite (replace_absent old "" (x ++ b)); [reflexivity | destruct old; discriminate | exact Hx]. }
  assert (Hhit : forall old, starts_plain old = true ->
                             replace old "" (a ++ old ++ b) = a ++ b).
  { intros old Hold. rewrite (replace_after_digits old "" a _ Hold Ha).
    rewrite replace_hit by (destruct old; discriminate). cbn [append].
    rewrite (Hkeep old Hold). reflexivity. }
  assert (Hdone : forall old, starts_plain old = true -> replace old "" (a ++ b) = a ++ b).
  { intros old Hold. rewrite (replace_after_digits old "" a _ Hold Ha), (Hkeep old Hold).
    reflexivity. }
  unfold markers in Hm. cbn [In] in Hm.
  destruct Hm as [<-|[<-|[<-|[<-|[<-|[<-|[]]]]]]].
  all: repeat first
    [ rewrite Hhit by reflexivity
    | rewrite Hdone by reflexivity
    | rewrite Hmiss by
        (try reflexivity;
         cbn [append contains]; rewrite ?prefix_cons;
         cbn [Ascii.eqb Bool.eqb andb];
         rewrite ?Hpre, ?Hcon by reflexivity; reflexivity) ].
  all: reflexivity.
Qed.


Lemma digit_not_space (c : ascii) (s : string) :
  is_digit c = true -> space_width (String c s) = 0%nat.
Proof.
  intro H. unfold space_width.
  destruct (find (fun w => prefix w (String c s)) whitespace) as [w|] eqn:E; [|reflexivity].
  exfalso. apply find_some in E as [Hw Hp].
  unfold is_digit, code in H. apply andb_prop in H as [H1 H2].
  apply Nat.leb_le in H1, H2.
  unfold whitespace in Hw. cbn [map] in Hw.
  repeat (destruct Hw as [<-|Hw];
          [cbn [bytes fold_right prefix] in Hp;
           destruct (ascii_dec _ c) as [<-|]; [|discriminate];
           rewrite nat_ascii_embedding in H1, H2 by lia; lia|]).
  destruct Hw.
Qed.

Lemma all_digits_price_chars (s : string) : all_digits s = true -> all_price_chars s = true.
Proof.
  induction s as [|c s IH]; intro H; [reflexivity|].
  cbn [all_digits] in H. apply andb_prop in H as [Hc Hs].
  cbn [all_price_chars]. unfold is_price_char. rewrite Hc, (IH Hs). reflexivity.
Qed.

Lemma all_digits_app (a b : string) :
  all_digits a = true -> all_digits b = true -> all_digits (a ++ b) = true.
Proof.
  intros Ha Hb. induction a as [|c a IH]; [exact Hb|].
  cbn [all_digits] in Ha. apply andb_prop in Ha as [Hc Ha].
  cbn [append all_digits]. rewrite Hc, (IH Ha). reflexivity.
Qed.

(** The run of a text of digits with one marker inside. *)
Lemma price_run_joins (a m b : string) :
  In m markers -> all_digits a = true -> all_digits b = true -> a ++ b <> "" ->
  price_run (a ++ m ++ b) = Some (a ++ b).
Proof.
  intros Hm Ha Hb Hne. unfold price_run.
  rewrite strip_run, (remove_markers_joins a m b Hm Ha Hb).
  rewrite <- (append_nil_r (a ++ b)) at 1.
  apply (search_first_run "" (a ++ b) "" eq_refl); [|exact Hne | left; reflexivity].
  apply all_digits_price_chars, all_digits_app; assumption.
Qed.

(** The run of a text without markers: the first one, as far as it
    goes. *)
Lemma price_run_first (text pre run post : string) :
  (forall m, In m markers -> contains m text = false) ->
  text = pre ++ run ++ post ->
  has_price_char pre = false -> all_price_chars run = true -> run <> "" ->
  (post = "" \/ exists c post', post = String c post' /\ is_price_char c = false) ->
  price_run text = Some run.
Proof.
  intros Hm -> Hpre Hrun Hne Hpost. unfold price_run.
  rewrite strip_run, (remove_markers_absent _ Hm).
  apply search_first_run; assumption.
Qed.

Lemma price_run_none (text : string) :
  (forall m, In m markers -> contains m text = false) ->
  has_price_char text = false -> price_run text = None.
Proof.
  intros Hm H. unfold price_run.
  rewrite strip_run, (remove_markers_absent _ Hm). apply search_price_run_None, H.
Qed.

(** C2 (amended). On a text whose only decimal digits are 0 to 9 the
    normalizer removes the currency markers and unit suffixes, takes the
    first run of digits, points and commas as far as it goes, rewrites
    the separators and truncates the number read as a float.
    - A marker between two strings of digits is removed and the digits
      join into one run; in a text without markers the run is the first
      maximal one, and there is none when the text has no digit, point
      or comma.
    - No digit in the input, or no run: no price.
    - Points and commas: the points are removed and each comma becomes the
      decimal point. More than one comma gives no price; one comma
      between digit strings of at most 15 digits in all gives the digits
      before the comma.
    - Points only: they are removed exactly when the last segment has
      three characters; otherwise the run is read as it is (no price with
      more than one point, the digits before a single point otherwise).
    - Commas only: they are removed.
    - A rewritten run that is a digit string below 2^53 is its number.
    The four examples of the specification hold, and "17Gs950" is read
    as 17950. *)
Theorem extract_price_separator_rules :
  (forall text, digits_are_ascii text = true ->
     has_digit text = false -> _extract_price text = Ret None) /\
  (forall text, digits_are_ascii text = true ->
     price_run text = None -> _extract_price text = Ret None) /\
  (forall a m b, In m markers -> all_digits a = true -> all_digits b = true ->
     a ++ b <> "" -> price_run (a ++ m ++ b) = Some (a ++ b)) /\
  (forall text, digits_are_ascii text = true ->
     (forall m, In m markers -> contains m text = false) ->
     (has_price_char text = false -> price_run text = None) /\
     (forall pre run post, text = pre ++ run ++ post ->
        has_price_char pre = false -> all_price_chars run = true -> run <> "" ->
        (post = "" \/ exists c post', post = String c post' /\ is_price_char c = false) ->
        price_run text = Some run)) /\
  (forall text run, digits_are_ascii text = true -> price_run text = Some run ->
     (contains "." run = true -> contains "," run = true ->
        _extract_price text =
          int_of_float_literal (replace "," "." (replace "." "" run)) /\
        ((2 <= count_char "," run)%nat -> _extract_price text = Ret None) /\
        (forall a b, replace "." "" run = a ++ String "," b ->
           all_digits a = true -> all_digits b = true ->
           (1 <= String.length a + String.length b <= 15)%nat ->
           _extract_price text = Ret (Some (digits_value a)))) /\
     (contains "." run = true -> contains "," run = false ->
        (String.length (last (split "." run) "") = 3%nat ->
           digits_value (replace "." "" run) < 2 ^ 53 ->
           _extract_price text = Ret (Some (digits_value (replace "." "" run)))) /\
        (String.length (last (split "." run) "") <> 3%nat ->
           _extract_price text = int_of_float_literal run /\
           ((2 <= count_char "." run)%nat -> _extract_price text = Ret None) /\
           (forall a b, run = a ++ String "." b ->
              all_digits a = true -> all_digits b = true ->
              (1 <= String.length a + String.length b <= 15)%nat ->
              _extract_price text = Ret (Some (digits_value a))))) /\
     (contains "." run = false -> contains "," run = true ->
        replace "," "" run <> "" ->
        digits_value (replace "," "" run) < 2 ^ 53 ->
        _extract_price text = Ret (Some (digits_value (replace "," "" run)))) /\
     (contains "." run = false -> contains "," run = false ->
        digits_value run < 2 ^ 53 ->
        _extract_price text = Ret (Some (digits_value run)))) /\
  _extract_price "₲ 17.950" = Ret (Some 17950) /\
  _extract_price "Gs 1.234,56" = Ret (Some 1234) /\
  _extract_price "₲17,950" = Ret (Some 17950) /\
  _extract_price "no digits here" = Ret None /\
  _extract_price "17Gs950" = Ret (Some 17950).
Proof.
  split; [intros text _; apply extract_price_no_digit|].
  split.
  { intros text _ H. unfold _extract_price. destruct text; [reflexivity|].
    unfold price_run in H. rewrite H. reflexivity. }
  split; [exact price_run_joins|].
  split.
  { intros text _ Hm. split; [apply price_run_none, Hm|].
    intros pre run post. apply price_run_first, Hm. }
  split; [|repeat split; vm_compute; reflexivity].
  intros text run _ Hrun.
  rewrite (extract_price_run text run (price_run_text _ _ Hrun) Hrun).
  destruct (search_price_run_chars _ _ Hrun) as [Hchars Hne].
  split; [|split; [|split]].
  - intros Hp Hc. rewrite (rewrite_both run Hp Hc), !replace_char.
    split; [reflexivity|]. split.
    + intro H2. apply int_of_float_literal_points.
      rewrite count_points_after_rewrite. exact H2.
    + intros a b E Ha Hb Hlen. rewrite E, subst_char_app.
      rewrite (subst_char_digits "," "." a eq_refl Ha).
      cbn [subst_char Ascii.eqb Bool.eqb]. cbn [append].
      rewrite (subst_char_digits "," "." b eq_refl Hb).
      apply int_of_float_literal_decimal; assumption.
  - intros Hp Hc. rewrite (rewrite_points run Hp Hc), !replace_char. split.
    + intros H3 Hlt. rewrite H3. cbn [Nat.eqb].
      apply int_of_float_literal_digits; [| |exact Hlt].
      * apply (digits_after_removal "." "," run); [exact price_char_cases|reflexivity|exact Hchars|].
        apply no_char_count, Hc.
      * apply last_segment_survives. intro E. rewrite E in H3. discriminate.
    + intro H3. apply Nat.eqb_neq in H3. rewrite H3.
      split; [reflexivity|]. split.
      * apply int_of_float_literal_points.
      * intros a b -> Ha Hb Hlen. apply int_of_float_literal_decimal; assumption.
  - intros Hp Hc Hne' Hlt. rewrite (rewrite_commas run Hp Hc), !replace_char in *.
    apply int_of_float_literal_digits; [|exact Hne'|exact Hlt].
    apply (digits_after_removal "," "." run); [exact price_char_cases'|reflexivity|exact Hchars|].
    apply no_char_count, Hp.
  - intros Hp Hc Hlt. rewrite (rewrite_plain run Hp Hc).
    apply int_of_float_literal_digits; [|exact Hne|exact Hlt].
    apply digits_without_separators; [exact Hchars| |]; apply no_char_count; assumption.
Qed.

(** C2 (as stated) fails on a run with both separators and two commas:
    the code reads "1.234,5,6" as the malformed literal "1234.5.6" and
    returns no price, where dropping everything from the first comma
    on gives 1234. *)
Lemma extract_price_two_commas :
  _extract_price "1.234,5,6" = Ret None /\
  normalize_as_specified "1.234,5,6" = Some 1234.
Proof.
  split; vm_compute; reflexivity.
Qed.

End NormalizerFacts.

(** ** The generic extractor *)

Section GenericFacts.
Import Py BaseScraper GenericScraper.
Local Open Scope string_scope.

(** The name loop stops at the first field longer than three
    characters; when there is one, the name it yields is that long. *)
Lemma for_name_patterns_long (element : Element) (patterns : list name_pattern)
  (name : option string) :
  (exists pattern text, In pattern patterns /\
     name_text element pattern = Some text /\ (3 < len text)%nat) ->
  exists text, for_name_patterns element patterns name = Some text /\ (3 < len text)%nat.
Proof.
  revert name. induction patterns as [|pattern rest IH]; intros name (q & text & Hin & Hq & Hlen).
  - destruct Hin.
  - cbn [for_name_patterns]. destruct (name_text element pattern) as [t|] eqn:E.
    + destruct (3 <? len t)%nat eqn:Et.
      * exists t. split; [reflexivity|]. apply Nat.ltb_lt, Et.
      * destruct Hin as [->|Hin]; [|apply IH; eauto].
        rewrite Hq in E. injection E as ->. apply Nat.ltb_lt in Hlen. congruence.
    + destruct Hin as [->|Hin]; [congruence|]. apply IH; eauto.
Qed.

(** C8, where the code departs from it: a short name that is the only
    one found is kept. The container with the heading "Aj" and the
    price "Gs 5.000" is emitted as a listing whose name has two
    characters. *)
Theorem generic_short_name_emitted :
  _parse_products Scenario.biggie Scenario.short_name_soup =
  [ {| l_name := "Aj"; l_price := 5000; l_unit := "kg"; l_url := "";
       l_supermarket := "Biggie" |} ] /\
  len "Aj" = 2%nat.
Proof.
  split; vm_compute; reflexivity.
Qed.

End GenericFacts.

(** ** The trend query *)

Section TrendFacts.
Import Py PyFloat PriceDatabase.
Local Open Scope string_scope.
Local Open Scope Z_scope.

Lemma insert_date_In (d : Z) (dates : list Z) (y : Z) :
  In y (insert_date d dates) <-> y = d \/ In y dates.
Proof.
  induction dates as [|x rest IH]; cbn [insert_date].
  - cbn. intuition.
  - destruct (d <? x) eqn:E1; [cbn; intuition|].
    destruct (d =? x) eqn:E2.
    + apply Z.eqb_eq in E2. subst x. cbn. intuition.
    + cbn [In]. rewrite IH. intuition.
Qed.

Lemma insert_date_sorted (d : Z) (dates : list Z) :
  StronglySorted Z.lt dates -> StronglySorted Z.lt (insert_date d dates).
Proof.
  induction dates as [|x rest IH]; intro H; cbn [insert_date].
  - repeat constructor.
  - inversion H as [|? ? Hrest Hall]; subst.
    destruct (d <? x) eqn:E1.
    + apply Z.ltb_lt in E1. constructor; [exact H|].
      constructor; [exact E1|]. rewrite Forall_forall in *. intros y Hy.
      specialize (Hall y Hy). lia.
    + destruct (d =? x) eqn:E2; [exact H|].
      apply Z.ltb_ge in E1. apply Z.eqb_neq in E2.
      constructor; [apply IH, Hrest|].
      rewrite Forall_forall in *. intros y Hy.
      apply insert_date_In in Hy as [->|Hy]; [lia | apply Hall, Hy].
Qed.

Lemma distinct_dates_In (rows : list Row) (d : Z) :
  In d (distinct_dates rows) <-> exists r, In r rows /\ date r = d.
Proof.
  unfold distinct_dates. induction rows as [|r rows IH]; cbn [map fold_right].
  - split; [intros [] | intros (r & [] & _)].
  - rewrite insert_date_In, IH. split.
    + intros [->|(r' & Hin & Hd)]; [exists r; cbn; auto | exists r'; cbn; auto].
    + intros (r' & [<-|Hin] & Hd); [left; auto | right; eauto].
Qed.

Lemma distinct_dates_sorted (rows : list Row) : StronglySorted Z.lt (distinct_dates rows).
Proof.
  unfold distinct_dates. induction rows as [|r rows IH]; cbn [map fold_right].
  - constructor.
  - apply insert_date_sorted, IH.
Qed.





Lemma distinct_dates_single (rows : list Row) :
  (forall r1 r2, In r1 rows -> In r2 rows -> date r1 = date r2) ->
  (List.length (distinct_dates rows) < 2)%nat.
Proof.
  intro Hall. pose proof (distinct_dates_sorted rows) as Hs.
  destruct (distinct_dates rows) as [|x [|y rest]] eqn:E; cbn; try lia.
  exfalso.
  assert (Hx : In x (distinct_dates rows)) by (rewrite E; cbn; auto).
  assert (Hy : In y (distinct_dates rows)) by (rewrite E; cbn; auto).
  apply distinct_dates_In in Hx as (r1 & H1 & <-), Hy as (r2 & H2 & <-).
  inversion Hs as [|? ? _ Hf]; subst. inversion Hf as [|? ? Hlt _]; subst.
  specialize (Hall r1 r2 H1 H2). lia.
Qed.


Lemma window_rows_In (table : Table) (p : string) (start_date end_date : Z) (r : Row) :
  In r (window_rows table p start_date end_date) <->
  In r table /\ product r = p /\ start_date <= date r <= end_date.
Proof.
  unfold window_rows. rewrite filter_In, !andb_true_iff, String.eqb_eq, !Z.leb_le.
  intuition.
Qed.

Lemma sum_positive (prices : list Z) :
  (forall v, In v prices -> 0 < v) ->
  Z.of_nat (List.length prices) <= fold_right Z.add 0 prices.
Proof.
  induction prices as [|v prices IH]; intro H; [cbn; lia|].
  cbn [List.length fold_right]. rewrite Nat2Z.inj_succ.
  specialize (H v (or_introl eq_refl)) as Hv.
  assert (forall w, In w prices -> 0 < w) by (intros; apply H; right; assumption).
  specialize (IH H0). lia.
Qed.

(** While it stays below 2^53 the running sum is exact. *)
Lemma running_sum_exact (prices : list Z) (acc : Z) :
  (forall v, In v prices -> 0 <= v) -> 0 <= acc ->
  acc + fold_right Z.add 0 prices < 2 ^ 53 ->
  fold_left (fun acc v => fadd acc (of_int v)) prices (Qmake acc 1) =
  Qmake (acc + fold_right Z.add 0 prices) 1.
Proof.
  revert acc. induction prices as [|v prices IH]; intros acc Hpos Hacc Hsum;
    cbn [fold_left fold_right].
  - rewrite Z.add_0_r. reflexivity.
  - cbn [fold_right] in Hsum.
    assert (Hv : 0 <= v) by (apply Hpos; left; reflexivity).
    assert (Hrest : forall w, In w prices -> 0 <= w) by (intros w Hw; apply Hpos; right; exact Hw).
    assert (Hs : 0 <= fold_right Z.add 0 prices).
    { clear -Hrest. induction prices as [|w prices IH]; [cbn; lia|].
      cbn [fold_right]. pose proof (Hrest w (or_introl eq_refl)).
      specialize (IH (fun x Hx => Hrest x (or_intror Hx))). lia. }
    unfold fadd, of_int, inject_Z. rewrite (b64_integer_exact v) by lia.
    unfold Qplus. cbn [Qnum Qden]. rewrite !Z.mul_1_r. change (1 * 1)%positive with 1%positive.
    rewrite (b64_integer_exact (acc + v)) by lia.
    rewrite IH by (try assumption; lia). f_equal. lia.
Qed.

(** The average of non-negative prices whose sum is below 2^53 is their
    exact mean, rounded once. *)
Lemma AVG_mean (prices : list Z) :
  (forall v, In v prices -> 0 <= v) ->
  fold_right Z.add 0 prices < 2 ^ 53 ->
  Z.of_nat (List.length prices) < 2 ^ 53 ->
  AVG prices =
  b64 (inject_Z (fold_right Z.add 0%Z prices) / inject_Z (Z.of_nat (List.length prices)))%Q.
Proof.
  intros Hpos Hsum Hlen. unfold AVG.
  change 0%Q with (Qmake 0 1). rewrite (running_sum_exact prices 0 Hpos (Z.le_refl 0)) by lia.
  unfold of_int, inject_Z. rewrite b64_integer_exact by lia. reflexivity.
Qed.

(** The average of positive prices whose sum is below 2^53 is not zero. *)
Lemma AVG_nonzero (prices : list Z) :
  prices <> [] -> (forall v, In v prices -> 0 < v) ->
  fold_right Z.add 0 prices < 2 ^ 53 ->
  Qeq_bool (AVG prices) 0 = false.
Proof.
  intros Hne Hpos Hsum. pose proof (sum_positive prices Hpos) as Hlen.
  assert (Hc : 0 < Z.of_nat (List.length prices)) by (destruct prices; [contradiction|cbn; lia]).
  rewrite AVG_mean; [apply b64_ratio_nonzero; lia | | exact Hsum | lia].
  intros v Hv. apply Z.lt_le_incl, Hpos, Hv.
Qed.

Lemma prices_on_In (rows : list Row) (d v : Z) :
  In v (prices_on rows d) <-> exists r, In r rows /\ date r = d /\ price_guaranies r = v.
Proof.
  unfold prices_on. rewrite in_map_iff. split.
  - intros (r & Hv & Hr). apply filter_In in Hr as [Hr Hd].
    apply Z.eqb_eq in Hd. eauto.
  - intros (r & Hr & Hd & Hv). exists r. split; [exact Hv|].
    apply filter_In. split; [exact Hr | apply Z.eqb_eq, Hd].
Qed.


Lemma get_price_trend_window (today : Z) (table : Table) (p : string) (days : Z) :
  Z.abs days <= 999999999 -> 1 <= today - days <= 3652059 ->
  get_price_trend today table p days =
  let data := daily_averages (window_rows table p (today - days) today) in
  if (List.length data <? 2)%nat then Ret insufficient_data
  else
    bind (percent_change (snd (hd (0, 0%Q) data)) (snd (List.last data (0, 0%Q))))
      (fun change_percent =>
         Ret (trend_summary (classify change_percent) (round1 change_percent)
                (trunc (snd (hd (0, 0%Q) data)))
                (trunc (snd (List.last data (0, 0%Q)))))).
Proof.
  intros Hd Hs. unfold get_price_trend, timedelta, date_sub.
  replace (Z.abs days <=? 999999999) with true by (symmetry; apply Z.leb_le; exact Hd).
  cbn [bind].
  replace ((1 <=? today - days) && (today - days <=? 3652059)) with true; [reflexivity|].
  symmetry. apply andb_true_iff. split; apply Z.leb_le; lia.
Qed.



End TrendFacts.

(** ** Ordered results and the deduplication dict *)

Section OrderFacts.
Import PriceDatabase.

Context {A : Type} (le : A -> A -> bool).

Lemma insert_by_In (x y : A) (l : list A) :
  In y (insert_by le x l) <-> y = x \/ In y l.
Proof.
  induction l as [|z l IH]; cbn [insert_by].
  - cbn. intuition.
  - destruct (le x z); cbn [In]; [intuition|]. rewrite IH. intuition.
Qed.

Lemma order_by_In (y : A) (l : list A) : In y (order_by le l) <-> In y l.
Proof.
  unfold order_by. induction l as [|x l IH]; cbn [fold_right]; [reflexivity|].
  rewrite insert_by_In, IH. cbn. intuition.
Qed.

Lemma insert_by_length (x : A) (l : list A) :
  List.length (insert_by le x l) = S (List.length l).
Proof.
  induction l as [|z l IH]; cbn [insert_by]; [reflexivity|].
  destruct (le x z); cbn [List.length]; [reflexivity | rewrite IH; reflexivity].
Qed.

Lemma order_by_length (l : list A) : List.length (order_by le l) = List.length l.
Proof.
  unfold order_by. induction l as [|x l IH]; cbn [fold_right]; [reflexivity|].
  rewrite insert_by_length, IH. reflexivity.
Qed.

Hypothesis le_total : forall a b, le a b = false -> le b a = true.
Hypothesis le_trans : forall a b c, le a b = true -> le b c = true -> le a c = true.

Lemma insert_by_sorted (x : A) (l : list A) :
  StronglySorted (fun a b => le a b = true) l ->
  StronglySorted (fun a b => le a b = true) (insert_by le x l).
Proof.
  induction l as [|z l IH]; intro H; cbn [insert_by].
  - repeat constructor.
  - inversion H as [|? ? Hl Hall]; subst. rewrite Forall_forall in Hall.
    destruct (le x z) eqn:E.
    + constructor; [exact H|]. rewrite Forall_forall. intros y [<-|Hy]; [exact E|].
      apply (le_trans _ _ _ E), Hall, Hy.
    + constructor; [apply IH, Hl|]. rewrite Forall_forall. intros y Hy.
      apply insert_by_In in Hy as [->|Hy]; [apply le_total, E | apply Hall, Hy].
Qed.

Lemma order_by_sorted (l : list A) :
  StronglySorted (fun a b => le a b = true) (order_by le l).
Proof.
  unfold order_by. induction l as [|x l IH]; cbn [fold_right]; [constructor|].
  apply insert_by_sorted, IH.
Qed.

(** The first row of an ordered result precedes every row. *)
Lemma order_by_head (l : list A) (x : A) (rest : list A) :
  order_by le l = x :: rest ->
  In x l /\ forall y, In y l -> y = x \/ le x y = true.
Proof.
  intro E. pose proof (order_by_sorted l) as Hs. rewrite E in Hs.
  inversion Hs as [|? ? _ Hall]; subst. rewrite Forall_forall in Hall.
  split.
  - apply order_by_In. rewrite E. left. reflexivity.
  - intros y Hy. apply order_by_In in Hy. rewrite E in Hy.
    destruct Hy as [<-|Hy]; [left; reflexivity | right; apply Hall, Hy].
Qed.

End OrderFacts.

Section DictFacts.
Import PriceMonitor.
Local Open Scope string_scope.

Context {V : Type}.

Lemma dict_get_None (key : string) (d : list (string * V)) :
  dict_get key d = None <-> ~ In key (map fst d).
Proof.
  induction d as [|[k v] d IH]; cbn [dict_get map fst In]; [tauto|].
  destruct (String.eqb k key) eqn:E.
  - apply String.eqb_eq in E. split; [discriminate | intro H; exfalso; apply H; auto].
  - apply String.eqb_neq in E. rewrite IH. tauto.
Qed.

Lemma dict_get_Some (key : string) (v : V) (d : list (string * V)) :
  dict_get key d = Some v -> In (key, v) d.
Proof.
  induction d as [|[k w] d IH]; cbn [dict_get In]; [discriminate|].
  destruct (String.eqb k key) eqn:E.
  - apply String.eqb_eq in E. intro H. injection H as ->. left. congruence.
  - intro H. right. apply IH, H.
Qed.

Lemma dict_set_keys_present (key : string) (v : V) (d : list (string * V)) :
  In key (map fst d) -> map fst (dict_set key v d) = map fst d.
Proof.
  induction d as [|[k w] d IH]; intro H; [destruct H|].
  cbn [dict_set]. destruct (String.eqb k key) eqn:E; [reflexivity|].
  apply String.eqb_neq in E. cbn [map fst] in *.
  destruct H as [H|H]; [congruence|]. rewrite (IH H). reflexivity.
Qed.

Lemma dict_set_keys_absent (key : string) (v : V) (d : list (string * V)) :
  ~ In key (map fst d) -> map fst (dict_set key v d) = (map fst d ++ [key])%list.
Proof.
  induction d as [|[k w] d IH]; intro H; [reflexivity|].
  cbn [dict_set]. destruct (String.eqb k key) eqn:E.
  - apply String.eqb_eq in E. exfalso. apply H. left. exact E.
  - cbn [map fst app] in *. rewrite IH; [reflexivity|]. intro Hin. apply H. right. exact Hin.
Qed.

Lemma dict_set_In (key : string) (v : V) (d : list (string * V)) (k : string) (w : V) :
  NoDup (map fst d) ->
  In (k, w) (dict_set key v d) <->
  (k = key /\ w = v) \/ (k <> key /\ In (k, w) d).
Proof.
  induction d as [|[k' w'] d IH]; intro Hnd; cbn [dict_set].
  - cbn. split.
    + intros [H|[]]. injection H as <- <-. left. auto.
    + intros [[-> ->]|[_ []]]. left. reflexivity.
  - cbn [map fst] in Hnd. inversion Hnd as [|? ? Hnotin Hnd']; subst.
    destruct (String.eqb k' key) eqn:E.
    + apply String.eqb_eq in E. subst k'. cbn [In]. split.
      * intros [H|H]; [injection H as <- <-; left; auto|].
        right. split; [|right; exact H].
        intros ->. apply Hnotin. apply in_map_iff. exists (key, w). auto.
      * intros [[-> ->]|[Hne [H|H]]]; [left; reflexivity| |right; exact H].
        injection H as -> _. contradiction.
    + apply String.eqb_neq in E. cbn [In]. rewrite (IH Hnd'). split.
      * intros [H|[H|H]]; [injection H as <- <-; right; split; [congruence|left; reflexivity]
                          | left; exact H | right; split; [tauto | right; tauto]].
      * intros [H|[Hne [H|H]]]; [right; left; exact H | left; exact H | right; right; auto].
Qed.

End DictFacts.

(** ** The report data builder *)

Section ReportFacts.
Import Py PyFloat PriceDatabase PriceMonitor.
Local Open Scope string_scope.
Local Open Scope Z_scope.

Lemma dict_get_unique {V : Type} (key : string) (v : V) (d : list (string * V)) :
  NoDup (map fst d) -> In (key, v) d -> dict_get key d = Some v.
Proof.
  induction d as [|[k w] d IH]; intros Hnd Hin; [destruct Hin|].
  cbn [map fst] in Hnd. inversion Hnd as [|? ? Hnotin Hnd']; subst.
  cbn [dict_get]. destruct Hin as [H|H].
  - injection H as -> ->. rewrite String.eqb_refl. reflexivity.
  - destruct (String.eqb k key) eqn:E; [|apply IH; assumption].
    apply String.eqb_eq in E. subst k. exfalso. apply Hnotin.
    apply in_map_iff. exists (key, v). auto.
Qed.

(** What the deduplication loop maintains: the keys are distinct, each
    entry is the cheapest processed price of its source, and every
    processed source has an entry. *)
Lemma for_prices_invariant (prices processed : list Price)
  (seen : list (string * Price)) :
  NoDup (map fst seen) ->
  (forall k q, In (k, q) seen ->
     pr_supermarket q = k /\ In q processed /\
     forall p, In p processed -> pr_supermarket p = k -> pr_price q <= pr_price p) ->
  (forall p, In p processed -> In (pr_supermarket p) (map fst seen)) ->
  let seen' := for_prices prices seen in
  NoDup (map fst seen') /\
  (forall k q, In (k, q) seen' ->
     pr_supermarket q = k /\ In q (processed ++ prices) /\
     forall p, In p (processed ++ prices) -> pr_supermarket p = k ->
               pr_price q <= pr_price p) /\
  (forall p, In p (processed ++ prices) -> In (pr_supermarket p) (map fst seen')).
Proof.
  revert processed seen.
  induction prices as [|p rest IH]; intros processed seen Hnd Hmin Hall; cbn zeta.
  - rewrite app_nil_r. cbn [for_prices]. auto.
  - cbn [for_prices].
    replace (processed ++ p :: rest)%list with ((processed ++ [p]) ++ rest)%list
      by (rewrite <- app_assoc; reflexivity).
    set (sm := pr_supermarket p).
    destruct (dict_get sm seen) as [q0|] eqn:Eg.
    + pose proof (dict_get_Some _ _ _ Eg) as Hq0.
      assert (Hkey : In sm (map fst seen)).
      { apply in_map_iff. exists (sm, q0). auto. }
      destruct (pr_price p <? pr_price q0) eqn:El.
      * apply Z.ltb_lt in El. apply IH.
        -- rewrite dict_set_keys_present by exact Hkey. exact Hnd.
        -- intros k q Hin. apply (dict_set_In _ _ _ _ _ Hnd) in Hin as [[-> ->]|[Hne Hin]].
           ++ split; [reflexivity|]. split; [apply in_or_app; right; left; reflexivity|].
              intros p' Hp' Hs. apply in_app_or in Hp' as [Hp'|[<-|[]]]; [|lia].
              destruct (Hmin _ _ Hq0) as (_ & _ & Hle). specialize (Hle p' Hp' Hs). lia.
           ++ destruct (Hmin _ _ Hin) as (Hs & Hq & Hle).
              split; [exact Hs|]. split; [apply in_or_app; left; exact Hq|].
              intros p' Hp' Hs'. apply in_app_or in Hp' as [Hp'|[<-|[]]];
                [apply Hle; assumption | fold sm in Hs'; congruence].
        -- intros p' Hp'. rewrite dict_set_keys_present by exact Hkey.
           apply in_app_or in Hp' as [Hp'|[<-|[]]]; [apply Hall, Hp' | exact Hkey].
      * apply Z.ltb_ge in El. apply IH.
        -- exact Hnd.
        -- intros k q Hin. destruct (Hmin _ _ Hin) as (Hs & Hq & Hle).
           split; [exact Hs|]. split; [apply in_or_app; left; exact Hq|].
           intros p' Hp' Hs'. apply in_app_or in Hp' as [Hp'|[<-|[]]];
             [apply Hle; assumption|].
           assert (Ek : k = sm) by (symmetry; exact Hs').
           rewrite Ek in Hin.
           rewrite (dict_get_unique sm q seen Hnd Hin) in Eg. injection Eg as ->. exact El.
        -- intros p' Hp'. apply in_app_or in Hp' as [Hp'|[<-|[]]];
             [apply Hall, Hp' | exact Hkey].
    + pose proof (proj1 (dict_get_None _ _) Eg) as Hkey.
      apply IH.
      * rewrite dict_set_keys_absent by exact Hkey.
        apply NoDup_app; [exact Hnd | repeat constructor; intros [] |].
        intros x Hx [<-|[]]. contradiction.
      * intros k q Hin. apply (dict_set_In _ _ _ _ _ Hnd) in Hin as [[-> ->]|[Hne Hin]].
        -- split; [reflexivity|]. split; [apply in_or_app; right; left; reflexivity|].
           intros p' Hp' Hs. apply in_app_or in Hp' as [Hp'|[<-|[]]]; [|lia].
           exfalso. apply Hkey. rewrite <- Hs. apply Hall, Hp'.
        -- destruct (Hmin _ _ Hin) as (Hs & Hq & Hle).
           split; [exact Hs|]. split; [apply in_or_app; left; exact Hq|].
           intros p' Hp' Hs'. apply in_app_or in Hp' as [Hp'|[<-|[]]];
             [apply Hle; assumption | fold sm in Hs'; congruence].
      * intros p' Hp'. rewrite dict_set_keys_absent by exact Hkey.
        apply in_or_app. apply in_app_or in Hp' as [Hp'|[<-|[]]];
          [left; apply Hall, Hp' | right; left; reflexivity].
Qed.

(** The deduplicated list holds one price per source, the lowest. *)
Lemma deduplicate_lowest (prices : list Price) :
  NoDup (map pr_supermarket (deduplicate prices)) /\
  (forall q, In q (deduplicate prices) ->
     In q prices /\
     forall p, In p prices -> pr_supermarket p = pr_supermarket q ->
               pr_price q <= pr_price p) /\
  (forall p, In p prices ->
     exists q, In q (deduplicate prices) /\ pr_supermarket q = pr_supermarket p).
Proof.
  destruct (for_prices_invariant prices [] []) as (Hnd & Hmin & Hall);
    [constructor | intros k q [] | intros p [] |].
  cbn [app] in Hmin, Hall. unfold deduplicate.
  set (seen := for_prices prices []) in *.
  assert (Hkeys : map pr_supermarket (map snd seen) = map fst seen).
  { rewrite map_map. apply map_ext_in. intros [k q] Hin. cbn. apply Hmin, Hin. }
  split; [rewrite Hkeys; exact Hnd|]. split.
  - intros q Hq. apply in_map_iff in Hq as ([k q'] & <- & Hin). cbn [snd].
    destruct (Hmin _ _ Hin) as (Hs & Hq & Hle). split; [exact Hq|].
    intros p Hp Hsp. apply Hle; [exact Hp | congruence].
  - intros p Hp. specialize (Hall p Hp). apply in_map_iff in Hall as ([k q] & Hk & Hin).
    cbn [fst] in Hk. subst k. exists q. split.
    + apply in_map_iff. exists (pr_supermarket p, q). auto.
    + apply Hmin, Hin.
Qed.

Lemma deduplicate_not_nil (prices : list Price) : prices <> [] -> deduplicate prices <> [].
Proof.
  intros Hne E. destruct prices as [|p rest]; [contradiction|].
  destruct (deduplicate_lowest (p :: rest)) as (_ & _ & Hall).
  destruct (Hall p (or_introl eq_refl)) as (q & Hq & _). rewrite E in Hq. destruct Hq.
Qed.

(** Halving an integer below 2^53 in floats is exact up to the dropped
    fraction. *)
Lemma truediv_two (s : Z) :
  0 <= s < 2 ^ 53 -> exists x, truediv s 2 = Ret x /\ trunc x = Z.quot s 2.
Proof.
  intros [H0 H53]. unfold truediv. cbn [Z.eqb]. eexists. split; [reflexivity|].
  rewrite Z.quot_div_nonneg by lia.
  destruct s as [|p|p]; [reflexivity| |lia].
  unfold b64. cbn [Qdiv Qmult Qinv inject_Z Qnum Qden].
  rewrite Z.mul_1_r. cbn [Qnum].
  pose proof (log2_bounds (Zpos p) eq_refl) as [Hlo Hhi].
  assert (Ha : 0 <= Z.log2 (Zpos p) < 53).
  { split; [apply Z.log2_nonneg|]. apply (proj1 (Z.log2_lt_pow2 (Zpos p) 53 eq_refl)). lia. }
  destruct (round_pos_scale (Zpos p) 2 eq_refl eq_refl) as (m & k & Hr & Hk & _ & Hex).
  { change (Z.log2 2) with 1. lia. }
  change (Z.log2 2) with 1 in Hk.
  change (Z.pos (1 * 2)) with 2. rewrite Hr.
  assert (Hk1 : 2 ^ k = 2 * 2 ^ (k - 1)).
  { rewrite <- Z.pow_succ_r by lia. f_equal. lia. }
  assert (Hp : 0 < 2 ^ (k - 1)) by (apply Z.pow_pos_nonneg; lia).
  assert (Hm : m = Zpos p * 2 ^ (k - 1)).
  { rewrite Hex.
    - rewrite Hk1. replace (Zpos p * (2 * 2 ^ (k - 1))) with (Zpos p * 2 ^ (k - 1) * 2) by ring.
      apply Z.div_mul. lia.
    - rewrite Hk1. replace (Zpos p * (2 * 2 ^ (k - 1))) with (Zpos p * 2 ^ (k - 1) * 2) by ring.
      apply Z.mod_mul. lia. }
  rewrite trunc_dyadic by lia. rewrite Hm, Hk1.
  apply Z.div_mul_cancel_r; lia.
Qed.

Lemma int_median_returns (values : list Z) :
  values <> [] -> exists median, int_median values = Ret median.
Proof.
  intro Hne. unfold int_median.
  pose proof (order_by_length Z.leb values) as Hl. fold (sorted values) in Hl.
  destruct (List.length (sorted values)) as [|n] eqn:En.
  - destruct values; [contradiction | discriminate].
  - destruct (Nat.odd (S n)); [eexists; reflexivity|].
    unfold truediv. cbn [Z.eqb bind]. eexists. reflexivity.
Qed.

Lemma int_median_exact (values : list Z) :
  values <> [] -> (forall v, In v values -> 0 <= v < 2 ^ 52) ->
  int_median values = Ret (integer_median values).
Proof.
  intros Hne Hb. unfold int_median, integer_median.
  pose proof (order_by_length Z.leb values) as Hl. fold (sorted values) in Hl.
  destruct (List.length (sorted values)) as [|n] eqn:En.
  - destruct values; [contradiction | discriminate].
  - destruct (Nat.odd (S n)) eqn:Eo; [reflexivity|].
    assert (Hnth : forall i, (i < S n)%nat -> 0 <= nth i (sorted values) 0 < 2 ^ 52).
    { intros i Hi. apply Hb. apply (order_by_In Z.leb). apply nth_In.
      fold (sorted values). lia. }
    assert (Hdiv : (S n / 2 < S n)%nat) by (apply Nat.div_lt; lia).
    pose proof (Hnth (S n / 2)%nat Hdiv) as H1.
    pose proof (Hnth (S n / 2 - 1)%nat ltac:(lia)) as H2.
    destruct (truediv_two (nth (S n / 2 - 1) (sorted values) 0 + nth (S n / 2) (sorted values) 0))
      as (x & Hx & Ht).
    { change (2 ^ 53) with (2 * 2 ^ 52). lia. }
    rewrite Hx. cbn [bind]. rewrite Ht. reflexivity.
Qed.

Lemma insert_by_Permutation {A : Type} (le : A -> A -> bool) (x : A) (l : list A) :
  Permutation (insert_by le x l) (x :: l).
Proof.
  induction l as [|y l IH]; cbn [insert_by]; [apply Permutation_refl|].
  destruct (le x y); [apply Permutation_refl|].
  eapply Permutation_trans; [apply perm_skip, IH | apply perm_swap].
Qed.

Lemma order_by_Permutation {A : Type} (le : A -> A -> bool) (l : list A) :
  Permutation (order_by le l) l.
Proof.
  induction l as [|x l IH]; [constructor|].
  change (order_by le (x :: l)) with (insert_by le x (order_by le l)).
  eapply Permutation_trans; [apply insert_by_Permutation | apply perm_skip, IH].
Qed.

Lemma filter_Permutation {A : Type} (f : A -> bool) (l l' : list A) :
  Permutation l l' -> Permutation (filter f l) (filter f l').
Proof.
  induction 1 as [|x l l' _ IH|x y l|l l' l'' _ IH1 _ IH2]; cbn [filter].
  - constructor.
  - destruct (f x); [constructor|]; exact IH.
  - destruct (f x), (f y); try apply Permutation_refl. apply perm_swap.
  - eapply Permutation_trans; eassumption.
Qed.

Lemma sorted_sorted (values : list Z) : StronglySorted Z.le (sorted values).
Proof.
  pose proof (order_by_sorted Z.leb
                (fun a b H => proj2 (Z.leb_le b a) ltac:(apply Z.leb_gt in H; lia))
                (fun a b c H1 H2 => proj2 (Z.leb_le a c)
                   (Z.le_trans _ _ _ (proj1 (Z.leb_le a b) H1) (proj1 (Z.leb_le b c) H2)))
                values) as Hs.
  unfold sorted. induction Hs as [|x l Hs IH Hall]; constructor; [exact IH|].
  eapply Forall_impl; [|exact Hall]. intros y Hy. apply Z.leb_le, Hy.
Qed.

Lemma sorted_around (l1 l2 : list Z) (x : Z) :
  StronglySorted Z.le (l1 ++ x :: l2) ->
  Forall (fun y => y <= x) l1 /\ Forall (fun y => x <= y) l2.
Proof.
  induction l1 as [|z l1 IH]; cbn [app]; intro H; inversion H as [|? ? Hs Hall]; subst.
  - split; [constructor | exact Hall].
  - destruct (IH Hs) as [H1 H2]. split; [|exact H2].
    constructor; [|exact H1]. rewrite Forall_forall in Hall. apply Hall.
    apply in_or_app. right. left. reflexivity.
Qed.

Lemma filter_all {A : Type} (f : A -> bool) (l : list A) :
  Forall (fun y => f y = true) l -> filter f l = l.
Proof.
  induction 1 as [|x l Hx _ IH]; [reflexivity|]. cbn [filter]. rewrite Hx, IH. reflexivity.
Qed.

Lemma filter_nothing {A : Type} (f : A -> bool) (l : list A) :
  Forall (fun y => f y = false) l -> filter f l = [].
Proof.
  induction 1 as [|x l Hx _ IH]; [reflexivity|]. cbn [filter]. rewrite Hx. exact IH.
Qed.

(** The value at position [k] of the sorted list has rank [k]. *)
Lemma sorted_nth_rank (values : list Z) (k : nat) :
  (k < List.length values)%nat -> has_rank values k (nth k (sorted values) 0).
Proof.
  intro Hk.
  pose proof (order_by_Permutation Z.leb values) as Hperm. fold (sorted values) in Hperm.
  pose proof (sorted_sorted values) as Hs.
  assert (Hk' : (k < List.length (sorted values))%nat)
    by (rewrite (Permutation_length Hperm); exact Hk).
  destruct (nth_split (sorted values) 0 Hk') as (l1 & l2 & E & Hl1).
  set (x := nth k (sorted values) 0) in *.
  rewrite E in Hs. apply sorted_around in Hs as [H1 H2].
  split.
  - apply (Permutation_in x Hperm). rewrite E. apply in_or_app. right. left. reflexivity.
  - unfold count_below, count_upto.
    rewrite <- (Permutation_length (filter_Permutation (fun v => v <? x) _ _ Hperm)).
    rewrite <- (Permutation_length (filter_Permutation (fun v => v <=? x) _ _ Hperm)).
    rewrite E, !filter_app. cbn [filter].
    rewrite Z.ltb_irrefl, Z.leb_refl.
    rewrite (filter_nothing (fun v => v <? x) l2)
      by (eapply Forall_impl; [|exact H2]; intros y Hy; apply Z.ltb_ge; exact Hy).
    rewrite (filter_all (fun v => v <=? x) l1)
      by (eapply Forall_impl; [|exact H1]; intros y Hy; apply Z.leb_le; exact Hy).
    rewrite app_nil_r, !length_app. cbn [List.length].
    pose proof (filter_length_le (fun v => v <? x) l1). lia.
Qed.

(** In exact arithmetic [int_median] is the integer median: the value
    of middle rank, or the mean of the two values of middle rank without
    its fraction. *)
Lemma int_median_is_median (values : list Z) (median : Z) :
  (forall v, In v values -> 0 <= v < 2 ^ 52) ->
  int_median values = Ret median -> is_integer_median values median.
Proof.
  intros Hb Hm.
  assert (Hne : values <> []).
  { intros ->. discriminate Hm. }
  rewrite (int_median_exact values Hne Hb) in Hm. injection Hm as <-.
  unfold is_integer_median, integer_median.
  pose proof (order_by_length Z.leb values) as Hl. fold (sorted values) in Hl. rewrite Hl.
  set (n := List.length values).
  assert (Hn : (0 < n)%nat) by (unfold n; destruct values; [contradiction | cbn; lia]).
  assert (Hhalf : (n / 2 < n)%nat) by (apply Nat.div_lt; lia).
  destruct (Nat.odd n) eqn:Eo.
  - exists (nth (n / 2) (sorted values) 0), (nth (n / 2) (sorted values) 0).
    assert (Eh : ((n - 1) / 2 = n / 2)%nat).
    { apply Nat.odd_spec in Eo as [h Eh]. rewrite Eh.
      replace (2 * h + 1 - 1)%nat with (h * 2)%nat by lia. rewrite Nat.div_mul by lia.
      replace (2 * h + 1)%nat with (1 + h * 2)%nat by lia. rewrite Nat.div_add by lia.
      reflexivity. }
    rewrite Eh. split; [apply sorted_nth_rank, Hhalf|]. split; [apply sorted_nth_rank, Hhalf|].
    set (x := nth (n / 2) (sorted values) 0).
    replace (x + x) with (x * 2) by lia. rewrite Z.quot_mul by lia. reflexivity.
  - exists (nth (n / 2 - 1) (sorted values) 0), (nth (n / 2) (sorted values) 0).
    assert (Eh : ((n - 1) / 2 = n / 2 - 1)%nat).
    { assert (He : Nat.even n = true) by (rewrite <- Nat.negb_odd, Eo; reflexivity).
      apply Nat.even_spec in He as [h Eh]. rewrite Eh.
      replace (2 * h)%nat with (h * 2)%nat by lia. rewrite Nat.div_mul by lia.
      destruct h as [|h]; [lia|].
      replace (S h * 2 - 1)%nat with (1 + h * 2)%nat by lia. rewrite Nat.div_add by lia.
      cbn. lia. }
    rewrite Eh. split; [apply sorted_nth_rank; fold n; lia|].
    split; [apply sorted_nth_rank, Hhalf | reflexivity].
Qed.

End ReportFacts.

Section AlertFacts.
Import Py PyFloat PriceDatabase PriceMonitor.
Local Open Scope string_scope.
Local Open Scope Z_scope.

Lemma prior_row_In (today : Z) (table : Table) (sm p : string) (r : Row) :
  In r (filter (fun r => String.eqb (supermarket r) sm && String.eqb (product r) p &&
                         (date r <? today)) table) <->
  In r table /\ supermarket r = sm /\ product r = p /\ date r < today.
Proof.
  rewrite filter_In, !andb_true_iff, !String.eqb_eq, Z.ltb_lt. tauto.
Qed.

(** The previous price is the price of a stored row of the pair dated
    before today, and no such row is more recent. *)
Lemma get_previous_price_Some (today : Z) (table : Table) (sm p : string) (previous : Z) :
  get_previous_price today table sm p = Some previous ->
  exists row, In row table /\ supermarket row = sm /\ product row = p /\
              date row < today /\ price_guaranies row = previous /\
              forall r, In r table -> supermarket r = sm -> product r = p ->
                        date r < today -> date r <= date row.
Proof.
  unfold get_previous_price. intro H.
  destruct (order_by date_desc _) as [|row rest] eqn:E; [discriminate|].
  injection H as <-.
  apply order_by_head in E as [Hin Hmax].
  - apply prior_row_In in Hin as (Hin & Hs & Hp & Hd). exists row.
    repeat (split; [assumption || reflexivity|]).
    intros r Hr Hrs Hrp Hrd.
    destruct (Hmax r) as [->|Hle]; [apply prior_row_In; auto | lia|].
    unfold date_desc in Hle. apply Z.leb_le, Hle.
  - unfold date_desc. intros a b Hab. apply Z.leb_gt in Hab. apply Z.leb_le. lia.
  - unfold date_desc. intros a b c Hab Hbc. apply Z.leb_le in Hab, Hbc. apply Z.leb_le. lia.
Qed.

Lemma get_previous_price_None (today : Z) (table : Table) (sm p : string) :
  get_previous_price today table sm p = None <->
  forall r, In r table -> ~ (supermarket r = sm /\ product r = p /\ date r < today).
Proof.
  unfold get_previous_price.
  set (l := filter _ table).
  pose proof (order_by_length date_desc l) as Hl.
  split.
  - intros H r Hr (Hs & Hp & Hd).
    destruct (order_by date_desc l) as [|row rest]; [|discriminate].
    assert (Hin : In r l) by (apply prior_row_In; auto).
    destruct l; [destruct Hin | discriminate].
  - intro H. destruct (order_by date_desc l) as [|row rest] eqn:E; [reflexivity|].
    exfalso. assert (Hin : In row l) by (apply (order_by_In date_desc); rewrite E; left; reflexivity).
    apply prior_row_In in Hin as (Hin & Hrest). apply (H row Hin Hrest).
Qed.

Lemma alert_change_returns (price previous : Z) :
  previous <> 0 ->
  alert_change price previous =
  Ret (fmul (b64 (inject_Z (price - previous) / inject_Z previous)%Q) 100).
Proof.
  intro H. unfold alert_change, truediv.
  apply Z.eqb_neq in H. rewrite H. reflexivity.
Qed.

(** The alert loop returns, and adds exactly the alerts of the prices
    whose change against a non-zero previous price reaches the
    threshold. *)
Lemma for_alerts_spec (today : Z) (table : Table) (threshold : Q) (name : string)
  (prices : list Price) (alerts : list Alert) :
  exists added,
    for_alerts today table threshold name prices alerts = Ret (alerts ++ added)%list /\
    forall a, In a added <->
      exists price previous change,
        In price prices /\
        get_previous_price today table (pr_supermarket price) name = Some previous /\
        previous <> 0 /\
        alert_change (pr_price price) previous = Ret change /\
        (threshold <= Qabs change)%Q /\
        a = mkAlert name (pr_supermarket price) change previous (pr_price price).
Proof.
  revert alerts. induction prices as [|price rest IH]; intro alerts.
  - exists []. cbn [for_alerts]. rewrite app_nil_r. split; [reflexivity|].
    intro a. split; [intros [] | intros (? & ? & ? & [] & _)].
  - cbn [for_alerts].
    assert (Hskip : forall alerts,
               (forall previous change,
                   get_previous_price today table (pr_supermarket price) name = Some previous ->
                   previous <> 0 ->
                   alert_change (pr_price price) previous = Ret change ->
                   ~ (threshold <= Qabs change)%Q) ->
               exists added,
                 for_alerts today table threshold name rest alerts = Ret (alerts ++ added)%list /\
                 forall a, In a added <->
                   exists price' previous change,
                     In price' (price :: rest) /\
                     get_previous_price today table (pr_supermarket price') name = Some previous /\
                     previous <> 0 /\
                     alert_change (pr_price price') previous = Ret change /\
                     (threshold <= Qabs change)%Q /\
                     a = mkAlert name (pr_supermarket price') change previous (pr_price price')).
    { intros alerts' Hno. destruct (IH alerts') as (added & Hr & Hin).
      exists added. split; [exact Hr|]. intro a. rewrite Hin. split.
      - intros (p' & pv & ch & Hp' & Hrest). exists p', pv, ch. split; [right; exact Hp' | exact Hrest].
      - intros (p' & pv & ch & [<-|Hp'] & Hg & Hz & Hc & Ht & Ha).
        + exfalso. apply (Hno pv ch Hg Hz Hc Ht).
        + exists p', pv, ch. repeat (split; [assumption|]). exact Ha. }
    destruct (get_previous_price today table (pr_supermarket price) name) as [previous|] eqn:Eg.
    + destruct (previous =? 0) eqn:Ez.
      * apply Z.eqb_eq in Ez. apply Hskip. intros pv ch Hg Hz. congruence.
      * apply Z.eqb_neq in Ez. rewrite (alert_change_returns _ _ Ez). cbn [bind].
        set (change := fmul _ 100).
        destruct (Qle_bool threshold (Qabs change)) eqn:Et.
        -- destruct (IH (alerts ++ [mkAlert name (pr_supermarket price) change previous
                                      (pr_price price)])%list) as (added & Hr & Hin).
           exists (mkAlert name (pr_supermarket price) change previous (pr_price price) :: added).
           split; [rewrite Hr, <- app_assoc; reflexivity|].
           intro a. cbn [In]. rewrite Hin. split.
           ++ intros [<-|(p' & pv & ch & Hp' & Hrest)].
              ** exists price, previous, change. split; [left; reflexivity|].
                 split; [exact Eg|]. split; [exact Ez|].
                 split; [apply alert_change_returns, Ez|].
                 split; [apply Qle_bool_iff, Et | reflexivity].
              ** exists p', pv, ch. split; [right; exact Hp' | exact Hrest].
           ++ intros (p' & pv & ch & [<-|Hp'] & Hg & Hz & Hc & Ht & Ha).
              ** left. rewrite Eg in Hg. injection Hg as <-.
                 rewrite (alert_change_returns _ _ Ez) in Hc. injection Hc as <-.
                 symmetry. exact Ha.
              ** right. exists p', pv, ch. repeat (split; [assumption|]). exact Ha.
        -- apply Hskip. intros pv ch Hg Hz Hc Ht. injection Hg as <-.
           rewrite (alert_change_returns _ _ Ez) in Hc. injection Hc as <-.
           apply Qle_bool_iff in Ht. fold change in Ht. congruence.
    + apply Hskip. intros pv ch Hg. discriminate.
Qed.

End AlertFacts.

Section BuilderFacts.
Import Py PyFloat BaseScraper PriceDatabase PriceMonitor.
Local Open Scope string_scope.
Local Open Scope Z_scope.

Lemma get_today_prices_In (today : Z) (table : Table) (name : string) (q : Price) :
  name <> "" ->
  In q (get_today_prices today table (Some name)) <->
  exists r, In r table /\ date r = today /\ product r = name /\ q = to_price r.
Proof.
  intro Hne. unfold get_today_prices, get_prices_for_date.
  destruct name as [|c name]; [contradiction|]. cbn [truthy].
  rewrite in_map_iff. split.
  - intros (r & <- & Hr). apply order_by_In, filter_In in Hr as [Hr Hc].
    apply andb_true_iff in Hc as [Hd Hp]. apply Z.eqb_eq in Hd. apply String.eqb_eq in Hp.
    exists r. auto.
  - intros (r & Hr & Hd & Hp & ->). exists r. split; [reflexivity|].
    apply order_by_In, filter_In. split; [exact Hr|].
    apply andb_true_iff. split; [apply Z.eqb_eq, Hd | apply String.eqb_eq, Hp].
Qed.

Lemma get_today_prices_nameless (today : Z) (table : Table) (q : Price) :
  In q (get_today_prices today table (Some "")) <->
  exists r, In r table /\ date r = today /\ q = to_price r.
Proof.
  unfold get_today_prices, get_prices_for_date. cbn [truthy].
  rewrite in_map_iff. split.
  - intros (r & <- & Hr). apply order_by_In, filter_In in Hr as [Hr Hd].
    apply Z.eqb_eq in Hd. exists r. auto.
  - intros (r & Hr & Hd & ->). exists r. split; [reflexivity|].
    apply order_by_In, filter_In. split; [exact Hr | apply Z.eqb_eq, Hd].
Qed.

(** C4 (amended). For a product with a name and at least one fact today
    the builder reads today's facts of the product, keeps one price
    per source, the lowest of that source among them, and reports the
    integer median of the kept prices: for prices below 2^52 the value
    of middle rank, or the mean of the two values of middle rank
    without its fraction. A product configured without a name is built
    the same way from today's facts of every product. With two
    listings of one source at 16500 and 16800 only 16500 is kept; the
    kept prices 16500, 17000 and 18000 of three sources have median
    17000, in whatever order they are given, and the kept prices 16500
    and 17500 of two sources have median 17000. *)
Theorem report_keeps_lowest_per_source (today : Z) (table : Table) (threshold : Q)
  (product : Product) (report : Report) :
  let name := get (p_name product) "" in
  let prices := get_today_prices today table (Some name) in
  prices <> [] ->
  let kept := deduplicate prices in
  (name <> "" ->
   forall q, In q prices <->
     exists r, In r table /\ date r = today /\ PriceDatabase.product r = name /\
               q = to_price r) /\
  (name = "" ->
   forall q, In q prices <->
     exists r, In r table /\ date r = today /\ q = to_price r) /\
  NoDup (map pr_supermarket kept) /\
  (forall q, In q kept ->
     In q prices /\
     forall p, In p prices -> pr_supermarket p = pr_supermarket q ->
               pr_price q <= pr_price p) /\
  (forall p, In p prices ->
     exists q, In q kept /\ pr_supermarket q = pr_supermarket p) /\
  (exists median alerts,
     int_median (map pr_price kept) = Ret median /\
     ((forall q, In q kept -> 0 <= pr_price q < 2 ^ 52) ->
      is_integer_median (map pr_price kept) median) /\
     report_product today table threshold product report =
     bind (get_price_trend today table name 7) (fun trend =>
       Ret (mkReport
              (r_products report ++
               [mkReportProduct name median (order_by price_le kept)])%list
              alerts
              (dict_set name trend (r_trends report))))) /\
  deduplicate (get_today_prices 100 Scenario.alert_table (Some "Tomate Lisa")) =
  [ mkPrice "Biggie" "Tomate Lisa" 16500 (Some "Tomate Lisa") "kg" ] /\
  map pr_price
    (deduplicate (get_today_prices 100 Scenario.three_source_table (Some "Tomate Lisa"))) =
  [ 16500; 17000; 18000 ] /\
  int_median [ 16500; 17000; 18000 ] = Ret 17000 /\
  int_median [ 16500; 18000; 17000 ] = Ret 17000 /\
  map pr_price
    (deduplicate (get_today_prices 100 Scenario.two_source_table (Some "Tomate Lisa"))) =
  [ 16500; 17500 ] /\
  int_median [ 16500; 17500 ] = Ret 17000 /\
  (exists report3,
     _generate_report_data 100 Scenario.three_source_table 15 [Scenario.tomate_lisa] =
       Ret report3 /\
     map rp_median (r_products report3) = [ 17000 ]).
Proof.
  intros name prices Hne kept.
  split; [intros Hn q; apply get_today_prices_In, Hn|].
  split; [intros Hn q; unfold prices; rewrite Hn; apply get_today_prices_nameless|].
  destruct (deduplicate_lowest prices) as (Hnd & Hmin & Hall).
  split; [exact Hnd|]. split; [exact Hmin|]. split; [exact Hall|].
  split; [|repeat split; try (vm_compute; reflexivity);
           eexists; split; vm_compute; reflexivity].
  assert (Hk : map pr_price kept <> []).
  { pose proof (deduplicate_not_nil prices Hne) as Hk. fold kept in Hk.
    destruct kept; [contradiction | discriminate]. }
  destruct (int_median_returns _ Hk) as (median & Hmed).
  destruct (for_alerts_spec today table threshold name kept (r_alerts report))
    as (added & Hal & _).
  exists median, (r_alerts report ++ added)%list.
  split; [exact Hmed|]. split.
  - intro Hb. apply int_median_is_median; [|exact Hmed].
    intros v Hv. apply in_map_iff in Hv as (q & <- & Hq). apply Hb, Hq.
  - unfold report_product. fold name. fold prices.
    destruct prices as [|p0 rest] eqn:Ep; [contradiction|].
    fold kept. rewrite Hmed. cbn [bind]. rewrite Hal. reflexivity.
Qed.

(** C4 at the store with three sources: the median has the middle rank
    among the kept prices 16500, 17000 and 18000. *)
Lemma report_keeps_lowest_per_source_witness :
  get_today_prices 100 Scenario.three_source_table (Some "Tomate Lisa") <> [] /\
  NoDup (map pr_supermarket
           (deduplicate
              (get_today_prices 100 Scenario.three_source_table (Some "Tomate Lisa")))) /\
  exists median,
    int_median
      (map pr_price
         (deduplicate
            (get_today_prices 100 Scenario.three_source_table (Some "Tomate Lisa")))) =
    Ret median /\
    is_integer_median
      (map pr_price
         (deduplicate
            (get_today_prices 100 Scenario.three_source_table (Some "Tomate Lisa"))))
      median.
Proof.
  assert (H : get_today_prices 100 Scenario.three_source_table
                (Some (get (p_name Scenario.tomate_lisa) "")) <> [])
    by (vm_compute; discriminate).
  split; [exact H|].
  destruct (report_keeps_lowest_per_source 100 Scenario.three_source_table 15
              Scenario.tomate_lisa (mkReport [] [] []) H)
    as (_ & _ & Hnd & Hmin & _ & (median & alerts & Hmed & Hrank & _) & _).
  split; [exact Hnd|].
  exists median. split; [exact Hmed|]. apply Hrank.
  intros q Hq. destruct (Hmin q Hq) as [Hin _].
  apply (get_today_prices_In 100 Scenario.three_source_table "Tomate Lisa" q) in Hin;
    [|discriminate].
  destruct Hin as (r & Hr & _ & _ & ->).
  destruct Hr as [<-|[<-|[<-|[<-|[]]]]]; cbn; lia.
Defined.

(** C4 (as stated) fails for a product configured without a name: its
    facts are stored under the empty name, and the builder then reads
    today's facts of every product. The only fact of the nameless
    product at "Biggie" is priced 20000, yet the price kept for "Biggie"
    is the 16500 of "Tomate Lisa". *)
Lemma nameless_product_reads_every_product :
  get (p_name Scenario.nameless) "" = "" /\
  map to_price
    (filter (fun r => String.eqb (PriceDatabase.product r) "") Scenario.nameless_table) =
  [ mkPrice "Biggie" "" 20000 (Some "Locote rojo") "kg" ] /\
  exists report,
    _generate_report_data 100 Scenario.nameless_table 15 [Scenario.nameless] = Ret report /\
    r_products report =
    [ mkReportProduct "" 16500
        [ mkPrice "Biggie" "Tomate Lisa" 16500 (Some "Tomate Lisa") "kg" ] ].
Proof.
  split; [reflexivity|]. split; [reflexivity|].
  eexists. split; vm_compute; reflexivity.
Qed.

(** C5 (amended). For each deduplicated price the builder looks up the
    most recent stored price of the (source, product) pair before
    today; an alert is emitted exactly when that price exists, is not
    zero, and the absolute percentage change from it, computed in
    floats, reaches the threshold. The alert carries the change as
    computed, not rounded: from 20250 to 16500 it is
    -18.518518518518519..., which rounds to -18.5 at one decimal; the
    alert is emitted with threshold 15 and not with threshold 20. *)
Theorem alerts_reach_threshold (today : Z) (table : Table) (threshold : Q)
  (name : string) (prices : list Price) (alerts : list Alert) :
  (exists added,
     for_alerts today table threshold name prices alerts = Ret (alerts ++ added)%list /\
     forall a, In a added <->
       exists price previous change,
         In price prices /\
         get_previous_price today table (pr_supermarket price) name = Some previous /\
         previous <> 0 /\
         alert_change (pr_price price) previous = Ret change /\
         (threshold <= Qabs change)%Q /\
         a = mkAlert name (pr_supermarket price) change previous (pr_price price)) /\
  (forall sm previous,
     get_previous_price today table sm name = Some previous ->
     exists row, In row table /\ supermarket row = sm /\ PriceDatabase.product row = name /\
                 date row < today /\ price_guaranies row = previous /\
                 forall r, In r table -> supermarket r = sm ->
                           PriceDatabase.product r = name ->
                           date r < today -> date r <= date row) /\
  (forall sm,
     get_previous_price today table sm name = None <->
     forall r, In r table ->
               ~ (supermarket r = sm /\ PriceDatabase.product r = name /\ date r < today)) /\
  (exists change,
     alert_change 16500 20250 = Ret change /\
     change = (-1303124892178963 # 70368744177664)%Q /\
     round1 change = (-37 # 2)%Q /\
     Qle_bool 15 (Qabs change) = true /\
     Qle_bool 20 (Qabs change) = false) /\
  (exists report,
     _generate_report_data 100 Scenario.alert_table 15 [Scenario.tomate_lisa] = Ret report /\
     r_alerts report =
     [ mkAlert "Tomate Lisa" "Biggie" (-1303124892178963 # 70368744177664) 20250 16500 ]) /\
  (exists report,
     _generate_report_data 100 Scenario.alert_table 20 [Scenario.tomate_lisa] = Ret report /\
     r_alerts report = []).
Proof.
  split; [apply for_alerts_spec|].
  split; [intros sm previous; apply get_previous_price_Some|].
  split; [intro sm; apply get_previous_price_None|].
  split; [eexists; repeat split; vm_compute; reflexivity|].
  split; eexists; split; vm_compute; reflexivity.
Qed.

(** C5 (as stated) fails on the emitted value: for previous price 20250
    and current price 16500 the alert carries the change
    -1303124892178963 / 2^46, which is not -18.5. *)
Lemma alert_change_percent_unrounded :
  exists report,
    _generate_report_data 100 Scenario.alert_table 15 [Scenario.tomate_lisa] = Ret report /\
    map al_change_percent (r_alerts report) = [ (-1303124892178963 # 70368744177664)%Q ] /\
    Qeq_bool (-1303124892178963 # 70368744177664) (-37 # 2) = false.
Proof.
  eexists. split; [vm_compute; reflexivity|]. split; reflexivity.
Qed.

End BuilderFacts.

(** ** The general statements at concrete inputs *)

Section Instances.
Import Py PyFloat BaseScraper PriceDatabase PriceMonitor.
Local Open Scope string_scope.
Local Open Scope Z_scope.

(** C7 at a source whose requests time out: the search returns the
    empty list. *)
Lemma search_never_raises_witness :
  exists listings net',
    search Datatypes.unit Scenario.quiet_format Scenario.failing_get (fun _ => Ret [])
      Scenario.biggie "tomate" (mkNet tt []) = (Ret listings, net') /\
    listings = [].
Proof.
  destruct (search_never_raises Datatypes.unit Scenario.quiet_format Scenario.failing_get
              (fun _ => Ret []) Scenario.biggie "tomate" (mkNet tt []))
    as (listings & net' & Hs & _ & _ & Hurl).
  exists listings, net'. split; [exact Hs|].
  destruct (Hurl eq_refl _ eq_refl) as (_ & Hfail & _).
  exact (Hfail RequestException eq_refl).
Defined.

(** C10 at the product "Tomate Lisa" without a [search_terms] entry: one
    request, for "tomate lisa". *)
Lemma no_search_terms_never_recorded_witness :
  requests
    (snd (snd (scrape_product Datatypes.unit Scenario.quiet_format Scenario.quiet_get
                 "Biggie" Scenario.biggie (fun _ => Ret [])
                 (mkProduct (Some "Tomate Lisa") None None) ([], mkNet tt []))))
  = [ "https://biggie.example/search?q=tomate lisa" ].
Proof.
  destruct (no_search_terms_never_recorded Datatypes.unit Scenario.quiet_format Scenario.quiet_get)
    as (_ & _ & H & _).
  exact (proj2 (H "Biggie" Scenario.biggie (fun _ => Ret [])
                  (mkProduct (Some "Tomate Lisa") None None) ([], mkNet tt []) eq_refl)
               _ eq_refl eq_refl).
Defined.

(** C2 at "Gs 1.234,56": points removed, the comma read as the decimal
    point, the fraction dropped. *)
Lemma extract_price_separator_rules_witness :
  price_run "Gs 1.234,56" = Some "1.234,56" /\
  _extract_price "Gs 1.234,56" = Ret (Some 1234).
Proof.
  split; [reflexivity|].
  destruct extract_price_separator_rules as (_ & _ & _ & _ & H & _).
  destruct (H "Gs 1.234,56" "1.234,56" eq_refl eq_refl) as (Hboth & _).
  destruct (Hboth eq_refl eq_refl) as (_ & _ & Hone).
  refine (Hone "1234" "56" eq_refl eq_refl eq_refl _).
  cbn. split; repeat constructor.
Defined.


(** C5 at the price 16500 of "Biggie" against the stored 20250, with
    threshold 15: the alert is among those added. *)
Lemma alerts_reach_threshold_witness :
  exists added,
    for_alerts 100 Scenario.alert_table 15 "Tomate Lisa"
      [ mkPrice "Biggie" "Tomate Lisa" 16500 (Some "Tomate Lisa") "kg" ] [] = Ret added /\
    In (mkAlert "Tomate Lisa" "Biggie" (-1303124892178963 # 70368744177664) 20250 16500)
       added.
Proof.
  destruct (alerts_reach_threshold 100 Scenario.alert_table 15 "Tomate Lisa"
              [ mkPrice "Biggie" "Tomate Lisa" 16500 (Some "Tomate Lisa") "kg" ] [])
    as ((added & Hr & Hin) & _).
  exists added. split; [exact Hr|].
  apply Hin.
  exists (mkPrice "Biggie" "Tomate Lisa" 16500 (Some "Tomate Lisa") "kg"), 20250,
         (-1303124892178963 # 70368744177664)%Q.
  split; [left; reflexivity|]. split; [reflexivity|]. split; [discriminate|].
  split; [reflexivity|]. split; [|reflexivity].
  apply Qle_bool_iff. reflexivity.
Defined.

End Instances.

(** ** The store: saving *)

Section StoreInvariants.
Import Py PriceDatabase PriceMonitor.
Local Open Scope string_scope.
Local Open Scope Z_scope.

Lemma same_non_null_sym (a b : option string) : same_non_null a b = same_non_null b a.
Proof.
  destruct a as [x|], b as [y|]; cbn; try reflexivity. apply String.eqb_sym.
Qed.

Lemma unique_conflict_sym (a b : Row) : unique_conflict a b = unique_conflict b a.
Proof.
  unfold unique_conflict.
  rewrite (Z.eqb_sym (date b)), (String.eqb_sym (supermarket b)),
    (String.eqb_sym (product b)), (same_non_null_sym (product_name_raw b)).
  reflexivity.
Qed.

Lemma keys_unique_filter (f : Row -> bool) (table : Table) :
  keys_unique table -> keys_unique (filter f table).
Proof.
  induction table as [|r rest IH]; intro H; [exact I|].
  destruct H as [Hr Hrest]. cbn [filter]. destruct (f r).
  - split; [|apply IH, Hrest]. intros r' Hin. apply Hr.
    apply filter_In in Hin. tauto.
  - apply IH, Hrest.
Qed.

Lemma keys_unique_snoc (table : Table) (new : Row) :
  keys_unique table -> (forall r, In r table -> unique_conflict r new = false) ->
  keys_unique (table ++ [new])%list.
Proof.
  induction table as [|r rest IH]; intros H Hnew.
  - cbn. split; [intros r' [] | exact I].
  - destruct H as [Hr Hrest]. cbn [app keys_unique]. split.
    + intros r' Hin. apply in_app_or in Hin as [Hin|[<-|[]]];
        [apply Hr, Hin | apply Hnew; left; reflexivity].
    + apply IH; [exact Hrest|]. intros r' Hin. apply Hnew. right. exact Hin.
Qed.

Lemma insert_or_replace_keys_unique (new : Row) (table : Table) :
  keys_unique table -> keys_unique (insert_or_replace new table).
Proof.
  intro H. unfold insert_or_replace. apply keys_unique_snoc.
  - apply keys_unique_filter, H.
  - intros r Hin. apply filter_In in Hin as [_ Hc].
    rewrite unique_conflict_sym. apply negb_true_iff, Hc.
Qed.

Lemma save_price_row (today : Z) (table t' : Table) (sm p : string) (price : Z)
  (raw : option string) (u : string) (d : option Z) :
  save_price today table sm p price raw u d = Ret t' ->
  t' = insert_or_replace
         (mkRow (match d with None => today | Some d => d end) sm p raw price u) table.
Proof.
  unfold save_price. destruct (in_int64 price); [|discriminate].
  intro H. injection H as <-. reflexivity.
Qed.

(** X1. Saving a fact twice is saving it once: when [save_price] with
    a raw name has returned, the same call on the resulting table
    returns and leaves that table as it is. *)
Theorem save_price_idempotent (today : Z) (table t1 : Table) (sm p raw : string)
  (price : Z) (u : string) (d : option Z) :
  save_price today table sm p price (Some raw) u d = Ret t1 ->
  save_price today t1 sm p price (Some raw) u d = Ret t1.
Proof.
  intro H. pose proof (save_price_row _ _ _ _ _ _ _ _ _ H) as E.
  unfold save_price in *. destruct (in_int64 price); [|discriminate].
  f_equal. rewrite E. apply insert_or_replace_idempotent. discriminate.
Qed.

(** X2. [save_price] preserves the UNIQUE constraint of the table: if
    no two rows collide on (date, supermarket, product, raw name) before
    the save, none do after it. *)
Theorem save_price_keeps_keys_unique (today : Z) (table t' : Table) (sm p : string)
  (price : Z) (raw : option string) (u : string) (d : option Z) :
  keys_unique table ->
  save_price today table sm p price raw u d = Ret t' ->
  keys_unique t'.
Proof.
  intros Hu H. rewrite (save_price_row _ _ _ _ _ _ _ _ _ H).
  apply insert_or_replace_keys_unique, Hu.
Qed.

(** All rows of a batch saved one after the other. *)
Lemma insert_or_replace_app (new : Row) (a b : Table) :
  insert_or_replace new (a ++ b)%list =
  (filter (fun old => negb (unique_conflict new old)) a ++ insert_or_replace new b)%list.
Proof.
  unfold insert_or_replace. rewrite filter_app, app_assoc. reflexivity.
Qed.

Lemma fold_insert_app (rows : list Row) (a b : Table) :
  fold_left (fun t r => insert_or_replace r t) rows (a ++ b)%list =
  (filter (fun old => forallb (fun r => negb (unique_conflict r old)) rows) a ++
   fold_left (fun t r => insert_or_replace r t) rows b)%list.
Proof.
  revert a b. induction rows as [|r rows IH]; intros a b; cbn [fold_left forallb].
  - f_equal. induction a as [|x a IHa]; [reflexivity|]. cbn. f_equal. exact IHa.
  - rewrite insert_or_replace_app, IH. f_equal.
    clear. induction a as [|x a IHa]; [reflexivity|]. cbn [filter].
    destruct (negb (unique_conflict r x)); cbn [andb filter].
    + destruct (forallb _ rows); [f_equal|]; exact IHa.
    + exact IHa.
Qed.

Lemma fold_insert_members (rows : list Row) (t : Table) (x : Row) :
  In x (fold_left (fun t r => insert_or_replace r t) rows t) -> In x t \/ In x rows.
Proof.
  revert t. induction rows as [|r rows IH]; intros t H; cbn [fold_left] in H; [left; exact H|].
  apply IH in H as [H|H]; [|right; right; exact H].
  unfold insert_or_replace in H. apply in_app_or in H as [H|[<-|[]]].
  - left. apply filter_In in H. tauto.
  - right. left. reflexivity.
Qed.

Lemma filter_none {A : Type} (f : A -> bool) (l : list A) :
  (forall x, In x l -> f x = false) -> filter f l = [].
Proof.
  induction l as [|x l IH]; intro H; [reflexivity|].
  cbn [filter]. rewrite (H x (or_introl eq_refl)). apply IH.
  intros y Hy. apply H. right. exact Hy.
Qed.

Lemma fold_insert_idempotent (rows : list Row) (t : Table) :
  (forall r, In r rows -> product_name_raw r <> None) ->
  fold_left (fun t r => insert_or_replace r t) rows
    (fold_left (fun t r => insert_or_replace r t) rows t) =
  fold_left (fun t r => insert_or_replace r t) rows t.
Proof.
  intro Hraw.
  set (F := fun old : Row => forallb (fun r => negb (unique_conflict r old)) rows).
  set (S := fold_left (fun t r => insert_or_replace r t) rows []).
  assert (Hsplit : forall a, fold_left (fun t r => insert_or_replace r t) rows a =
                             (filter F a ++ S)%list).
  { intro a. rewrite <- (app_nil_r a) at 1. apply fold_insert_app. }
  assert (HS : filter F S = []).
  { assert (Hall : forall x, In x S -> F x = false).
    { intros x Hx. apply fold_insert_members in Hx as [[]|Hx].
      unfold F. apply not_true_is_false. intro Hf.
      rewrite forallb_forall in Hf. specialize (Hf x Hx).
      rewrite (unique_conflict_refl x (Hraw x Hx)) in Hf. discriminate. }
    apply filter_none, Hall. }
  rewrite (Hsplit t), Hsplit, filter_app, HS, app_nil_r, filter_idem. reflexivity.
Qed.

Lemma save_prices_fold (today : Z) (prices : list PriceData) (table t1 : Table) :
  _save_prices today prices table = (Ret tt, t1) ->
  t1 = fold_left (fun t r => insert_or_replace r t) (map (row_of today) prices) table /\
  forall pd, In pd prices -> in_int64 (pd_price pd) = true.
Proof.
  revert table. induction prices as [|pd rest IH]; intros table H; cbn [_save_prices] in H.
  - injection H as <-. split; [reflexivity | intros pd []].
  - unfold save_price in H. destruct (in_int64 (pd_price pd)) eqn:E; [|discriminate].
    apply IH in H as [Ht Hr]. split; [exact Ht|].
    intros pd' [<-|Hin]; [exact E | apply Hr, Hin].
Qed.

Lemma save_prices_returns (today : Z) (prices : list PriceData) (table : Table) :
  (forall pd, In pd prices -> in_int64 (pd_price pd) = true) ->
  _save_prices today prices table =
  (Ret tt, fold_left (fun t r => insert_or_replace r t) (map (row_of today) prices) table).
Proof.
  revert table. induction prices as [|pd rest IH]; intros table H; cbn [_save_prices].
  - reflexivity.
  - unfold save_price. rewrite (H pd (or_introl eq_refl)).
    rewrite IH by (intros pd' Hin; apply H; right; exact Hin). reflexivity.
Qed.

(** X3. Running [_save_prices] again with the batch it has just saved
    changes nothing: the second run returns and the table is the one the
    first run left. *)
Theorem save_prices_rerun_idempotent (today : Z) (prices : list PriceData)
  (table t1 : Table) :
  _save_prices today prices table = (Ret tt, t1) ->
  _save_prices today prices t1 = (Ret tt, t1).
Proof.
  intro H. apply save_prices_fold in H as [Ht Hr].
  rewrite (save_prices_returns today prices t1 Hr). f_equal.
  rewrite Ht. apply fold_insert_idempotent.
  intros r Hin. apply in_map_iff in Hin as (pd & <- & _). discriminate.
Qed.


(** X4. A price outside 64 bits stops the batch: [_save_prices] raises
    [OverflowError] at the first such price; the prices before it are in
    the table, as if only they had been saved, and the prices after it
    are not saved. *)
Theorem save_prices_stops_at_overflow (today : Z) (saved rest : list PriceData)
  (price_data : PriceData) (table : Table) :
  (forall pd, In pd saved -> in_int64 (pd_price pd) = true) ->
  in_int64 (pd_price price_data) = false ->
  exists t1,
    _save_prices today saved table = (Ret tt, t1) /\
    _save_prices today (saved ++ price_data :: rest)%list table = (Raise OverflowError, t1).
Proof.
  revert table. induction saved as [|pd saved IH]; intros table Hs Hbad.
  - exists table. split; [reflexivity|].
    cbn [app _save_prices]. unfold save_price. rewrite Hbad. reflexivity.
  - cbn [app _save_prices]. unfold save_price.
    rewrite (Hs pd (or_introl eq_refl)).
    apply IH; [|exact Hbad]. intros pd' Hin. apply Hs. right. exact Hin.
Qed.

Lemma filter_ext_In' {A : Type} (f g : A -> bool) (l : list A) :
  (forall x, In x l -> f x = g x) -> filter f l = filter g l.
Proof.
  induction l as [|x l IH]; intro H; [reflexivity|].
  cbn [filter]. rewrite (H x (or_introl eq_refl)), IH; [reflexivity|].
  intros y Hy. apply H. right. exact Hy.
Qed.

Lemma filter_comm' {A : Type} (f g : A -> bool) (l : list A) :
  filter f (filter g l) = filter g (filter f l).
Proof.
  induction l as [|x l IH]; [reflexivity|].
  cbn [filter]. destruct (g x) eqn:Eg, (f x) eqn:Ef; cbn [filter];
    rewrite ?Eg, ?Ef, IH; reflexivity.
Qed.

(** X5. A save dated today or later never changes the answer of
    [get_previous_price], for any source and product: the baseline of
    the alerts is not touched by today's collection. *)
Theorem save_price_keeps_previous_price (today : Z) (table t' : Table) (sm p : string)
  (price : Z) (raw : option string) (u : string) (d : option Z) :
  today <= match d with None => today | Some d => d end ->
  save_price today table sm p price raw u d = Ret t' ->
  forall sm' p', get_previous_price today t' sm' p' = get_previous_price today table sm' p'.
Proof.
  intros Hd H sm' p'. rewrite (save_price_row _ _ _ _ _ _ _ _ _ H).
  unfold get_previous_price, insert_or_replace.
  set (new := mkRow _ sm p raw price u).
  rewrite filter_app. cbn [filter date supermarket product new].
  replace (_ <? today) with false by (symmetry; apply Z.ltb_ge; exact Hd).
  rewrite andb_false_r, app_nil_r, filter_comm'.
  rewrite (filter_ext_In' (fun old => negb (unique_conflict new old)) (fun _ => true)).
  - rewrite forallb_filter_id; [reflexivity|]. apply forallb_forall. reflexivity.
  - intros x Hx. apply filter_In in Hx as [_ Hx].
    apply andb_prop in Hx as [_ Hlt]. apply Z.ltb_lt in Hlt.
    unfold unique_conflict. cbn [date new].
    replace (date x =? _) with false by (symmetry; apply Z.eqb_neq; lia).
    reflexivity.
Qed.

End StoreInvariants.

(** ** The store: queries *)

Section QueryFacts.
Import Py PyFloat PriceDatabase PriceMonitor PriceStatistics.
Local Open Scope string_scope.
Local Open Scope Z_scope.

Lemma truthy_nonempty (p : string) : p <> "" -> truthy (Some p) = true.
Proof. destruct p; [congruence | reflexivity]. Qed.

Lemma sorted_map {A B : Type} (f : A -> B) (R : B -> B -> Prop) (l : list A) :
  StronglySorted (fun a b => R (f a) (f b)) l -> StronglySorted R (map f l).
Proof.
  induction 1 as [|x l Hs IH Hall]; cbn [map]; constructor; [exact IH|].
  apply Forall_map. exact Hall.
Qed.

Lemma price_asc_total (a b : Row) : price_asc a b = false -> price_asc b a = true.
Proof. unfold price_asc. rewrite Z.leb_gt, Z.leb_le. lia. Qed.

Lemma price_asc_trans (a b c : Row) :
  price_asc a b = true -> price_asc b c = true -> price_asc a c = true.
Proof. unfold price_asc. rewrite !Z.leb_le. lia. Qed.

(** X7. For a product, [get_prices_for_date] returns the prices in
    ascending order, one per row of that date and product. *)
Theorem get_prices_for_date_ascending (table : Table) (d : Z) (p : string) :
  p <> "" ->
  let prices := get_prices_for_date table d (Some p) in
  StronglySorted (fun a b => pr_price a <= pr_price b) prices /\
  List.length prices =
  List.length (filter (fun r => (date r =? d) && String.eqb (product r) p) table).
Proof.
  intros Hp prices. unfold prices, get_prices_for_date.
  rewrite (truthy_nonempty p Hp). split.
  - apply sorted_map.
    pose proof (order_by_sorted price_asc price_asc_total price_asc_trans
                  (filter (fun r => (date r =? d) && String.eqb (product r) p) table)) as Hs.
    induction Hs as [|x l Hs IH Hall]; constructor; [exact IH|].
    eapply Forall_impl; [|exact Hall]. cbn. intros y Hy.
    unfold price_asc in Hy. apply Z.leb_le in Hy. exact Hy.
  - rewrite length_map, order_by_length. reflexivity.
Qed.


Lemma integer_median_between (values : list Z) :
  values <> [] -> (forall v, In v values -> 0 <= v) ->
  exists lo hi, In lo values /\ In hi values /\ lo <= integer_median values <= hi.
Proof.
  intros Hne Hb. unfold integer_median.
  pose proof (order_by_length Z.leb values) as Hl. fold (sorted values) in Hl.
  assert (Hn : (0 < List.length (sorted values))%nat).
  { rewrite Hl. destruct values; [contradiction | cbn; lia]. }
  assert (Hnth : forall i, (i < List.length (sorted values))%nat ->
                           In (nth i (sorted values) 0) values).
  { intros i Hi. apply (order_by_In Z.leb). apply nth_In. exact Hi. }
  set (n := List.length (sorted values)) in *.
  assert (Hdiv : (n / 2 < n)%nat) by (apply Nat.div_lt; lia).
  destruct (Nat.odd n).
  - exists (nth (n / 2) (sorted values) 0), (nth (n / 2) (sorted values) 0).
    split; [|split]; [apply Hnth, Hdiv | apply Hnth, Hdiv | lia].
  - pose proof (Hnth (n / 2)%nat Hdiv) as H1.
    pose proof (Hnth (n / 2 - 1)%nat ltac:(lia)) as H2.
    set (a := nth (n / 2 - 1) (sorted values) 0) in *.
    set (b := nth (n / 2) (sorted values) 0) in *.
    pose proof (Hb a H2) as Ha. pose proof (Hb b H1) as Hb'.
    rewrite Z.quot_div_nonneg by lia.
    destruct (Z.le_ge_cases a b) as [Hab|Hab].
    + exists a, b. split; [exact H2|]. split; [exact H1|].
      split; [apply Z.div_le_lower_bound | apply Z.div_le_upper_bound]; lia.
    + exists b, a. split; [exact H1|]. split; [exact H2|].
      split; [apply Z.div_le_lower_bound | apply Z.div_le_upper_bound]; lia.
Qed.

Lemma count_Permutation (f : Z -> bool) (l l' : list Z) :
  Permutation l l' -> List.length (filter f l) = List.length (filter f l').
Proof. intro H. apply Permutation_length, filter_Permutation, H. Qed.

Lemma is_integer_median_Permutation (l l' : list Z) (median : Z) :
  Permutation l l' -> is_integer_median l median -> is_integer_median l' median.
Proof.
  intros H (a & b & (Ha & Hra) & (Hb & Hrb) & E). exists a, b.
  unfold has_rank, count_below, count_upto in *.
  rewrite <- (Permutation_length H).
  rewrite <- !(count_Permutation _ l l' H).
  repeat split; try lia; try assumption; eapply Permutation_in; eassumption.
Qed.

(** The prices [get_median_price] reads are those of the rows of the
    product on the day, in some order. *)
Lemma get_prices_for_date_prices (table : Table) (d : Z) (p : string) :
  p <> "" ->
  Permutation (map pr_price (get_prices_for_date table d (Some p)))
    (map price_guaranies
       (filter (fun r => (date r =? d) && String.eqb (product r) p) table)).
Proof.
  intro Hp. unfold get_prices_for_date. rewrite (truthy_nonempty p Hp).
  rewrite map_map. cbn [to_price pr_price].
  change (fun x : Row => price_guaranies x) with price_guaranies.
  apply Permutation_map, order_by_Permutation.
Qed.

Lemma get_median_price_None (today : Z) (table : Table) (p : string) (d : option Z) :
  p <> "" ->
  let day := match d with None => today | Some d => d end in
  filter (fun r => (date r =? day) && String.eqb (product r) p) table = [] ->
  get_median_price today table p d = Ret None.
Proof.
  intros Hp day E. unfold get_median_price. fold day.
  pose proof (get_prices_for_date_prices table day p Hp) as Hperm.
  rewrite E in Hperm. cbn [map] in Hperm.
  apply Permutation_sym, Permutation_nil, map_eq_nil in Hperm. rewrite Hperm. reflexivity.
Qed.

Lemma get_median_price_Some (today : Z) (table : Table) (p : string) (d : option Z) :
  p <> "" ->
  let day := match d with None => today | Some d => d end in
  let rows := filter (fun r => (date r =? day) && String.eqb (product r) p) table in
  rows <> [] ->
  (forall r, In r rows -> 0 <= price_guaranies r < 2 ^ 52) ->
  let values := map pr_price (get_prices_for_date table day (Some p)) in
  Permutation values (map price_guaranies rows) /\
  values <> [] /\
  get_median_price today table p d = Ret (Some (integer_median values)) /\
  is_integer_median (map price_guaranies rows) (integer_median values).
Proof.
  intros Hp day rows Hrows Hb values. unfold get_median_price. fold day.
  pose proof (get_prices_for_date_prices table day p Hp) as Hperm.
  fold rows values in Hperm.
  assert (Hne : values <> []).
  { intro E. rewrite E in Hperm. apply Permutation_nil, map_eq_nil in Hperm.
    exact (Hrows Hperm). }
  assert (Hbv : forall v, In v values -> 0 <= v < 2 ^ 52).
  { intros v Hv. apply (Permutation_in _ Hperm) in Hv.
    apply in_map_iff in Hv as (r & <- & Hr). apply Hb, Hr. }
  pose proof (int_median_exact _ Hne Hbv) as Hex.
  split; [exact Hperm|]. split; [exact Hne|]. split.
  - clear Hperm Hbv. unfold values in *.
    destruct (get_prices_for_date table day (Some p)) as [|q qs];
      [exfalso; apply Hne; reflexivity|].
    rewrite Hex. reflexivity.
  - apply (is_integer_median_Permutation _ _ _ Hperm).
    apply int_median_is_median; assumption.
Qed.

(** X8. For a product with a name, [get_median_price] returns [None]
    when the table has no row of the product on the date; otherwise, for
    prices from 0 to below 2^52, it returns the integer median of the
    prices of those rows (the value of middle rank, or the mean of the
    two values of middle rank without its fraction), which lies between
    the prices of two of the rows. The date defaults to today. *)
Theorem get_median_price_between (today : Z) (table : Table) (p : string) (d : option Z) :
  p <> "" ->
  let day := match d with None => today | Some d => d end in
  let rows := filter (fun r => (date r =? day) && String.eqb (product r) p) table in
  (rows = [] -> get_median_price today table p d = Ret None) /\
  (rows <> [] ->
   (forall r, In r rows -> 0 <= price_guaranies r < 2 ^ 52) ->
   exists median lo hi,
     get_median_price today table p d = Ret (Some median) /\
     is_integer_median (map price_guaranies rows) median /\
     In lo rows /\ In hi rows /\
     price_guaranies lo <= median <= price_guaranies hi).
Proof.
  intros Hp day rows. split; [apply (get_median_price_None today table p d Hp)|].
  intros Hrows Hb.
  destruct (get_median_price_Some today table p d Hp Hrows Hb) as (Hperm & Hne & Hm & His).
  set (values := map pr_price (get_prices_for_date table day (Some p))) in *.
  assert (Hof : forall v, In v values -> exists r, In r rows /\ price_guaranies r = v).
  { intros v Hv. apply (Permutation_in _ Hperm) in Hv.
    apply in_map_iff in Hv as (r & E & Hr). exists r. auto. }
  destruct (integer_median_between values Hne) as (lo & hi & Hlo & Hhi & Hbetween).
  { intros v Hv. destruct (Hof v Hv) as (r & Hr & <-). apply Hb, Hr. }
  destruct (Hof lo Hlo) as (rl & Hl1 & Hl2).
  destruct (Hof hi Hhi) as (rh & Hh1 & Hh2).
  exists (integer_median values), rl, rh.
  rewrite Hl2, Hh2. auto.
Qed.

(** X9. [get_week_ago_median] reads the rows dated exactly seven days
    before today: it returns [None] when the product has none, and
    otherwise, for prices from 0 to below 2^52, the integer median of
    their prices. In the first seven days of year 1 the date
    subtraction raises [OverflowError]. *)
Theorem get_week_ago_median_seven_days_back (today : Z) (table : Table) (p : string) :
  p <> "" ->
  (today < 8 -> get_week_ago_median today table p = Raise OverflowError) /\
  (8 <= today <= 3652059 ->
   let rows := filter (fun r => (date r =? today - 7) && String.eqb (product r) p) table in
   (rows = [] -> get_week_ago_median today table p = Ret None) /\
   (rows <> [] ->
    (forall r, In r rows -> 0 <= price_guaranies r < 2 ^ 52) ->
    exists median,
      get_week_ago_median today table p = Ret (Some median) /\
      is_integer_median (map price_guaranies rows) median)).
Proof.
  intro Hp.
  assert (Hweek : 8 <= today <= 3652059 ->
            get_week_ago_median today table p =
            get_median_price today table p (Some (today - 7))).
  { intro Hday. unfold get_week_ago_median, timedelta, date_sub.
    change (Z.abs 7 <=? 999999999) with true. cbn [bind].
    replace ((1 <=? today - 7) && (today - 7 <=? 3652059)) with true
      by (symmetry; apply andb_true_iff; split; apply Z.leb_le; lia).
    reflexivity. }
  split.
  - intro Hlt. unfold get_week_ago_median, timedelta, date_sub.
    change (Z.abs 7 <=? 999999999) with true. cbn [bind].
    replace (1 <=? today - 7) with false by (symmetry; apply Z.leb_gt; lia).
    reflexivity.
  - intros Hday rows. rewrite (Hweek Hday).
    split; [apply (get_median_price_None today table p (Some (today - 7)) Hp)|].
    intros Hrows Hb.
    destruct (get_median_price_Some today table p (Some (today - 7)) Hp Hrows Hb)
      as (_ & _ & Hm & His).
    eexists. split; [exact Hm | exact His].
Qed.

(** X10. With a window of zero or fewer days (whose start is still a
    date) [get_price_trend] always answers [insufficient_data]. *)
Theorem get_price_trend_needs_positive_days (today : Z) (table : Table) (p : string)
  (days : Z) :
  days <= 0 -> Z.abs days <= 999999999 -> 1 <= today - days <= 3652059 ->
  get_price_trend today table p days = Ret insufficient_data.
Proof.
  intros Hd Habs Hw. rewrite (get_price_trend_window today table p days Habs Hw).
  cbv zeta. unfold daily_averages. rewrite length_map.
  replace (_ <? 2)%nat with true; [reflexivity|].
  symmetry. apply Nat.ltb_lt. apply distinct_dates_single.
  intros r1 r2 H1 H2. apply window_rows_In in H1, H2. lia.
Qed.

(** X6. A saved price is the previous price of later days: when every
    other row of the source and product is older than the saved one,
    [get_previous_price] on a later day returns the saved price. *)
Theorem saved_price_is_next_previous (today later : Z) (table t' : Table) (sm p : string)
  (price : Z) (raw : option string) (u : string) (d : option Z) :
  let day := match d with None => today | Some d => d end in
  save_price today table sm p price raw u d = Ret t' ->
  day < later ->
  (forall r, In r table -> supermarket r = sm -> product r = p -> date r < day) ->
  get_previous_price later t' sm p = Some price.
Proof.
  intros day H Hlater Hold.
  pose proof (save_price_row _ _ _ _ _ _ _ _ _ H) as E. fold day in E.
  assert (Hnew : In (mkRow day sm p raw price u) t').
  { rewrite E. unfold insert_or_replace. apply in_or_app. right. left. reflexivity. }
  destruct (get_previous_price later t' sm p) as [previous|] eqn:Eprev.
  - apply get_previous_price_Some in Eprev
      as (row & Hin & Hsm & Hp & Hlt & Hprice & Hmax).
    rewrite E in Hin. unfold insert_or_replace in Hin.
    apply in_app_or in Hin as [Hin|[<-|[]]].
    + apply filter_In in Hin as [Hin _].
      pose proof (Hold row Hin Hsm Hp) as Hrow.
      pose proof (Hmax _ Hnew eq_refl eq_refl Hlater) as Hle. cbn [date] in Hle. lia.
    + cbn [price_guaranies] in Hprice. rewrite Hprice. reflexivity.
  - exfalso. rewrite get_previous_price_None in Eprev.
    apply (Eprev _ Hnew). cbn. auto.
Qed.

End QueryFacts.

(** ** The trend does not depend on the order of the rows *)

Section OrderIndependence.
Import Py PyFloat PriceDatabase.
Local Open Scope string_scope.
Local Open Scope Z_scope.

Lemma sum_Permutation (l l' : list Z) :
  Permutation l l' -> fold_right Z.add 0 l = fold_right Z.add 0 l'.
Proof.
  induction 1 as [|x l l' _ IH|x y l|l l' l'' _ IH1 _ IH2]; cbn [fold_right]; lia.
Qed.

(** While the sum stays below 2^53 no addition rounds, and the average
    does not depend on the order of the rows. *)
Lemma AVG_Permutation (l l' : list Z) :
  (forall v, In v l -> 0 <= v) -> fold_right Z.add 0 l < 2 ^ 53 ->
  Permutation l l' -> AVG l = AVG l'.
Proof.
  intros Hpos Hsum H. unfold AVG. change 0%Q with (Qmake 0 1).
  rewrite (running_sum_exact l 0 Hpos (Z.le_refl 0)) by lia.
  rewrite (running_sum_exact l' 0); [| | lia |].
  - rewrite (sum_Permutation _ _ H), (Permutation_length H). reflexivity.
  - intros v Hv. apply Hpos. eapply Permutation_in; [apply Permutation_sym|]; eassumption.
  - rewrite <- (sum_Permutation _ _ H). lia.
Qed.

Lemma sum_nonneg (l : list Z) :
  (forall v, In v l -> 0 <= v) -> 0 <= fold_right Z.add 0 l.
Proof.
  induction l as [|v l IH]; intro H; cbn [fold_right]; [lia|].
  pose proof (H v (or_introl eq_refl)).
  specialize (IH (fun w Hw => H w (or_intror Hw))). lia.
Qed.

Lemma sum_filter_le (f : Row -> bool) (rows : list Row) :
  (forall r, In r rows -> 0 <= price_guaranies r) ->
  fold_right Z.add 0 (map price_guaranies (filter f rows)) <=
  fold_right Z.add 0 (map price_guaranies rows).
Proof.
  induction rows as [|r rows IH]; intro H; cbn [filter map fold_right]; [lia|].
  pose proof (H r (or_introl eq_refl)).
  specialize (IH (fun w Hw => H w (or_intror Hw))).
  destruct (f r); cbn [map fold_right]; lia.
Qed.

Lemma sorted_same_members (l l' : list Z) :
  StronglySorted Z.lt l -> StronglySorted Z.lt l' ->
  (forall x, In x l <-> In x l') -> l = l'.
Proof.
  intro Hs. revert l'. induction Hs as [|x l Hs IH Hall]; intros l' Hs' Hmem.
  - destruct l' as [|y l']; [reflexivity|]. destruct (proj2 (Hmem y) (or_introl eq_refl)).
  - destruct Hs' as [|y l' Hs' Hall'].
    + destruct (proj1 (Hmem x) (or_introl eq_refl)).
    + rewrite Forall_forall in Hall, Hall'.
      assert (Exy : x = y).
      { destruct (proj1 (Hmem x) (or_introl eq_refl)) as [E|Hx]; [congruence|].
        destruct (proj2 (Hmem y) (or_introl eq_refl)) as [E|Hy]; [congruence|].
        pose proof (Hall _ Hy). pose proof (Hall' _ Hx). lia. }
      subst y. f_equal. apply IH; [exact Hs'|].
      intro z. split; intro Hz.
      * destruct (proj1 (Hmem z) (or_intror Hz)) as [E|Hz']; [|exact Hz'].
        pose proof (Hall _ Hz). lia.
      * destruct (proj2 (Hmem z) (or_intror Hz)) as [E|Hz']; [|exact Hz'].
        pose proof (Hall' _ Hz). lia.
Qed.

Lemma distinct_dates_Permutation (rows rows' : list Row) :
  Permutation rows rows' -> distinct_dates rows = distinct_dates rows'.
Proof.
  intro H. apply sorted_same_members; try apply distinct_dates_sorted.
  intro d. rewrite !distinct_dates_In. split; intros (r & Hr & Hd); exists r; split; try exact Hd.
  - eapply Permutation_in; eassumption.
  - eapply Permutation_in; [apply Permutation_sym|]; eassumption.
Qed.

Lemma daily_averages_Permutation (rows rows' : list Row) :
  (forall r, In r rows -> 0 <= price_guaranies r) ->
  fold_right Z.add 0 (map price_guaranies rows) < 2 ^ 53 ->
  Permutation rows rows' -> daily_averages rows = daily_averages rows'.
Proof.
  intros Hpos Hsum H. unfold daily_averages. rewrite (distinct_dates_Permutation _ _ H).
  apply map_ext. intro d. f_equal. unfold prices_on. apply AVG_Permutation.
  - intros v Hv. apply in_map_iff in Hv as (r & <- & Hr). apply filter_In in Hr as [Hr _].
    apply Hpos, Hr.
  - pose proof (sum_filter_le (fun r => date r =? d) rows Hpos). lia.
  - apply Permutation_map, filter_Permutation, H.
Qed.

(** X11. On a table of non-negative prices whose sum is below 2^53
    (so that no addition of the averages rounds) [get_price_trend] does
    not depend on the order in which the rows were inserted: tables that
    are permutations of one another give the same answer. *)
Theorem get_price_trend_order_independent (today : Z) (table table' : Table) (p : string)
  (days : Z) :
  (forall r, In r table -> 0 <= price_guaranies r) ->
  fold_right Z.add 0 (map price_guaranies table) < 2 ^ 53 ->
  Permutation table table' ->
  get_price_trend today table p days = get_price_trend today table' p days.
Proof.
  intros Hpos Hsum H. unfold get_price_trend.
  destruct (timedelta days) as [delta|e]; [|reflexivity]. cbn [bind].
  destruct (date_sub today delta) as [start_date|e]; [|reflexivity]. cbn [bind].
  rewrite (daily_averages_Permutation (window_rows table p start_date today)
             (window_rows table' p start_date today)); [reflexivity| | |].
  - intros r Hr. apply filter_In in Hr as [Hr _]. apply Hpos, Hr.
  - unfold window_rows.
    pose proof (sum_filter_le (fun r => String.eqb (product r) p &&
                                 (start_date <=? date r) && (date r <=? today)) table Hpos).
    lia.
  - apply filter_Permutation, H.
Qed.

End OrderIndependence.

(** ** A saved batch is listed *)

Section BatchFacts.
Import Py PriceDatabase PriceMonitor.
Local Open Scope string_scope.
Local Open Scope Z_scope.

Lemma unique_conflict_key (a b : Row) :
  unique_conflict a b = true <->
  date b = date a /\ supermarket b = supermarket a /\ product b = product a /\
  exists raw, product_name_raw a = Some raw /\ product_name_raw b = Some raw.
Proof.
  unfold unique_conflict, same_non_null. rewrite !andb_true_iff, Z.eqb_eq, !String.eqb_eq.
  destruct (product_name_raw b) as [y|], (product_name_raw a) as [x|].
  - rewrite String.eqb_eq. split.
    + intros [[[H1 H2] H3] H4]. subst. eauto 10.
    + intros (H1 & H2 & H3 & raw & Ha & Hb). injection Ha as <-. injection Hb as <-. auto.
  - split; [intros [_ H]; discriminate | intros (_ & _ & _ & raw & H & _); discriminate].
  - split; [intros [_ H]; discriminate | intros (_ & _ & _ & raw & _ & H); discriminate].
  - split; [intros [_ H]; discriminate | intros (_ & _ & _ & raw & H & _); discriminate].
Qed.

(** A key stays in the table through later saves, held by the last row
    saved under it. *)
Lemma fold_insert_keeps_key (rows : list Row) (table : Table) (x : Row) :
  In x table ->
  exists x', In x' (fold_left (fun t r => insert_or_replace r t) rows table) /\
             (x' = x \/ (In x' rows /\ unique_conflict x' x = true)).
Proof.
  revert table x. induction rows as [|r rows IH]; intros table x Hx; cbn [fold_left].
  - exists x. auto.
  - destruct (unique_conflict r x) eqn:E.
    + destruct (IH (insert_or_replace r table) r) as (x' & Hin & Hx').
      { unfold insert_or_replace. apply in_or_app. right. left. reflexivity. }
      exists x'. split; [exact Hin|]. right. destruct Hx' as [->|[Hr Hc]].
      * split; [left; reflexivity | exact E].
      * split; [right; exact Hr|].
        apply unique_conflict_key in E, Hc. apply unique_conflict_key.
        destruct E as (E1 & E2 & E3 & raw & E4 & E5).
        destruct Hc as (C1 & C2 & C3 & raw' & C4 & C5).
        rewrite E1, E2, E3, <- C1, <- C2, <- C3. repeat split.
        exists raw'. split; [exact C4|]. rewrite E5. congruence.
    + destruct (IH (insert_or_replace r table) x) as (x' & Hin & Hx').
      { unfold insert_or_replace. apply in_or_app. left. apply filter_In.
        split; [exact Hx | rewrite E; reflexivity]. }
      exists x'. split; [exact Hin|]. destruct Hx' as [->|[Hr Hc]]; [left; reflexivity|].
      right. split; [right; exact Hr | exact Hc].
Qed.

Lemma fold_insert_holds_batch (rows : list Row) (table : Table) (x : Row) :
  In x rows ->
  exists x', In x' (fold_left (fun t r => insert_or_replace r t) rows table) /\
             In x' rows /\ (x' = x \/ unique_conflict x' x = true).
Proof.
  revert table. induction rows as [|r rows IH]; intros table Hx; [destruct Hx|].
  cbn [fold_left]. destruct Hx as [->|Hx].
  - destruct (fold_insert_keeps_key rows (insert_or_replace x table) x) as (x' & Hin & Hx').
    { unfold insert_or_replace. apply in_or_app. right. left. reflexivity. }
    exists x'. split; [exact Hin|]. destruct Hx' as [->|[Hr Hc]].
    + split; [left; reflexivity | left; reflexivity].
    + split; [right; exact Hr | right; exact Hc].
  - destruct (IH (insert_or_replace r table) Hx) as (x' & Hin & Hr & Hx').
    exists x'. split; [exact Hin|]. split; [right; exact Hr | exact Hx'].
Qed.

(** X28. After [_save_prices] has returned, every price of the batch
    with a product name is listed today: [get_today_prices] for its
    product holds an entry with its source, product and raw name, priced
    as a price of the batch saved under that same source, product and
    raw name. *)
Theorem saved_batch_is_listed (today : Z) (prices : list PriceData) (table t' : Table)
  (price_data : PriceData) :
  _save_prices today prices table = (Ret tt, t') ->
  In price_data prices ->
  pd_product price_data <> "" ->
  exists last_saved,
    In last_saved prices /\
    pd_supermarket last_saved = pd_supermarket price_data /\
    pd_product last_saved = pd_product price_data /\
    pd_product_name_raw last_saved = pd_product_name_raw price_data /\
    In (mkPrice (pd_supermarket price_data) (pd_product price_data) (pd_price last_saved)
          (Some (pd_product_name_raw price_data)) (pd_unit last_saved))
       (get_today_prices today t' (Some (pd_product price_data))).
Proof.
  intros H Hin Hp. apply save_prices_fold in H as [-> _].
  destruct (fold_insert_holds_batch (map (row_of today) prices) table (row_of today price_data))
    as (x' & Hx' & Hrow & Hkey).
  { apply in_map, Hin. }
  apply in_map_iff in Hrow as (last_saved & <- & Hlast).
  assert (Hsame : pd_supermarket last_saved = pd_supermarket price_data /\
                  pd_product last_saved = pd_product price_data /\
                  pd_product_name_raw last_saved = pd_product_name_raw price_data).
  { destruct Hkey as [E|E].
    - unfold row_of in E. injection E as E1 E2 E3 E4 E5. auto.
    - apply unique_conflict_key in E as (_ & E2 & E3 & raw & E4 & E5).
      cbn in E2, E3, E4, E5. split; [congruence | split; congruence]. }
  destruct Hsame as (S1 & S2 & S3).
  exists last_saved. repeat (split; [assumption|]).
  apply (get_today_prices_In today _ _ _ Hp).
  exists (row_of today last_saved). split; [exact Hx'|].
  cbn. split; [reflexivity|]. split; [exact S2|].
  unfold to_price. cbn. rewrite S1, S2, S3. reflexivity.
Qed.

End BatchFacts.

(** ** The collection run *)

Section RunFacts.
Import Py BaseScraper PriceMonitor.
Local Open Scope string_scope.

Variable World : Type.
Variable format : string -> string -> res string.
Variable session_get : string -> World -> res string * World.
Variable SCRAPERS : string -> option (string -> res (list Listing)).
Variable GenericScraper_parse : string -> res (list Listing).

Local Abbreviation search := (BaseScraper.search World format session_get).
Local Abbreviation for_terms := (PriceMonitor.for_terms World format session_get).
Local Abbreviation scrape_product := (PriceMonitor.scrape_product World format session_get).
Local Abbreviation for_products := (PriceMonitor.for_products World format session_get).
Local Abbreviation for_supermarkets :=
  (PriceMonitor.for_supermarkets World format session_get SCRAPERS GenericScraper_parse).
Local Abbreviation _scrape_all_prices :=
  (PriceMonitor._scrape_all_prices World format session_get SCRAPERS GenericScraper_parse).

(** X12. When every source is switched off [_scrape_all_prices]
    collects nothing and leaves the network untouched. *)
Theorem scrape_all_disabled (products : list Product)
  (supermarkets : list SupermarketConfig) (net : Net World) :
  (forall c, In c supermarkets -> cfg_enabled c = Some false) ->
  _scrape_all_prices products supermarkets net = ([], net).
Proof.
  unfold PriceMonitor._scrape_all_prices. generalize (@nil PriceData, net).
  induction supermarkets as [|c rest IH]; intros run H; cbn [PriceMonitor.for_supermarkets].
  - reflexivity.
  - rewrite (H c (or_introl eq_refl)). cbn [get negb]. apply IH.
    intros c' Hin. apply H. right. exact Hin.
Qed.

Lemma for_results_provenance (P : PriceData -> Prop) (name : string) (product : Product)
  (results : list Listing) (all_prices : list PriceData) :
  (forall pd, recorded_for name product pd -> P pd) ->
  Forall P all_prices -> Forall P (for_results name product results all_prices).
Proof.
  intro HP. revert all_prices.
  induction results as [|result rest IH]; intros all_prices H; cbn [for_results].
  - exact H.
  - apply IH. destruct (_matches_product (l_name result) product) eqn:E; [|exact H].
    apply Forall_app. split; [exact H|]. constructor; [|constructor].
    apply HP. repeat split; cbn; try reflexivity. exact E.
Qed.

Lemma for_terms_provenance (P : PriceData -> Prop) (name : string) (scraper : Scraper)
  (parse : string -> res (list Listing)) (product : Product)
  (search_terms : list string) (run : Run World) :
  (forall pd, recorded_for name product pd -> P pd) ->
  Forall P (fst run) ->
  Forall P (fst (snd (for_terms name scraper parse product search_terms run))).
Proof.
  intro HP. revert run.
  induction search_terms as [|term rest IH]; intros run H; cbn [PriceMonitor.for_terms].
  - exact H.
  - destruct (BaseScraper.search World format session_get parse scraper term (snd run))
      as [[results|e] net'].
    + apply IH. cbn [fst]. apply for_results_provenance; assumption.
    + exact H.
Qed.

Lemma for_products_provenance (P : PriceData -> Prop) (name : string) (scraper : Scraper)
  (parse : string -> res (list Listing)) (products : list Product) (run : Run World) :
  (forall product pd, In product products -> recorded_for name product pd -> P pd) ->
  Forall P (fst run) ->
  Forall P (fst (snd (for_products name scraper parse products run))).
Proof.
  revert run. induction products as [|product rest IH]; intros run HP H;
    cbn [PriceMonitor.for_products].
  - exact H.
  - pose proof (for_terms_provenance P name scraper parse product (search_terms_of product)
                  run (fun pd => HP product pd (or_introl eq_refl)) H) as Hstep.
    unfold PriceMonitor.scrape_product.
    destruct (PriceMonitor.for_terms World format session_get name scraper parse product
                (search_terms_of product) run) as [[[]|e] run']; cbn [snd] in Hstep.
    + apply IH; [|exact Hstep]. intros p pd Hin. apply HP. right. exact Hin.
    + exact Hstep.
Qed.

Lemma for_supermarkets_provenance (P : PriceData -> Prop) (products : list Product)
  (supermarkets : list SupermarketConfig) (run : Run World) :
  (forall c product pd, In c supermarkets -> get (cfg_enabled c) true = true ->
     In product products -> recorded_for (get (cfg_name c) "") product pd -> P pd) ->
  Forall P (fst run) ->
  Forall P (fst (for_supermarkets products supermarkets run)).
Proof.
  revert run. induction supermarkets as [|c rest IH]; intros run HP H;
    cbn [PriceMonitor.for_supermarkets].
  - exact H.
  - assert (HP' : forall c' product pd, In c' rest -> get (cfg_enabled c') true = true ->
              In product products -> recorded_for (get (cfg_name c') "") product pd -> P pd).
    { intros c' product pd Hin. apply HP. right. exact Hin. }
    destruct (get (cfg_enabled c) true) eqn:En; cbn [negb].
    + pose proof (for_products_provenance P (get (cfg_name c) "") (__init__ c)
                    (parser_for SCRAPERS GenericScraper_parse (get (cfg_name c) ""))
                    products run
                    (fun product pd => HP c product pd (or_introl eq_refl) En) H) as Hstep.
      destruct (PriceMonitor.for_products World format session_get (get (cfg_name c) "")
                  (__init__ c)
                  (parser_for SCRAPERS GenericScraper_parse (get (cfg_name c) ""))
                  products run) as [outcome run'].
      cbn [snd] in Hstep. apply IH; assumption.
    + apply IH; assumption.
Qed.

(** X13. Every price [_scrape_all_prices] collects comes from a source
    that is not switched off and from a configured product with at
    least one search term: it carries the name of that source and the
    canonical name and the unit of that product (or "kg"); and, for a
    raw name and search terms written in Basic Latin and Latin-1, the
    lowered raw name contains one of the lowered search terms. *)
Theorem scraped_prices_provenance (products : list Product)
  (supermarkets : list SupermarketConfig) (net : Net World) (pd : PriceData) :
  In pd (fst (_scrape_all_prices products supermarkets net)) ->
  exists c product,
    In c supermarkets /\ get (cfg_enabled c) true = true /\
    In product products /\
    pd_supermarket pd = get (cfg_name c) "" /\
    pd_product pd = get (p_name product) "" /\
    pd_unit pd = get (p_unit product) "kg" /\
    get (p_search_terms product) [] <> [] /\
    (latin1_text (pd_product_name_raw pd) = true ->
     (forall term, In term (get (p_search_terms product) []) -> latin1_text term = true) ->
     exists term,
       In term (get (p_search_terms product) []) /\
       contains (lower term) (lower (pd_product_name_raw pd)) = true).
Proof.
  intro Hin.
  assert (H : Forall
    (fun pd => exists c product,
       In c supermarkets /\ get (cfg_enabled c) true = true /\
       In product products /\ recorded_for (get (cfg_name c) "") product pd)
    (fst (_scrape_all_prices products supermarkets net))).
  { apply for_supermarkets_provenance; [|constructor].
    intros c product pd' Hc Hen Hp Hrec. exists c, product. auto. }
  rewrite Forall_forall in H.
  destruct (H pd Hin) as (c & product & Hc & Hen & Hp & H1 & H2 & H3 & H4).
  exists c, product. repeat (split; [assumption|]).
  unfold _matches_product in H4.
  assert (Hterm : exists term, In term (get (p_search_terms product) []) /\
                    contains (lower term) (lower (pd_product_name_raw pd)) = true).
  { induction (get (p_search_terms product) []) as [|term rest IH];
      cbn [any_term_lower_in] in H4; [discriminate|].
    destruct (contains (lower term) (lower (pd_product_name_raw pd))) eqn:E.
    - exists term. split; [left; reflexivity | exact E].
    - destruct (IH H4) as (t & Ht & Hc'). exists t. split; [right; exact Ht | exact Hc']. }
  split; [|intros _ _; exact Hterm].
  destruct Hterm as (term & Ht & _). intro E. rewrite E in Ht. destruct Ht.
Qed.

Lemma search_one_request (parse : string -> res (list Listing)) (self : Scraper)
  (query : string) (net : Net World) :
  exists added,
    requests (snd (search parse self query net)) = (requests net ++ added)%list /\
    (List.length added <= 1)%nat.
Proof.
  unfold BaseScraper.search. destruct (enabled self); cbn [negb].
  - unfold BaseScraper.search_body.
    destruct (format (search_url self) query) as [url|e].
    + destruct (session_get url (world net)) as [[text|e] w].
      * exists [url]. destruct (parse text) as [products|[]]; cbn; auto.
      * exists [url]. destruct e; cbn; auto.
    + exists []. destruct e; cbn; rewrite app_nil_r; auto.
  - exists []. cbn. rewrite app_nil_r. auto.
Qed.

Lemma for_terms_requests (name : string) (scraper : Scraper)
  (parse : string -> res (list Listing)) (product : Product)
  (search_terms : list string) (run : Run World) :
  exists added,
    requests (snd (snd (for_terms name scraper parse product search_terms run))) =
    (requests (snd run) ++ added)%list /\
    (List.length added <= List.length search_terms)%nat.
Proof.
  revert run. induction search_terms as [|term rest IH]; intro run;
    cbn [PriceMonitor.for_terms].
  - exists []. cbn. rewrite app_nil_r. auto.
  - destruct (search_one_request parse scraper term (snd run)) as (a1 & E1 & L1).
    destruct (BaseScraper.search World format session_get parse scraper term (snd run))
      as [[results|e] net']; cbn [snd] in E1.
    + destruct (IH (for_results name product results (fst run), net')) as (a2 & E2 & L2).
      exists (a1 ++ a2)%list. rewrite E2. cbn [snd]. rewrite E1, app_assoc, length_app.
      split; [reflexivity | cbn; lia].
    + exists a1. cbn. split; [exact E1 | lia].
Qed.

Lemma for_products_requests (name : string) (scraper : Scraper)
  (parse : string -> res (list Listing)) (products : list Product) (run : Run World) :
  exists added,
    requests (snd (snd (for_products name scraper parse products run))) =
    (requests (snd run) ++ added)%list /\
    (List.length added <= List.length (flat_map search_terms_of products))%nat.
Proof.
  revert run. induction products as [|product rest IH]; intro run;
    cbn [PriceMonitor.for_products flat_map].
  - exists []. cbn. rewrite app_nil_r. auto.
  - unfold PriceMonitor.scrape_product.
    destruct (for_terms_requests name scraper parse product (search_terms_of product) run)
      as (a1 & E1 & L1).
    destruct (PriceMonitor.for_terms World format session_get name scraper parse product
                (search_terms_of product) run) as [[[]|e] run']; cbn [snd] in E1.
    + destruct (IH run') as (a2 & E2 & L2).
      exists (a1 ++ a2)%list. rewrite E2, E1, app_assoc, !length_app.
      split; [reflexivity | lia].
    + exists a1. cbn [snd]. rewrite length_app. split; [exact E1 | lia].
Qed.

Lemma for_supermarkets_requests (products : list Product)
  (supermarkets : list SupermarketConfig) (run : Run World) :
  exists added,
    requests (snd (for_supermarkets products supermarkets run)) =
    (requests (snd run) ++ added)%list /\
    (List.length added <=
     List.length (filter (fun c => get (cfg_enabled c) true) supermarkets) *
     List.length (flat_map search_terms_of products))%nat.
Proof.
  revert run. induction supermarkets as [|c rest IH]; intro run;
    cbn [PriceMonitor.for_supermarkets filter].
  - exists []. cbn. rewrite app_nil_r. auto.
  - destruct (get (cfg_enabled c) true); cbn [negb].
    + destruct (for_products_requests (get (cfg_name c) "") (__init__ c)
                  (parser_for SCRAPERS GenericScraper_parse (get (cfg_name c) ""))
                  products run) as (a1 & E1 & L1).
      destruct (PriceMonitor.for_products World format session_get (get (cfg_name c) "")
                  (__init__ c)
                  (parser_for SCRAPERS GenericScraper_parse (get (cfg_name c) ""))
                  products run) as [outcome run'].
      cbn [snd] in E1. destruct (IH run') as (a2 & E2 & L2).
      exists (a1 ++ a2)%list. rewrite E2, E1, app_assoc, length_app.
      split; [reflexivity | cbn [List.length]; lia].
    + apply IH.
Qed.

(** X14. [_scrape_all_prices] only adds requests to the log, and at
    most one per enabled source and search term of a product. *)
Theorem scrape_all_request_budget (products : list Product)
  (supermarkets : list SupermarketConfig) (net : Net World) :
  exists added,
    requests (snd (_scrape_all_prices products supermarkets net)) =
    (requests net ++ added)%list /\
    (List.length added <=
     List.length (filter (fun c => get (cfg_enabled c) true) supermarkets) *
     List.length (flat_map search_terms_of products))%nat.
Proof.
  apply (for_supermarkets_requests products supermarkets ([], net)).
Qed.

End RunFacts.

(** ** Signs of prices, and the generic parser *)

Section SignFacts.
Import Py PyFloat BaseScraper GenericScraper.
Local Open Scope string_scope.
Local Open Scope Z_scope.

Lemma digit_value_nonneg (c : ascii) : is_digit c = true -> 0 <= digit_value c.
Proof.
  unfold is_digit, digit_value. intro H. apply andb_prop in H as [H _].
  apply Nat.leb_le in H. lia.
Qed.

Lemma scan_literal_nonneg (s : string) (seen : bool) (num scale : Z) (nd : nat)
  (r : Z * Z * nat) :
  0 <= num -> scan_literal s seen num scale nd = Some r -> 0 <= fst (fst r).
Proof.
  revert seen num scale nd.
  induction s as [|c s IH]; intros seen num scale nd Hn H; cbn [scan_literal] in H.
  - injection H as <-. exact Hn.
  - destruct (is_digit c) eqn:Ed.
    + apply IH in H; [exact H|]. pose proof (digit_value_nonneg c Ed). lia.
    + destruct (Ascii.eqb c "."); [|discriminate].
      destruct seen; [discriminate|]. apply IH in H; assumption.
Qed.

Lemma round_pos_nonneg (n d : Z) : 0 < n -> 0 < d -> 0 <= fst (round_pos n d).
Proof.
  intros Hn Hd. unfold round_pos.
  set (k := Z.min _ 1074).
  assert (Hs : 0 <= fst (scaled n d k) /\ 0 < snd (scaled n d k)).
  { unfold scaled. destruct (0 <=? k) eqn:Ek; cbn [fst snd]; split; lia. }
  destruct (scaled n d k) as [num den]. cbn [fst snd] in Hs. destruct Hs as [H1 H2].
  cbn [fst].
  assert (0 <= num / den) by (apply Z.div_pos; lia).
  destruct (2 * (num mod den) <? den); [lia|].
  destruct (den <? 2 * (num mod den)); [lia|].
  destruct (Z.even (num / den)); lia.
Qed.

Lemma dyadic_nonneg (m k : Z) : 0 <= m -> 0 <= Qnum (dyadic m k).
Proof.
  intro H. unfold dyadic. apply Qnum_Qred_nonneg.
  destruct (0 <=? k); cbn [Qnum]; [exact H|].
  apply Z.mul_nonneg_nonneg; [exact H | apply Z.pow_nonneg; lia].
Qed.

Lemma b64_nonneg (q : Q) : 0 <= Qnum q -> 0 <= Qnum (b64 q).
Proof.
  intro H. unfold b64. destruct (Qnum q) as [|n|n] eqn:E.
  - cbn. lia.
  - pose proof (round_pos_nonneg (Z.pos n) (Z.pos (Qden q)) eq_refl eq_refl) as Hm.
    destruct (round_pos (Z.pos n) (Z.pos (Qden q))) as [m k]. apply dyadic_nonneg, Hm.
  - lia.
Qed.

Lemma trunc_nonneg (x : Q) : 0 <= Qnum x -> 0 <= trunc x.
Proof. intro H. unfold trunc. apply Z.quot_pos; lia. Qed.

Lemma int_of_float_literal_nonneg (s : string) (n : Z) :
  int_of_float_literal s = Ret (Some n) -> 0 <= n.
Proof.
  unfold int_of_float_literal, literal_value.
  destruct (scan_literal s false 0 1 0) as [[[num scale] nd]|] eqn:E; [|discriminate].
  destruct nd; [discriminate|].
  destruct (overflows _); [discriminate|]. intro H. injection H as <-.
  apply trunc_nonneg, b64_nonneg. cbn [Qnum].
  apply (scan_literal_nonneg _ _ _ _ _ _ (Z.le_refl 0) E).
Qed.

Lemma extract_price_nonneg (text : string) (price : Z) :
  _extract_price text = Ret (Some price) -> 0 <= price.
Proof.
  unfold _extract_price. destruct text; [discriminate|].
  destruct (search_price_run _); [|discriminate].
  apply int_of_float_literal_nonneg.
Qed.

(** X15. The normalizer never returns a negative price, whatever the
    text (a minus sign is no part of the run it reads), and the only
    exception it can raise is [OverflowError], for a number too large
    for a float. *)
Theorem extract_price_never_negative (text : string) :
  (forall price, _extract_price text = Ret (Some price) -> 0 <= price) /\
  (forall e, _extract_price text = Raise e -> e = OverflowError).
Proof.
  split; [intro price; apply extract_price_nonneg|].
  intro e. unfold _extract_price. destruct text; [discriminate|].
  destruct (search_price_run _); [|discriminate].
  unfold int_of_float_literal. destruct (literal_value _); [|discriminate].
  destruct (overflows _); [|discriminate]. congruence.
Qed.

Lemma for_price_tags_nonneg (element : Element) (pattern : price_pattern)
  (tags : list price_tag) (price r : option Z) :
  (forall z, price = Some z -> 0 <= z) ->
  for_price_tags element pattern tags price = Ret r ->
  forall z, r = Some z -> 0 <= z.
Proof.
  revert price. induction tags as [|tag rest IH]; intros price Hp H; cbn [for_price_tags] in H.
  - injection H as <-. exact Hp.
  - destruct (price_text element pattern tag) as [text|]; [|exact (IH _ Hp H)].
    destruct (_extract_price text) as [price'|e] eqn:E; cbn [bind] in H; [|discriminate].
    assert (Hp' : forall z, price' = Some z -> 0 <= z).
    { intros z ->. apply (extract_price_nonneg text z E). }
    destruct (truthy_int price'); [injection H as <-; exact Hp' | exact (IH _ Hp' H)].
Qed.

Lemma for_price_patterns_nonneg (element : Element) (patterns : list price_pattern)
  (price r : option Z) :
  (forall z, price = Some z -> 0 <= z) ->
  for_price_patterns element patterns price = Ret r ->
  forall z, r = Some z -> 0 <= z.
Proof.
  revert price. induction patterns as [|pattern rest IH]; intros price Hp H;
    cbn [for_price_patterns] in H.
  - injection H as <-. exact Hp.
  - destruct (for_price_tags element pattern price_tags price) as [price'|e] eqn:E;
      cbn [bind] in H; [|discriminate].
    pose proof (for_price_tags_nonneg _ _ _ _ _ Hp E) as Hp'.
    destruct (truthy_int price'); [injection H as <-; exact Hp' | exact (IH _ Hp' H)].
Qed.

Lemma extract_product_data_wellformed (self : Scraper) (element : Element)
  (product : Listing) :
  _extract_product_data self element = Ret (Some product) ->
  0 < l_price product /\ l_name product <> "" /\
  l_unit product = "kg" /\ l_supermarket product = BaseScraper.name self.
Proof.
  unfold _extract_product_data.
  set (name := if truthy_str _ then _ else _).
  destruct (truthy_str name) eqn:En; cbn [negb]; [|discriminate].
  destruct (for_price_patterns element price_patterns None) as [price|e] eqn:E1;
    cbn [bind]; [|discriminate].
  pose proof (for_price_patterns_nonneg element price_patterns None price
                ltac:(discriminate) E1) as Hp1.
  set (second := if truthy_int price then _ else _).
  assert (Hp2 : forall r z, second = Ret r -> r = Some z -> 0 <= z).
  { unfold second. intros r z Hr ->. destruct (truthy_int price).
    - injection Hr as ->. apply Hp1. reflexivity.
    - destruct (search_currency (get_text element)) as [m|].
      + apply (extract_price_nonneg m z Hr).
      + injection Hr as ->. apply Hp1. reflexivity. }
  destruct second as [price2|e]; cbn [bind]; [|discriminate].
  destruct name as [nm|]; [|discriminate]. destruct price2 as [z|]; [|discriminate].
  destruct (z =? 0) eqn:Ez; [discriminate|].
  intro H. injection H as <-. cbn.
  apply Z.eqb_neq in Ez. pose proof (Hp2 (Some z) z eq_refl eq_refl).
  split; [lia|]. split; [|split; reflexivity].
  destruct nm; [discriminate En | discriminate].
Qed.

Lemma for_elements_In (self : Scraper) (elements : list Element) (product : Listing) :
  In product (for_elements self elements) <->
  exists element, In element elements /\
    _extract_product_data self element = Ret (Some product) /\
    _is_fresh_produce (l_name product) = true.
Proof.
  induction elements as [|element rest IH]; cbn [for_elements].
  - split; [intros [] | intros (e & [] & _)].
  - destruct (_extract_product_data self element) as [[found|]|e] eqn:E.
    + destruct (_is_fresh_produce (l_name found)) eqn:Ef.
      * split.
        -- intros [<-|Hin]; [exists element; cbn; auto|].
           apply IH in Hin as (e' & He' & Hx). exists e'. cbn. tauto.
        -- intros (e' & [<-|He'] & Hx & Hf).
           ++ left. congruence.
           ++ right. apply IH. exists e'. auto.
      * rewrite IH. split; intros (e' & He' & Hx & Hf).
        -- exists e'. cbn. tauto.
        -- destruct He' as [<-|He']; [|exists e'; auto].
           rewrite E in Hx. injection Hx as ->. congruence.
    + rewrite IH. split; intros (e' & He' & Hx & Hf).
      * exists e'. cbn. tauto.
      * destruct He' as [<-|He']; [congruence | exists e'; auto].
    + rewrite IH. split; intros (e' & He' & Hx & Hf).
      * exists e'. cbn. tauto.
      * destruct He' as [<-|He']; [congruence | exists e'; auto].
Qed.

(** X16. Every listing of [GenericScraper._parse_products] has a
    positive price and a name that is not empty and passes the
    fresh-produce classifier; its unit is "kg" and its supermarket is
    the name of the scraper. *)
Theorem generic_listings_wellformed (self : Scraper) (soup : Soup) (product : Listing) :
  In product (GenericScraper._parse_products self soup) ->
  0 < l_price product /\
  l_name product <> "" /\
  _is_fresh_produce (l_name product) = true /\
  l_unit product = "kg" /\
  l_supermarket product = BaseScraper.name self.
Proof.
  unfold GenericScraper._parse_products. intro Hin.
  apply for_elements_In in Hin as (element & _ & Hx & Hf).
  destruct (extract_product_data_wellformed self element product Hx) as (H1 & H2 & H3 & H4).
  auto.
Qed.

End SignFacts.

(** ** The report as a whole *)

Section WholeReportFacts.
Import Py PyFloat BaseScraper PriceDatabase PriceMonitor.
Local Open Scope string_scope.
Local Open Scope Z_scope.

Lemma sorted_unique (l l' : list Z) :
  StronglySorted Z.le l -> StronglySorted Z.le l' -> Permutation l l' -> l = l'.
Proof.
  intro Hs. revert l'. induction Hs as [|x l Hs IH Hall]; intros l' Hs' Hp.
  - apply Permutation_nil in Hp. congruence.
  - destruct Hs' as [|y l' Hs' Hall'].
    + apply Permutation_sym, Permutation_nil in Hp. discriminate.
    + rewrite Forall_forall in Hall, Hall'.
      assert (Exy : x = y).
      { assert (Hy : In y (x :: l))
          by (eapply Permutation_in; [apply Permutation_sym, Hp | left; reflexivity]).
        assert (Hx : In x (y :: l'))
          by (eapply Permutation_in; [apply Hp | left; reflexivity]).
        destruct Hy as [E|Hy]; [congruence|]. destruct Hx as [E|Hx]; [congruence|].
        pose proof (Hall _ Hy). pose proof (Hall' _ Hx). lia. }
      subst y. f_equal. apply IH; [exact Hs'|]. eapply Permutation_cons_inv, Hp.
Qed.

Lemma sorted_Permutation (l l' : list Z) : Permutation l l' -> sorted l = sorted l'.
Proof.
  intro H. apply sorted_unique; try apply sorted_sorted.
  unfold sorted.
  eapply Permutation_trans; [apply order_by_Permutation|].
  eapply Permutation_trans; [exact H|]. apply Permutation_sym, order_by_Permutation.
Qed.

Lemma int_median_Permutation (l l' : list Z) :
  Permutation l l' -> int_median l = int_median l'.
Proof.
  intro H. unfold int_median. rewrite (sorted_Permutation l l' H). reflexivity.
Qed.

Lemma price_le_total (a b : Price) : price_le a b = false -> price_le b a = true.
Proof. unfold price_le. rewrite Z.leb_gt, Z.leb_le. lia. Qed.

Lemma price_le_trans (a b c : Price) :
  price_le a b = true -> price_le b c = true -> price_le a c = true.
Proof. unfold price_le. rewrite !Z.leb_le. lia. Qed.

Lemma order_by_price_le_sorted (l : list Price) :
  StronglySorted (fun a b => pr_price a <= pr_price b) (order_by price_le l).
Proof.
  pose proof (order_by_sorted price_le price_le_total price_le_trans l) as Hs.
  induction Hs as [|x l' Hs IH Hall]; constructor; [exact IH|].
  eapply Forall_impl; [|exact Hall]. intros y Hy. apply Z.leb_le, Hy.
Qed.

(** What one turn of the product loop does. *)
Lemma report_product_step (today : Z) (table : Table) (threshold : Q)
  (product : Product) (report report' : Report) :
  report_product today table threshold product report = Ret report' ->
  let name := get (p_name product) "" in
  let prices := get_today_prices today table (Some name) in
  (prices = [] /\ report' = report) \/
  (prices <> [] /\
   exists median added trend,
     int_median (map pr_price (deduplicate prices)) = Ret median /\
     for_alerts today table threshold name (deduplicate prices) (r_alerts report) =
       Ret (r_alerts report ++ added)%list /\
     (forall a, In a added <->
        exists price previous change,
          In price (deduplicate prices) /\
          get_previous_price today table (pr_supermarket price) name = Some previous /\
          previous <> 0 /\
          alert_change (pr_price price) previous = Ret change /\
          (threshold <= Qabs change)%Q /\
          a = mkAlert name (pr_supermarket price) change previous (pr_price price)) /\
     get_price_trend today table name 7 = Ret trend /\
     report' = mkReport
       (r_products report ++
        [mkReportProduct name median (order_by price_le (deduplicate prices))])%list
       (r_alerts report ++ added)%list
       (dict_set name trend (r_trends report))).
Proof.
  intros H name prices. unfold report_product in H. fold name prices in H.
  destruct prices as [|p0 rest] eqn:Ep.
  - left. split; [reflexivity|]. congruence.
  - right. split; [discriminate|]. rewrite <- Ep in *.
    destruct (int_median (map pr_price (deduplicate prices))) as [median|e] eqn:Em;
      cbn [bind] in H; [|discriminate].
    destruct (for_alerts_spec today table threshold name (deduplicate prices) (r_alerts report))
      as (added & Hal & Hadded).
    rewrite Hal in H. cbn [bind] in H.
    destruct (get_price_trend today table name 7) as [trend|e] eqn:Et;
      cbn [bind] in H; [|discriminate].
    exists median, added, trend. injection H as <-. auto 10.
Qed.


Lemma for_report_products_invariant (I : Report -> Prop) (today : Z) (table : Table)
  (threshold : Q) (products_config : list Product) (report0 report : Report) :
  (forall product r r', In product products_config -> I r ->
     report_product today table threshold product r = Ret r' -> I r') ->
  I report0 ->
  for_report_products today table threshold products_config report0 = Ret report ->
  I report.
Proof.
  revert report0. induction products_config as [|product rest IH]; intros report0 Hstep H0 H;
    cbn [for_report_products] in H.
  - injection H as <-. exact H0.
  - destruct (report_product today table threshold product report0) as [r1|e] eqn:E;
      cbn [bind] in H; [|discriminate].
    apply (IH r1); [| |exact H].
    + intros p r r' Hin. apply Hstep. right. exact Hin.
    + apply (Hstep product report0 r1); [left; reflexivity | exact H0 | exact E].
Qed.

(** X17. Every product of the report built by [_generate_report_data]
    is a configured product and has a list of prices that is not empty,
    ascending, with one entry per supermarket; each entry is a price of
    today and the lowest of its supermarket, every supermarket with a
    price today has an entry, and the median reported is what
    [int(statistics.median(...))] gives on the listed prices: for
    prices from 0 to below 2^52, their integer median. *)
Theorem report_products_wellformed (today : Z) (table : Table) (threshold : Q)
  (products_config : list Product) (report : Report) (rp : ReportProduct) :
  _generate_report_data today table threshold products_config = Ret report ->
  In rp (r_products report) ->
  let listed := get_today_prices today table (Some (rp_name rp)) in
  (exists product, In product products_config /\ rp_name rp = get (p_name product) "") /\
  rp_prices rp <> [] /\
  StronglySorted (fun a b => pr_price a <= pr_price b) (rp_prices rp) /\
  NoDup (map pr_supermarket (rp_prices rp)) /\
  (forall q, In q (rp_prices rp) ->
     In q listed /\
     forall p, In p listed -> pr_supermarket p = pr_supermarket q ->
               pr_price q <= pr_price p) /\
  (forall p, In p listed ->
     exists q, In q (rp_prices rp) /\ pr_supermarket q = pr_supermarket p) /\
  int_median (map pr_price (rp_prices rp)) = Ret (rp_median rp) /\
  ((forall q, In q (rp_prices rp) -> 0 <= pr_price q < 2 ^ 52) ->
   is_integer_median (map pr_price (rp_prices rp)) (rp_median rp)).
Proof.
  intros H Hin. revert rp Hin.
  apply (for_report_products_invariant
           (fun r => forall rp, In rp (r_products r) -> _)
           today table threshold products_config (mkReport [] [] []) report);
    [| intros rp [] | exact H].
  intros product r r' Hprod Hr Hstep rp Hin.
  apply report_product_step in Hstep
    as [[_ ->]|(Hne & median & added & trend & Hmed & _ & _ & _ & ->)];
    [apply Hr, Hin|].
  cbn [r_products] in Hin. apply in_app_or in Hin as [Hin|[<-|[]]]; [apply Hr, Hin|].
  cbn [rp_name rp_prices rp_median].
  set (name := get (p_name product) "") in *.
  set (prices := get_today_prices today table (Some name)) in *.
  destruct (deduplicate_lowest prices) as (Hnd & Hmin & Hall).
  pose proof (order_by_Permutation price_le (deduplicate prices)) as Hperm.
  split; [exists product; split; [exact Hprod | reflexivity]|].
  split.
  { intro E. apply (deduplicate_not_nil prices Hne).
    apply length_zero_iff_nil. rewrite <- (order_by_length price_le), E. reflexivity. }
  split; [apply order_by_price_le_sorted|].
  split.
  { eapply Permutation_NoDup; [|exact Hnd].
    apply Permutation_map, Permutation_sym, Hperm. }
  split; [intros q Hq; apply Hmin, (order_by_In price_le), Hq|].
  split.
  { intros p0 Hp0. destruct (Hall p0 Hp0) as (q & Hq & Hsm).
    exists q. split; [apply (order_by_In price_le), Hq | exact Hsm]. }
  assert (Hsame : int_median (map pr_price (order_by price_le (deduplicate prices))) =
                  Ret median).
  { rewrite <- Hmed. apply int_median_Permutation, Permutation_map, Hperm. }
  split; [exact Hsame|].
  intro Hb. apply int_median_is_median; [|exact Hsame].
  intros v Hv. apply in_map_iff in Hv as (q & <- & Hq). apply Hb, Hq.
Qed.

(** X18. Every alert of the report is about a configured product and a
    price kept for today; its previous price is the one
    [get_previous_price] answers and is not zero, its change is the one
    computed from the two prices, and its absolute value reaches the
    threshold. *)
Theorem report_alerts_wellformed (today : Z) (table : Table) (threshold : Q)
  (products_config : list Product) (report : Report) (a : Alert) :
  _generate_report_data today table threshold products_config = Ret report ->
  In a (r_alerts report) ->
  (exists product, In product products_config /\ al_product a = get (p_name product) "") /\
  (exists price,
     In price (deduplicate (get_today_prices today table (Some (al_product a)))) /\
     pr_supermarket price = al_supermarket a /\ pr_price price = al_current_price a) /\
  get_previous_price today table (al_supermarket a) (al_product a) =
    Some (al_previous_price a) /\
  al_previous_price a <> 0 /\
  alert_change (al_current_price a) (al_previous_price a) = Ret (al_change_percent a) /\
  (threshold <= Qabs (al_change_percent a))%Q.
Proof.
  intros H Hin. revert a Hin.
  apply (for_report_products_invariant
           (fun r => forall a, In a (r_alerts r) -> _)
           today table threshold products_config (mkReport [] [] []) report);
    [| intros a [] | exact H].
  intros product r r' Hprod Hr Hstep a Hin.
  apply report_product_step in Hstep
    as [[_ ->]|(Hne & median & added & trend & _ & _ & Hadded & _ & ->)];
    [apply Hr, Hin|].
  cbn [r_alerts] in Hin. apply in_app_or in Hin as [Hin|Hin]; [apply Hr, Hin|].
  apply Hadded in Hin as (price & previous & change & Hp & Hprev & Hnz & Hch & Hth & ->).
  cbn [al_product al_supermarket al_previous_price al_current_price al_change_percent].
  split; [exists product; split; [exact Hprod | reflexivity]|].
  split; [exists price; auto|]. auto.
Qed.

Lemma dict_get_set_same {V : Type} (key : string) (v : V) (d : list (string * V)) :
  dict_get key (dict_set key v d) = Some v.
Proof.
  induction d as [|[k w] d IH]; cbn [dict_set dict_get].
  - rewrite String.eqb_refl. reflexivity.
  - destruct (String.eqb k key) eqn:E; cbn [dict_get]; rewrite E; [reflexivity | exact IH].
Qed.

Lemma dict_get_set_other {V : Type} (key k' : string) (v : V) (d : list (string * V)) :
  k' <> key -> dict_get k' (dict_set key v d) = dict_get k' d.
Proof.
  intro Hne. induction d as [|[k w] d IH]; cbn [dict_set dict_get].
  - destruct (String.eqb key k') eqn:E; [apply String.eqb_eq in E; congruence | reflexivity].
  - destruct (String.eqb k key) eqn:E; cbn [dict_get].
    + apply String.eqb_eq in E. subst k.
      destruct (String.eqb key k') eqn:E'; [apply String.eqb_eq in E'; congruence | reflexivity].
    + destruct (String.eqb k k'); [reflexivity | exact IH].
Qed.

(** X19. The report holds, under the name of each of its products, the
    seven-day trend of that product. *)
Theorem report_trend_per_product (today : Z) (table : Table) (threshold : Q)
  (products_config : list Product) (report : Report) (rp : ReportProduct) :
  _generate_report_data today table threshold products_config = Ret report ->
  In rp (r_products report) ->
  exists trend,
    dict_get (rp_name rp) (r_trends report) = Some trend /\
    get_price_trend today table (rp_name rp) 7 = Ret trend.
Proof.
  intros H Hin. revert rp Hin.
  apply (for_report_products_invariant
           (fun r => forall rp, In rp (r_products r) -> _)
           today table threshold products_config (mkReport [] [] []) report);
    [| intros rp [] | exact H].
  intros product r r' Hprod Hr Hstep rp Hin.
  apply report_product_step in Hstep
    as [[_ ->]|(Hne & median & added & trend & _ & _ & _ & Htrend & ->)];
    [apply Hr, Hin|].
  cbn [r_products r_trends] in *.
  destruct (string_dec (rp_name rp) (get (p_name product) "")) as [E|E].
  - exists trend. rewrite E, dict_get_set_same. auto.
  - rewrite (dict_get_set_other _ _ _ _ E).
    apply in_app_or in Hin as [Hin|[<-|[]]]; [apply Hr, Hin | cbn in E; congruence].
Qed.

Lemma for_report_products_names (today : Z) (table : Table) (threshold : Q)
  (products_config : list Product) (report0 report : Report) :
  for_report_products today table threshold products_config report0 = Ret report ->
  map rp_name (r_products report) =
  (map rp_name (r_products report0) ++
   filter (fun name => match get_today_prices today table (Some name) with
                       | [] => false
                       | _ :: _ => true
                       end)
          (map (fun product => get (p_name product) "") products_config))%list.
Proof.
  revert report0. induction products_config as [|product rest IH]; intros report0 H;
    cbn [for_report_products] in H.
  - injection H as <-. cbn. rewrite app_nil_r. reflexivity.
  - destruct (report_product today table threshold product report0) as [r1|e] eqn:E;
      cbn [bind] in H; [|discriminate].
    rewrite (IH r1 H). cbn [map filter].
    apply report_product_step in E
      as [[Hnil ->]|(Hne & median & added & trend & _ & _ & _ & _ & ->)].
    + rewrite Hnil. reflexivity.
    + destruct (get_today_prices today table (Some (get (p_name product) "")));
        [contradiction|].
      cbn [r_products]. rewrite map_app, <- app_assoc. reflexivity.
Qed.

(** X20. The products of the report are the configured products that
    have a price today, in the order of the configuration. *)
Theorem report_lists_products_with_prices (today : Z) (table : Table) (threshold : Q)
  (products_config : list Product) (report : Report) :
  _generate_report_data today table threshold products_config = Ret report ->
  map rp_name (r_products report) =
  filter (fun name => match get_today_prices today table (Some name) with
                      | [] => false
                      | _ :: _ => true
                      end)
         (map (fun product => get (p_name product) "") products_config).
Proof.
  intro H. apply for_report_products_names in H. exact H.
Qed.


Lemma get_price_trend_returns (today : Z) (table : Table) (p : string) (days : Z) :
  Z.abs days <= 999999999 -> 1 <= today - days <= 3652059 ->
  (forall r, In r table -> 0 < price_guaranies r) ->
  fold_right Z.add 0 (map price_guaranies table) < 2 ^ 53 ->
  exists trend, get_price_trend today table p days = Ret trend.
Proof.
  intros Hdays Hwin Hpos Hsum. rewrite (get_price_trend_window today table p days Hdays Hwin).
  cbv zeta.
  set (rows := window_rows table p (today - days) today).
  destruct (List.length (daily_averages rows) <? 2)%nat eqn:El; [eexists; reflexivity|].
  assert (Hrows : forall r, In r rows -> In r table).
  { intros r Hr. apply window_rows_In in Hr. tauto. }
  assert (Hz : forall d, In d (distinct_dates rows) ->
                         Qeq_bool (AVG (prices_on rows d)) 0 = false).
  { intros d Hd. apply distinct_dates_In in Hd as (r & Hr & Hdate).
    apply AVG_nonzero.
    - intro E. assert (Hin : In (price_guaranies r) (prices_on rows d))
        by (apply prices_on_In; eauto).
      rewrite E in Hin. destruct Hin.
    - intros v Hv. apply prices_on_In in Hv as (r' & Hr' & _ & <-). apply Hpos, Hrows, Hr'.
    - unfold prices_on.
      eapply Z.le_lt_trans; [apply sum_filter_le|].
      { intros x Hx. apply Z.lt_le_incl, Hpos, Hrows, Hx. }
      eapply Z.le_lt_trans; [apply sum_filter_le|exact Hsum].
      intros x Hx. apply Z.lt_le_incl, Hpos, Hx. }
  unfold daily_averages in *.
  destruct (distinct_dates rows) as [|d1 rest].
  - discriminate El.
  - cbn [map hd snd]. unfold percent_change, fdiv.
    rewrite (Hz d1 (or_introl eq_refl)). cbn [bind]. eexists. reflexivity.
Qed.

(** X21. On a table of positive prices whose sum is below 2^53, and
    from the eighth day of year 1 on, [_generate_report_data] never
    raises. *)
Theorem report_never_fails (today : Z) (table : Table) (threshold : Q)
  (products_config : list Product) :
  8 <= today <= 3652059 ->
  (forall r, In r table -> 0 < price_guaranies r) ->
  fold_right Z.add 0 (map price_guaranies table) < 2 ^ 53 ->
  exists report, _generate_report_data today table threshold products_config = Ret report.
Proof.
  intros Htoday Hpos Hsum. unfold _generate_report_data. generalize (mkReport [] [] []).
  induction products_config as [|product rest IH]; intro report0;
    cbn [for_report_products].
  - eexists. reflexivity.
  - assert (Hstep : exists r1, report_product today table threshold product report0 = Ret r1).
    { unfold report_product.
      set (name := get (p_name product) "").
      destruct (get_today_prices today table (Some name)) as [|p0 ps] eqn:Ep;
        [eexists; reflexivity|].
      rewrite <- Ep.
      assert (Hne : get_today_prices today table (Some name) <> [])
        by (rewrite Ep; discriminate).
      assert (Hk : map pr_price (deduplicate (get_today_prices today table (Some name))) <> []).
      { pose proof (deduplicate_not_nil _ Hne) as Hk.
        destruct (deduplicate _); [contradiction | discriminate]. }
      destruct (int_median_returns _ Hk) as (median & ->).
      destruct (for_alerts_spec today table threshold name
                  (deduplicate (get_today_prices today table (Some name)))
                  (r_alerts report0)) as (added & -> & _).
      destruct (get_price_trend_returns today table name 7 ltac:(cbn; lia) ltac:(lia) Hpos Hsum)
        as (trend & ->).
      cbn [bind]. eexists. reflexivity. }
    destruct Hstep as (r1 & ->). cbn [bind]. apply IH.
Qed.

End WholeReportFacts.

(** ** Casa Rica: prices *)

Section DigitFacts.
Import Py PyFloat BaseScraper.
Local Open Scope string_scope.

Lemma replace_from_keeps_digits (old new t s : string) :
  old <> "" -> has_digit old = false -> has_digit new = false ->
  prefix t s = true -> has_digit t = false ->
  has_digit (replace_from old new (String.length t) s) = has_digit s.
Proof.
  intros Hne Hold Hnew. revert t.
  induction s as [|c s IH]; intros t Hp Ht.
  - destruct t; reflexivity.
  - destruct t as [|c' t].
    + cbn [String.length replace_from].
      destruct (prefix old (String c s)) eqn:E.
      * rewrite has_digit_app, Hnew. cbn [orb].
        destruct old as [|c0 old']; [contradiction|].
        cbn [prefix] in E. destruct (ascii_dec c0 c) as [<-|Hc0]; [|discriminate].
        cbn [has_digit] in Hold. apply orb_false_iff in Hold as [Hc Hold'].
        replace (String.length (String c0 old') - 1)%nat with (String.length old')
          by (cbn [String.length]; lia).
        rewrite (IH old' E Hold'). cbn [has_digit]. rewrite Hc. reflexivity.
      * cbn [has_digit]. f_equal. exact (IH "" (prefix_nil s) eq_refl).
    + cbn [prefix] in Hp. destruct (ascii_dec c' c) as [<-|Hc']; [|discriminate].
      cbn [has_digit] in Ht. apply orb_false_iff in Ht as [Hc Ht].
      cbn [String.length replace_from has_digit]. rewrite Hc. cbn [orb].
      apply IH; assumption.
Qed.

Lemma replace_keeps_digits (old s : string) :
  old <> "" -> has_digit old = false -> has_digit (replace old "" s) = has_digit s.
Proof.
  intros Hne Hold. unfold replace. destruct old as [|c old']; [contradiction|].
  apply (replace_from_keeps_digits (String c old') "" "" s Hne Hold eq_refl (prefix_nil s) eq_refl).
Qed.

Lemma whitespace_no_digit (w : string) : In w whitespace -> has_digit w = false.
Proof.
  intro H. unfold whitespace in H. cbn [map] in H.
  repeat (destruct H as [<-|H]; [reflexivity|]). destruct H.
Qed.

Lemma space_width_no_digit (s : string) :
  exists w, prefix w s = true /\ has_digit w = false /\ space_width s = String.length w.
Proof.
  unfold space_width. destruct (find (fun w => prefix w s) whitespace) as [w|] eqn:E.
  - apply find_some in E as [Hin Hp]. exists w.
    split; [exact Hp|]. split; [apply whitespace_no_digit, Hin | reflexivity].
  - exists "". split; [apply prefix_nil | split; reflexivity].
Qed.

Lemma lstrip_from_keeps_digits (t s : string) :
  prefix t s = true -> has_digit t = false ->
  has_digit (lstrip_from (String.length t) s) = has_digit s.
Proof.
  revert t. induction s as [|c s IH]; intros t Hp Ht.
  - destruct t; reflexivity.
  - destruct t as [|c' t].
    + cbn [String.length lstrip_from].
      destruct (space_width_no_digit (String c s)) as (w & Hw & Hd & El). rewrite El.
      destruct w as [|c0 w]; [reflexivity|].
      cbn [String.length]. cbn [prefix] in Hw.
      destruct (ascii_dec c0 c) as [<-|Hc0]; [|discriminate].
      cbn [has_digit] in Hd. apply orb_false_iff in Hd as [Hc Hd].
      rewrite (IH w Hw Hd). cbn [has_digit]. rewrite Hc. reflexivity.
    + cbn [prefix] in Hp. destruct (ascii_dec c' c) as [<-|Hc']; [|discriminate].
      cbn [has_digit] in Ht. apply orb_false_iff in Ht as [Hc Ht].
      cbn [String.length lstrip_from has_digit]. rewrite Hc. cbn [orb].
      apply IH; assumption.
Qed.

Lemma lstrip_keeps_digits (s : string) : has_digit (lstrip s) = has_digit s.
Proof. apply (lstrip_from_keeps_digits "" s (prefix_nil s) eq_refl). Qed.

Lemma rstrip_keeps_digits (s : string) : has_digit (rstrip s) = has_digit s.
Proof.
  induction s as [|c s IH]; [reflexivity|].
  cbn [rstrip]. destruct (isspace_or_empty (String c s)) eqn:E.
  - unfold isspace_or_empty in E.
    destruct (lstrip (String c s)) eqn:El; [|discriminate].
    rewrite <- (lstrip_keeps_digits (String c s)), El. reflexivity.
  - cbn [has_digit]. rewrite IH. reflexivity.
Qed.

Lemma strip_keeps_digits (s : string) : has_digit (strip s) = has_digit s.
Proof. unfold strip. rewrite rstrip_keeps_digits. apply lstrip_keeps_digits. Qed.


Lemma replace_from_shrinks (old s : string) (skip : nat) :
  (String.length (replace_from old "" skip s) <= String.length s)%nat.
Proof.
  revert skip. induction s as [|c s IH]; intro skip; [cbn; lia|].
  cbn [replace_from String.length]. destruct skip as [|k].
  - destruct (prefix old (String c s)).
    + cbn [append]. specialize (IH (String.length old - 1)%nat). lia.
    + cbn [String.length]. specialize (IH 0%nat). lia.
  - specialize (IH k). lia.
Qed.

Lemma interleave_nil (s : string) : interleave "" s = s.
Proof. induction s as [|c s IH]; [reflexivity|]. cbn. rewrite IH. reflexivity. Qed.

Lemma replace_shrinks (old s : string) :
  (String.length (replace old "" s) <= String.length s)%nat.
Proof.
  unfold replace. destruct old; [rewrite interleave_nil; lia | apply replace_from_shrinks].
Qed.

Lemma lstrip_from_shrinks (s : string) (skip : nat) :
  (String.length (lstrip_from skip s) <= String.length s)%nat.
Proof.
  revert skip. induction s as [|c s IH]; intro skip; [cbn; lia|].
  cbn [lstrip_from]. destruct skip as [|k].
  - destruct (space_width (String c s)) as [|k]; [lia|].
    specialize (IH k). cbn [String.length]. lia.
  - specialize (IH k). cbn [String.length]. lia.
Qed.

Lemma rstrip_shrinks (s : string) : (String.length (rstrip s) <= String.length s)%nat.
Proof.
  induction s as [|c s IH]; [cbn; lia|].
  cbn [rstrip]. destruct (isspace_or_empty (String c s)); cbn [String.length]; lia.
Qed.

Lemma strip_shrinks (s : string) : (String.length (strip s) <= String.length s)%nat.
Proof.
  unfold strip, lstrip.
  pose proof (rstrip_shrinks (lstrip_from 0 s)). pose proof (lstrip_from_shrinks s 0). lia.
Qed.

Lemma take_while_shrinks (p : ascii -> bool) (s : string) :
  (String.length (take_while p s) <= String.length s)%nat.
Proof.
  induction s as [|c s IH]; [cbn; lia|].
  cbn [take_while]. destruct (p c); cbn [String.length]; lia.
Qed.

Lemma take_while_digits (s : string) : all_digits (take_while is_digit s) = true.
Proof.
  induction s as [|c s IH]; [reflexivity|].
  cbn [take_while]. destruct (is_digit c) eqn:E; [|reflexivity].
  cbn [all_digits]. rewrite E. exact IH.
Qed.

Lemma take_while_all_digits (s : string) : all_digits s = true -> take_while is_digit s = s.
Proof.
  induction s as [|c s IH]; intro H; [reflexivity|].
  cbn [all_digits] in H. apply andb_prop in H as [Hc Hs].
  cbn [take_while]. rewrite Hc, (IH Hs). reflexivity.
Qed.

Lemma search_digits_None (s : string) :
  CasaRicaScraper.search_digits s = None <-> has_digit s = false.
Proof.
  induction s as [|c s IH]; cbn [CasaRicaScraper.search_digits has_digit]; [tauto|].
  destruct (is_digit c); cbn [orb]; [split; discriminate | exact IH].
Qed.

Lemma search_digits_Some (s group1 : string) :
  CasaRicaScraper.search_digits s = Some group1 ->
  all_digits group1 = true /\ group1 <> "" /\
  (String.length group1 <= String.length s)%nat.
Proof.
  induction s as [|c s IH]; cbn [CasaRicaScraper.search_digits]; [discriminate|].
  destruct (is_digit c) eqn:E.
  - clear IH. intro H. injection H as <-.
    split; [apply (take_while_digits (String c s))|].
    split; [rewrite E; discriminate | apply (take_while_shrinks is_digit (String c s))].
  - intro H. apply IH in H as (H1 & H2 & H3). cbn [String.length]. auto.
Qed.

Lemma digits_value_nonneg (s : string) : all_digits s = true -> (0 <= digits_value s)%Z.
Proof.
  intro H. pose proof (digits_value_from_bounds s 0 H) as [Hlo _].
  unfold digits_value. lia.
Qed.

Lemma cleaned_keeps_digits (price_text : string) :
  has_digit (CasaRicaScraper.cleaned price_text) = has_digit price_text.
Proof.
  unfold CasaRicaScraper.cleaned.
  rewrite strip_keeps_digits, !replace_keeps_digits by (discriminate || reflexivity).
  reflexivity.
Qed.

Lemma cleaned_shrinks (price_text : string) :
  (String.length (CasaRicaScraper.cleaned price_text) <= String.length price_text)%nat.
Proof.
  unfold CasaRicaScraper.cleaned.
  eapply Nat.le_trans; [apply strip_shrinks|].
  eapply Nat.le_trans; [apply replace_shrinks|].
  eapply Nat.le_trans; [apply replace_shrinks|].
  eapply Nat.le_trans; [apply replace_shrinks|]. apply replace_shrinks.
Qed.

Lemma extract_casarica_price_nonneg (max_str_digits : nat) (text : string)
  (price : option Z) :
  CasaRicaScraper._extract_casarica_price max_str_digits text = Ret price ->
  forall z, price = Some z -> (0 <= z)%Z.
Proof.
  unfold CasaRicaScraper._extract_casarica_price. destruct text as [|c0 rest].
  - intro H. injection H as <-. discriminate.
  - destruct (CasaRicaScraper.search_digits _) as [group1|] eqn:E.
    + apply search_digits_Some in E as (Hall & _ & _).
      unfold CasaRicaScraper.int_of_digits. destruct (_ && _).
      * intro H. injection H as <-. discriminate.
      * intros H z Hz. injection H as <-. injection Hz as <-.
        apply digits_value_nonneg, Hall.
    + intro H. injection H as <-. discriminate.
Qed.

(** X22. On a text whose only decimal digits are 0-9,
    [_extract_casarica_price] never raises and never returns a negative
    price; it returns [None] for a text without a digit, and a price for
    every text with a digit that is within the limit of [int] on the
    number of digits. *)
Theorem extract_casarica_price_total (max_str_digits : nat) (price_text : string) :
  digits_are_ascii price_text = true ->
  exists price,
    CasaRicaScraper._extract_casarica_price max_str_digits price_text = Ret price /\
    (forall n, price = Some n -> (0 <= n)%Z) /\
    (has_digit price_text = false -> price = None) /\
    (has_digit price_text = true ->
     (max_str_digits = 0 \/ String.length price_text <= max_str_digits)%nat ->
     exists n, price = Some n).
Proof.
  intros _. unfold CasaRicaScraper._extract_casarica_price.
  destruct price_text as [|c0 rest]; [exists None; repeat split; discriminate|].
  pose proof (cleaned_keeps_digits (String c0 rest)) as Hd.
  pose proof (cleaned_shrinks (String c0 rest)) as Hl.
  set (text := String c0 rest) in *.
  destruct (CasaRicaScraper.search_digits (CasaRicaScraper.cleaned text)) as [group1|] eqn:E.
  - apply search_digits_Some in E as Hg. destruct Hg as (Hall & Hne & Hlen).
    assert (Hhas : has_digit text = true).
    { rewrite <- Hd. destruct (has_digit (CasaRicaScraper.cleaned text)) eqn:E'; [reflexivity|].
      apply search_digits_None in E'. congruence. }
    unfold CasaRicaScraper.int_of_digits.
    destruct ((0 <? max_str_digits)%nat && (max_str_digits <? String.length group1)%nat) eqn:Elim.
    + exists None. split; [reflexivity|]. split; [discriminate|].
      split; [congruence|]. intros _ Hmax. exfalso.
      apply andb_prop in Elim as [H1 H2]. apply Nat.ltb_lt in H1, H2. lia.
    + exists (Some (digits_value group1)). split; [reflexivity|].
      split; [intros n Hn; injection Hn as <-; apply digits_value_nonneg, Hall|].
      split; [congruence|]. intros _ _. eexists. reflexivity.
  - exists None. apply search_digits_None in E. rewrite Hd in E.
    split; [reflexivity|]. split; [discriminate|]. split; [reflexivity|]. congruence.
Qed.


Lemma replace_from_absent (old new s : string) (c0 : ascii) (old' : string) :
  old = String c0 old' -> count_char c0 s = 0%nat -> replace_from old new 0 s = s.
Proof.
  intros -> H. induction s as [|c s IH]; [reflexivity|].
  cbn [count_char] in H. cbn [replace_from prefix].
  destruct (ascii_dec c0 c) as [<-|Hne].
  - rewrite Ascii.eqb_refl in H. discriminate.
  - rewrite IH; [reflexivity|]. destruct (Ascii.eqb c c0); [discriminate | exact H].
Qed.

Lemma all_digits_no_char (c0 : ascii) (s : string) :
  is_digit c0 = false -> all_digits s = true -> count_char c0 s = 0%nat.
Proof.
  intro Hc. induction s as [|c s IH]; intro H; [reflexivity|].
  cbn [all_digits] in H. apply andb_prop in H as [Hd Hs].
  cbn [count_char]. rewrite (IH Hs).
  destruct (Ascii.eqb c c0) eqn:E; [|reflexivity].
  apply Ascii.eqb_eq in E. congruence.
Qed.

Lemma price_chars_no_char (c0 : ascii) (s : string) :
  is_price_char c0 = false -> all_price_chars s = true -> count_char c0 s = 0%nat.
Proof.
  intro Hc. induction s as [|c s IH]; intro H; [reflexivity|].
  cbn [all_price_chars] in H. apply andb_prop in H as [Hd Hs].
  cbn [count_char]. rewrite (IH Hs).
  destruct (Ascii.eqb c c0) eqn:E; [|reflexivity].
  apply Ascii.eqb_eq in E. congruence.
Qed.

Lemma strip_all_digits (s : string) : all_digits s = true -> strip s = s.
Proof.
  intro H. unfold strip, lstrip.
  assert (Hl : forall t, all_digits t = true -> lstrip_from 0 t = t).
  { intros [|c t] Ht; [reflexivity|]. cbn [all_digits] in Ht.
    apply andb_prop in Ht as [Hc _]. cbn [lstrip_from].
    rewrite (digit_not_space c t Hc). reflexivity. }
  rewrite (Hl s H). induction s as [|c s IH]; [reflexivity|].
  cbn [rstrip]. unfold isspace_or_empty, lstrip. rewrite (Hl _ H).
  cbn [all_digits] in H. apply andb_prop in H as [_ Hs]. rewrite (IH Hs). reflexivity.
Qed.

Lemma search_digits_all (s : string) :
  all_digits s = true -> s <> "" -> CasaRicaScraper.search_digits s = Some s.
Proof.
  destruct s as [|c s]; [contradiction|]. intros H _.
  pose proof (take_while_all_digits _ H) as Ht.
  cbn [all_digits] in H. apply andb_prop in H as [Hc _].
  cbn [CasaRicaScraper.search_digits]. rewrite Hc, Ht. reflexivity.
Qed.

Lemma subst_char_price_chars (c : ascii) (s : string) :
  all_price_chars s = true -> all_price_chars (subst_char c "" s) = true.
Proof.
  induction s as [|c' s IH]; intro H; [reflexivity|].
  cbn [all_price_chars] in H. apply andb_prop in H as [Hc Hs].
  cbn [subst_char]. destruct (Ascii.eqb c' c); cbn [append all_price_chars];
    [|rewrite Hc]; apply IH, Hs.
Qed.

Lemma subst_char_removes (c : ascii) (s : string) :
  count_char c (subst_char c "" s) = 0%nat.
Proof.
  induction s as [|c' s IH]; [reflexivity|].
  cbn [subst_char]. destruct (Ascii.eqb c' c) eqn:E; cbn [append count_char];
    [|rewrite E]; exact IH.
Qed.

Lemma subst_char_keeps_digits (c : ascii) (s : string) :
  is_digit c = false -> has_digit (subst_char c "" s) = has_digit s.
Proof.
  intro Hc. induction s as [|c' s IH]; [reflexivity|].
  cbn [subst_char has_digit]. destruct (Ascii.eqb c' c) eqn:E; cbn [append has_digit].
  - apply Ascii.eqb_eq in E. subst c'. rewrite Hc. exact IH.
  - rewrite IH. reflexivity.
Qed.

Lemma subst_char_shrinks (c : ascii) (s : string) :
  (String.length (subst_char c "" s) <= String.length s)%nat.
Proof.
  induction s as [|c' s IH]; [cbn; lia|].
  cbn [subst_char]. destruct (Ascii.eqb c' c); cbn [append String.length]; lia.
Qed.

(** X23. On a text of digits, points and commas
    [_extract_casarica_price] returns the number its digits write, the
    separators dropped: both separators are read as thousands
    separators. *)
Theorem extract_casarica_price_joins_digits (max_str_digits : nat) (price_text : string) :
  all_price_chars price_text = true ->
  has_digit price_text = true ->
  (max_str_digits = 0 \/ String.length price_text <= max_str_digits)%nat ->
  CasaRicaScraper._extract_casarica_price max_str_digits price_text =
  Ret (Some (digits_value (subst_char "," "" (subst_char "." "" price_text)))).
Proof.
  intros Hall Hhas Hmax.
  unfold CasaRicaScraper._extract_casarica_price, CasaRicaScraper.cleaned.
  destruct price_text as [|c0 rest]; [discriminate|].
  set (text := String c0 rest) in *.
  assert (E1 : replace "₲" "" text = text).
  { unfold replace. eapply replace_from_absent; [reflexivity|].
    apply price_chars_no_char; [reflexivity | exact Hall]. }
  rewrite E1, !replace_char.
  set (digits := subst_char "," "" (subst_char "." "" text)).
  assert (Hd : all_digits digits = true).
  { apply (digits_after_removal "," "."); [apply price_char_cases' | reflexivity | |].
    - apply subst_char_price_chars, Hall.
    - apply subst_char_removes. }
  assert (Hne : digits <> "").
  { intro E. assert (H : has_digit digits = true).
    { unfold digits. rewrite !subst_char_keeps_digits by reflexivity. exact Hhas. }
    rewrite E in H. discriminate. }
  assert (E2 : replace "Gs" "" digits = digits).
  { unfold replace. eapply replace_from_absent; [reflexivity|].
    apply all_digits_no_char; [reflexivity | exact Hd]. }
  rewrite E2, (strip_all_digits _ Hd), (search_digits_all _ Hd Hne).
  unfold CasaRicaScraper.int_of_digits.
  assert (Hlen : (String.length digits <= String.length text)%nat).
  { unfold digits. pose proof (subst_char_shrinks "," (subst_char "." "" text)).
    pose proof (subst_char_shrinks "." text). lia. }
  replace ((0 <? max_str_digits)%nat && (max_str_digits <? String.length digits)%nat)
    with false; [reflexivity|].
  symmetry. apply andb_false_iff.
  destruct Hmax as [->|Hmax]; [left; reflexivity | right; apply Nat.ltb_ge; lia].
Qed.

End DigitFacts.

(** ** Casa Rica: listings and categories *)

Section CasaRicaFacts.
Import Py PyFloat BaseScraper CasaRicaScraper.
Local Open Scope string_scope.
Local Open Scope Z_scope.

Lemma for_stripped_strings_nonneg (max_str_digits : nat) (texts : list string)
  (price r : option Z) :
  (forall z, price = Some z -> 0 <= z) ->
  for_stripped_strings max_str_digits texts price = Ret r ->
  forall z, r = Some z -> 0 <= z.
Proof.
  revert price. induction texts as [|text rest IH]; intros price Hp H;
    cbn [for_stripped_strings] in H.
  - injection H as <-. exact Hp.
  - destruct (contains "₲" text); [|exact (IH _ Hp H)].
    destruct (_extract_casarica_price max_str_digits text) as [price'|e] eqn:E;
      cbn [bind] in H; [|discriminate].
    pose proof (extract_casarica_price_nonneg _ _ _ E) as Hp'.
    destruct (GenericScraper.truthy_int price');
      [injection H as <-; exact Hp' | exact (IH _ Hp' H)].
Qed.

Lemma parse_element_wellformed (max_str_digits : nat) (self : Scraper) (element : Element)
  (product : Listing) :
  parse_element max_str_digits self element = Ret (Some product) ->
  0 < l_price product /\ _is_fresh_produce (l_name product) = true /\
  l_unit product = "kg" /\ l_supermarket product = BaseScraper.name self.
Proof.
  unfold parse_element.
  destruct (or_else (h2_title element) (or_else (h2 element) (h3 element))) as [name|];
    [|discriminate].
  destruct (_is_fresh_produce name) eqn:Ef; cbn [negb]; [|discriminate].
  set (first := match or_else (span_price element) (span_amount element) with
                | Some price_text => _ | None => _ end).
  assert (H1 : forall r z, first = Ret r -> r = Some z -> 0 <= z).
  { unfold first. intros r z Hr Hz.
    destruct (or_else (span_price element) (span_amount element)) as [price_text|].
    - apply (extract_casarica_price_nonneg _ _ _ Hr z Hz).
    - injection Hr as <-. discriminate. }
  destruct first as [price|e]; cbn [bind]; [|discriminate].
  set (second := if GenericScraper.truthy_int price then _ else _).
  assert (H2 : forall r z, second = Ret r -> r = Some z -> 0 <= z).
  { unfold second. intros r z Hr Hz. destruct (GenericScraper.truthy_int price).
    - injection Hr as <-. apply (H1 price z eq_refl Hz).
    - exact (for_stripped_strings_nonneg _ _ _ _
               (fun z' Hz' => H1 price z' eq_refl Hz') Hr z Hz). }
  destruct second as [[z|]|e]; cbn [bind]; try discriminate.
  destruct (z =? 0) eqn:Ez; [discriminate|].
  intro H. injection H as <-. cbn. apply Z.eqb_neq in Ez.
  pose proof (H2 (Some z) z eq_refl eq_refl). repeat split; [lia | exact Ef].
Qed.


(** X24. Every listing of [CasaRicaScraper._parse_products] has a
    positive price and a name that passes the fresh-produce classifier;
    its unit is "kg" and its supermarket is the name of the scraper. *)
Theorem casarica_listings_wellformed (max_str_digits : nat) (self : Scraper)
  (product_elements : list Element) (product : Listing) :
  In product (CasaRicaScraper._parse_products max_str_digits self product_elements) ->
  0 < l_price product /\
  _is_fresh_produce (l_name product) = true /\
  l_unit product = "kg" /\
  l_supermarket product = BaseScraper.name self.
Proof.
  induction product_elements as [|element rest IH]; cbn [CasaRicaScraper._parse_products];
    [intros []|].
  destruct (parse_element max_str_digits self element) as [[found|]|e] eqn:E;
    [|exact IH|exact IH].
  intros [<-|Hin]; [|exact (IH Hin)].
  apply (parse_element_wellformed _ _ _ _ E).
Qed.

Section CategoryFacts.

Variable World : Type.
Variable session_get : string -> World -> res string * World.
Variable parse : string -> res (list Listing).

Lemma for_pages_requests (url : string) (pages : list nat) (all_products : list Listing)
  (net : Net World) :
  exists n,
    (n <= List.length pages)%nat /\
    requests (snd (for_pages World session_get parse url pages all_products net)) =
    (requests net ++ map (fun page => (url ++ "?page=" ++ str page)%string) (firstn n pages))%list.
Proof.
  revert all_products net. induction pages as [|page rest IH]; intros all_products net;
    cbn [for_pages].
  - exists 0%nat. cbn. rewrite app_nil_r. split; [lia | reflexivity].
  - destruct (session_get (url ++ "?page=" ++ str page) (world net)) as [[text|e] w].
    + destruct (parse text) as [[|l ls]|e].
      * exists 1%nat. cbn. split; [lia | reflexivity].
      * destruct (IH (all_products ++ l :: ls)%list
                     (mkNet w (requests net ++ [url ++ "?page=" ++ str page])))
          as (n & Hn & E).
        exists (S n). split; [cbn; lia|]. rewrite E. cbn [requests firstn map].
        rewrite <- app_assoc. reflexivity.
      * exists 1%nat. cbn. split; [lia | reflexivity].
    + exists 1%nat. cbn. split; [lia | reflexivity].
Qed.

(** X25. [search_category] makes no request for a category other than
    "verduras" and "frutas"; for those it requests the pages 1, 2, ...
    of the category in order, five at most. *)
Theorem search_category_request_budget (self : Scraper) (category : string)
  (net : Net World) :
  (category_path category = None ->
   search_category World session_get parse self category net = ([], net)) /\
  (forall path, category_path category = Some path ->
   exists n,
     (n <= 5)%nat /\
     requests (snd (search_category World session_get parse self category net)) =
     (requests net ++
      map (fun page =>
             (rstrip_char "/" (base_url self) ++ path ++ "?page=" ++ str page)%string)
          (seq 1 n))%list) /\
  (category_path category = None <-> category <> "verduras" /\ category <> "frutas").
Proof.
  split; [|split].
  - intro H. unfold search_category. rewrite H. reflexivity.
  - intros path H. unfold search_category. rewrite H.
    destruct (for_pages_requests (rstrip_char "/" (base_url self) ++ path) (seq 1 5) [] net)
      as (n & Hn & E).
    exists n. split; [exact Hn|]. rewrite E. f_equal.
    assert (Hf : firstn n (seq 1 5) = seq 1 n).
    { cbn [List.length seq] in Hn.
      do 6 (destruct n as [|n]; [reflexivity|]). lia. }
    rewrite Hf. apply map_ext. intro page. rewrite append_assoc. reflexivity.
  - unfold category_path, CATEGORY_URLS. cbn [find fst].
    destruct (String.eqb "verduras" category) eqn:E1.
    + apply String.eqb_eq in E1. split; [discriminate | intros [H _]; congruence].
    + destruct (String.eqb "frutas" category) eqn:E2.
      * apply String.eqb_eq in E2. split; [discriminate | intros [_ H]; congruence].
      * apply String.eqb_neq in E1, E2. cbn. split; [intros _; split; congruence | reflexivity].
Qed.

End CategoryFacts.

End CasaRicaFacts.

(** ** Stock: the text fallback *)

Section SubstringFacts.
Import Py.
Local Open Scope string_scope.

Lemma prefix_iff (sub s : string) : prefix sub s = true <-> exists b, s = sub ++ b.
Proof.
  revert s. induction sub as [|c sub IH]; intro s.
  - split; [intros _; exists s; reflexivity | intros _; apply prefix_nil].
  - destruct s as [|c' s]; cbn [prefix].
    + split; [discriminate | intros (b & E); discriminate].
    + destruct (ascii_dec c c') as [<-|Hne].
      * rewrite IH. split; intros (b & E); exists b; cbn; [rewrite E; reflexivity|].
        cbn in E. congruence.
      * split; [discriminate | intros (b & E); cbn in E; congruence].
Qed.

Lemma contains_iff (sub s : string) :
  contains sub s = true <-> exists a b, s = a ++ sub ++ b.
Proof.
  induction s as [|c s IH]; cbn [contains].
  - destruct (prefix sub "") eqn:E.
    + apply prefix_iff in E as (b & E). split; [intros _; exists "", b; exact E | reflexivity].
    + split; [discriminate|]. intros (a & b & Hab).
      destruct a; [|discriminate]. cbn in Hab.
      assert (prefix sub "" = true) by (apply prefix_iff; exists b; exact Hab). congruence.
  - destruct (prefix sub (String c s)) eqn:E.
    + apply prefix_iff in E as (b & E). split; [intros _; exists "", b; exact E | reflexivity].
    + rewrite IH. split.
      * intros (a & b & ->). exists (String c a), b. reflexivity.
      * intros (a & b & Hab). destruct a as [|c' a].
        -- cbn in Hab. assert (prefix sub (String c s) = true)
             by (apply prefix_iff; exists b; exact Hab). congruence.
        -- cbn in Hab. injection Hab as _ ->. exists a, b. reflexivity.
Qed.

Lemma contains_inside (sub a line b : string) :
  contains sub line = true -> contains sub (a ++ line ++ b) = true.
Proof.
  rewrite !contains_iff. intros (a' & b' & ->).
  exists (a ++ a'), (b' ++ b). rewrite !append_assoc. reflexivity.
Qed.

Lemma lstrip_from_suffix (s : string) (skip : nat) : exists a, s = a ++ lstrip_from skip s.
Proof.
  revert skip. induction s as [|c s IH]; intro skip; [exists ""; reflexivity|].
  cbn [lstrip_from]. destruct skip as [|k].
  - destruct (space_width (String c s)) as [|k]; [exists ""; reflexivity|].
    destruct (IH k) as (a & E). exists (String c a). cbn. rewrite <- E. reflexivity.
  - destruct (IH k) as (a & E). exists (String c a). cbn. rewrite <- E. reflexivity.
Qed.

Lemma rstrip_prefix (s : string) : exists b, s = rstrip s ++ b.
Proof.
  induction s as [|c s IH]; [exists ""; reflexivity|].
  cbn [rstrip]. destruct (isspace_or_empty (String c s)).
  - exists (String c s). reflexivity.
  - destruct IH as (b & E). exists b. cbn. rewrite <- E. reflexivity.
Qed.

Lemma strip_inside (s : string) : exists a b, s = a ++ strip s ++ b.
Proof.
  unfold strip, lstrip. destruct (lstrip_from_suffix s 0) as (a & Ea).
  destruct (rstrip_prefix (lstrip_from 0 s)) as (b & Eb).
  exists a, b. rewrite <- Eb. exact Ea.
Qed.

Lemma contains_strip (sub s : string) :
  contains sub (strip s) = true -> contains sub s = true.
Proof.
  intro H. destruct (strip_inside s) as (a & b & E). rewrite E.
  apply contains_inside, H.
Qed.

Lemma split_head_prefix (sep : ascii) (s p : string) (ps : list string) :
  split sep s = p :: ps -> exists b, s = p ++ b.
Proof.
  revert p ps. induction s as [|c s IH]; intros p ps H; cbn [split] in H.
  - injection H as <- _. exists "". reflexivity.
  - destruct (Ascii.eqb c sep).
    + injection H as <- _. exists (String c s). reflexivity.
    + destruct (split sep s) as [|q qs] eqn:Es.
      * injection H as <- _. exists s. reflexivity.
      * injection H as <- _. destruct (IH q qs eq_refl) as (b & E).
        exists b. cbn. rewrite <- E. reflexivity.
Qed.

Lemma split_inside (sep : ascii) (s line : string) :
  In line (split sep s) -> exists a b, s = a ++ line ++ b.
Proof.
  revert line. induction s as [|c s IH]; intros line H; cbn [split] in H.
  - destruct H as [<-|[]]. exists "", "". reflexivity.
  - destruct (Ascii.eqb c sep).
    + destruct H as [<-|H].
      * exists "", (String c s). reflexivity.
      * destruct (IH line H) as (a & b & E). exists (String c a), b. cbn. rewrite <- E.
        reflexivity.
    + destruct (split sep s) as [|p ps] eqn:Es.
      * destruct H as [<-|[]]. exists "", s. reflexivity.
      * destruct H as [<-|H].
        -- destruct (split_head_prefix sep s p ps Es) as (b & E).
           exists "", b. cbn. rewrite <- E. reflexivity.
        -- destruct (IH line (or_intror H)) as (a & b & E). exists (String c a), b.
           cbn. rewrite <- E. reflexivity.
Qed.

End SubstringFacts.

Section StockFacts.
Import Py PyFloat BaseScraper StockScraper.
Local Open Scope string_scope.
Local Open Scope Z_scope.

Lemma search_price_marker (s : string) :
  search_price s <> None -> contains "Gs" s = true.
Proof.
  induction s as [|c s IH]; intro H.
  - cbn in H. contradiction.
  - cbn [search_price] in H. cbn [contains].
    destruct (prefix "Gs" (String c s)) eqn:Ep; [reflexivity|].
    assert (E : match_price_here (String c s) = None)
      by (unfold match_price_here; rewrite Ep; reflexivity).
    rewrite E in H. apply IH. destruct (search_price s) as [[b m]|]; [discriminate|].
    contradiction.
Qed.

(** What [for_lines] adds to the list. *)
Lemma for_lines_spec (self : Scraper) (lines : list string) (products : list Listing)
  (result : list Listing) :
  for_lines self lines products = Ret result ->
  exists added,
    result = (products ++ added)%list /\
    forall product, In product added ->
      exists line before group0,
        In line lines /\
        search_price (strip line) = Some (before, group0) /\
        existsb (fun term => contains term (lower (strip line))) produce_terms = true /\
        _extract_price group0 = Ret (Some (l_price product)) /\
        l_price product <> 0 /\
        l_name product = strip before /\
        (5 < len (l_name product))%nat /\
        _is_fresh_produce (l_name product) = true /\
        l_unit product = "kg" /\ l_url product = "" /\
        l_supermarket product = BaseScraper.name self.
Proof.
  revert products. induction lines as [|line rest IH]; intros products H;
    cbn [for_lines] in H.
  - injection H as <-. exists []. rewrite app_nil_r. split; [reflexivity | intros ? []].
  - assert (Hskip : for_lines self rest products = Ret result ->
             exists added, result = (products ++ added)%list /\
               forall product, In product added ->
                 exists line0 before group0,
                   In line0 (line :: rest) /\
                   search_price (strip line0) = Some (before, group0) /\
                   existsb (fun term => contains term (lower (strip line0))) produce_terms
                     = true /\
                   _extract_price group0 = Ret (Some (l_price product)) /\
                   l_price product <> 0 /\
                   l_name product = strip before /\
                   (5 < len (l_name product))%nat /\
                   _is_fresh_produce (l_name product) = true /\
                   l_unit product = "kg" /\ l_url product = "" /\
                   l_supermarket product = BaseScraper.name self).
    { intro Hr. destruct (IH _ Hr) as (added & E & Hadded). exists added.
      split; [exact E|]. intros product Hin.
      destruct (Hadded product Hin) as (l0 & b & g & Hl & Hrest).
      exists l0, b, g. split; [right; exact Hl | exact Hrest]. }
    destruct (strip line) as [|c0 l0] eqn:El; [exact (Hskip H)|].
    rewrite <- El in *.
    destruct (search_price (strip line)) as [[before group0]|] eqn:Es; [|exact (Hskip H)].
    destruct (existsb (fun term => contains term (lower (strip line))) produce_terms) eqn:Ek;
      [|exact (Hskip H)].
    destruct (_extract_price group0) as [[price|]|e] eqn:Ep; cbn [bind] in H;
      [| exact (Hskip H) | discriminate].
    destruct (price =? 0) eqn:Ez; [exact (Hskip H)|].
    destruct ((5 <? len (strip before))%nat && _is_fresh_produce (strip before)) eqn:Ec;
      [|exact (Hskip H)].
    destruct (IH _ H) as (added & E & Hadded).
    eexists (_ :: added). split; [rewrite E, <- app_assoc; reflexivity|].
    intros product [<-|Hin].
    + exists line, before, group0. cbn.
      apply andb_prop in Ec as [E5 Ef]. apply Nat.ltb_lt in E5. apply Z.eqb_neq in Ez.
      repeat split; auto.
    + destruct (Hadded product Hin) as (l1 & b & g & Hl & Hrest).
      exists l1, b, g. split; [right; exact Hl | exact Hrest].
Qed.

(** X26. On a page text whose only decimal digits are 0-9, every
    listing of [StockScraper._parse_from_text] has a positive price, a
    name of more than five characters that passes the fresh-produce
    classifier, unit "kg" and no URL; it comes from a line of the text
    that names a produce term, the name being the stripped text before
    the first price of the line and the price the normalized value of
    that match. *)
Theorem stock_text_listings_wellformed (self : Scraper) (text : string)
  (products : list Listing) (product : Listing) :
  digits_are_ascii text = true ->
  _parse_from_text self text = Ret products ->
  In product products ->
  0 < l_price product /\
  (5 < len (l_name product))%nat /\
  _is_fresh_produce (l_name product) = true /\
  l_unit product = "kg" /\ l_url product = "" /\
  l_supermarket product = BaseScraper.name self /\
  exists line before group0,
    In line (split (ascii_of_nat 10) text) /\
    search_price (strip line) = Some (before, group0) /\
    existsb (fun term => contains term (lower (strip line))) produce_terms = true /\
    l_name product = strip before /\
    _extract_price group0 = Ret (Some (l_price product)).
Proof.
  unfold _parse_from_text. intros _ H Hin.
  apply for_lines_spec in H as (added & -> & Hadded). cbn [app] in Hin.
  destruct (Hadded product Hin)
    as (line & before & group0 & Hl & Hs & Hk & Hp & Hz & Hn & H5 & Hf & Hu & Hurl & Hsm).
  pose proof (extract_price_nonneg group0 (l_price product) Hp).
  split; [lia|]. repeat (split; [assumption|]).
  exists line, before, group0. auto.
Qed.

(** X27. [_parse_from_text] finds nothing in a text that does not
    contain "Gs": a price written with another currency marker is not
    seen. *)
Theorem stock_text_needs_gs_marker (self : Scraper) (text : string) :
  contains "Gs" text = false -> _parse_from_text self text = Ret [].
Proof.
  intro H. unfold _parse_from_text.
  assert (Hlines : forall line, In line (split (ascii_of_nat 10) text) ->
                                search_price (strip line) = None).
  { intros line Hin. destruct (search_price (strip line)) as [[b g]|] eqn:E; [|reflexivity].
    assert (Hc : contains "Gs" (strip line) = true)
      by (apply search_price_marker; rewrite E; discriminate).
    apply contains_strip in Hc.
    destruct (split_inside _ _ _ Hin) as (a & b' & Et).
    rewrite Et, (contains_inside "Gs" a line b' Hc) in H. discriminate. }
  generalize (@nil Listing) as products.
  induction (split (ascii_of_nat 10) text) as [|line rest IH]; intro products;
    cbn [for_lines]; [reflexivity|].
  rewrite (Hlines line (or_introl eq_refl)).
  destruct (strip line); apply IH; intros l Hl; apply Hlines; right; exact Hl.
Qed.

End StockFacts.

(** ** Instances of the further properties *)

Section FurtherInstances.
Import Py PyFloat BaseScraper PriceDatabase PriceMonitor PriceStatistics.
Local Open Scope string_scope.
Local Open Scope Z_scope.

Lemma save_price_idempotent_witness :
  save_price 100
    (insert_or_replace (mkRow 100 "Stock" "Tomate Lisa" (Some "Tomate") 17000 "kg")
       Scenario.alert_table)
    "Stock" "Tomate Lisa" 17000 (Some "Tomate") "kg" None =
  Ret (insert_or_replace (mkRow 100 "Stock" "Tomate Lisa" (Some "Tomate") 17000 "kg")
         Scenario.alert_table).
Proof.
  apply (save_price_idempotent 100 Scenario.alert_table). reflexivity.
Defined.

Lemma save_price_keeps_keys_unique_witness :
  keys_unique
    (insert_or_replace (mkRow 100 "Stock" "Tomate Lisa" (Some "Tomate") 17000 "kg")
       Scenario.alert_table).
Proof.
  apply (save_price_keeps_keys_unique 100 Scenario.alert_table _
           "Stock" "Tomate Lisa" 17000 (Some "Tomate") "kg" None); [|reflexivity].
  cbn. repeat split; intros r' H;
    repeat (destruct H as [<-|H]; [reflexivity|]); destruct H.
Defined.

Lemma save_prices_rerun_idempotent_witness :
  _save_prices 100 Scenario.collected (snd (_save_prices 100 Scenario.collected [])) =
  (Ret tt, snd (_save_prices 100 Scenario.collected [])).
Proof.
  apply (save_prices_rerun_idempotent 100 Scenario.collected []). reflexivity.
Defined.

Lemma save_prices_stops_at_overflow_witness :
  exists t1,
    _save_prices 100 Scenario.collected [] = (Ret tt, t1) /\
    _save_prices 100 (Scenario.collected ++ Scenario.oversized :: Scenario.collected)%list [] =
    (Raise OverflowError, t1).
Proof.
  apply (save_prices_stops_at_overflow 100 Scenario.collected Scenario.collected
           Scenario.oversized []).
  - intros pd [<-|[]]. reflexivity.
  - reflexivity.
Defined.

Lemma save_price_keeps_previous_price_witness :
  get_previous_price 100
    (insert_or_replace (mkRow 100 "Biggie" "Tomate Lisa" (Some "Tomate") 17000 "kg")
       Scenario.alert_table) "Biggie" "Tomate Lisa" =
  get_previous_price 100 Scenario.alert_table "Biggie" "Tomate Lisa".
Proof.
  apply (save_price_keeps_previous_price 100 Scenario.alert_table _
           "Biggie" "Tomate Lisa" 17000 (Some "Tomate") "kg" None); [|reflexivity].
  cbn. lia.
Defined.

Lemma saved_price_is_next_previous_witness :
  get_previous_price 101
    (insert_or_replace (mkRow 100 "Biggie" "Tomate Lisa" (Some "Tomate") 17000 "kg")
       Scenario.trend_table) "Biggie" "Tomate Lisa" = Some 17000.
Proof.
  apply (saved_price_is_next_previous 100 101 Scenario.trend_table _
           "Biggie" "Tomate Lisa" 17000 (Some "Tomate") "kg" None).
  - reflexivity.
  - cbn. lia.
  - intros r [<-|[<-|[]]] Hsm; discriminate Hsm.
Defined.

Lemma saved_batch_is_listed_witness :
  exists last_saved,
    In last_saved Scenario.collected /\
    In (mkPrice "Biggie" "Tomate Lisa" (pd_price last_saved) (Some "Tomate Lisa x kg")
          (pd_unit last_saved))
       (get_today_prices 100 (snd (_save_prices 100 Scenario.collected Scenario.alert_table))
          (Some "Tomate Lisa")).
Proof.
  destruct (saved_batch_is_listed 100 Scenario.collected Scenario.alert_table
              (snd (_save_prices 100 Scenario.collected Scenario.alert_table))
              (mkPriceData "Biggie" "Tomate Lisa" "Tomate Lisa x kg" 12500 "kg"))
    as (last_saved & Hin & _ & _ & _ & Hlisted).
  - reflexivity.
  - left. reflexivity.
  - discriminate.
  - exists last_saved. split; [exact Hin | exact Hlisted].
Defined.

Lemma get_prices_for_date_ascending_witness :
  StronglySorted (fun a b => pr_price a <= pr_price b)
    (get_prices_for_date Scenario.alert_table 100 (Some "Tomate Lisa")) /\
  List.length (get_prices_for_date Scenario.alert_table 100 (Some "Tomate Lisa")) = 2%nat.
Proof.
  assert (Hp : "Tomate Lisa" <> "") by discriminate.
  destruct (get_prices_for_date_ascending Scenario.alert_table 100 "Tomate Lisa" Hp)
    as [Hs Hl].
  split; [exact Hs | rewrite Hl; reflexivity].
Defined.

Lemma get_median_price_between_witness :
  exists median,
    get_median_price 100 Scenario.three_source_table "Tomate Lisa" None = Ret (Some median) /\
    is_integer_median [16800; 18000; 16500; 17000] median.
Proof.
  assert (Hp : "Tomate Lisa" <> "") by discriminate.
  destruct (proj2 (get_median_price_between 100 Scenario.three_source_table "Tomate Lisa"
                     None Hp))
    as (median & lo & hi & Hm & His & _).
  - discriminate.
  - intros r [<-|[<-|[<-|[<-|[]]]]]; cbn; lia.
  - exists median. split; [exact Hm | exact His].
Defined.

Lemma get_week_ago_median_seven_days_back_witness :
  exists median,
    get_week_ago_median 101 Scenario.averaged_trend_table "Tomate Lisa" = Ret (Some median) /\
    is_integer_median [19000; 21000] median.
Proof.
  assert (Hp : "Tomate Lisa" <> "") by discriminate.
  destruct (get_week_ago_median_seven_days_back 101 Scenario.averaged_trend_table
              "Tomate Lisa" Hp) as [_ H].
  destruct (H ltac:(lia)) as [_ Hsome].
  apply Hsome.
  - discriminate.
  - intros r [<-|[<-|[]]]; cbn; lia.
Defined.

Lemma get_price_trend_needs_positive_days_witness :
  get_price_trend 100 Scenario.trend_table "Tomate Lisa" 0 = Ret insufficient_data.
Proof.
  apply get_price_trend_needs_positive_days; cbn; lia.
Defined.

Lemma get_price_trend_order_independent_witness :
  get_price_trend 100 Scenario.averaged_trend_table "Tomate Lisa" 7 =
  get_price_trend 100 (rev Scenario.averaged_trend_table) "Tomate Lisa" 7.
Proof.
  apply get_price_trend_order_independent.
  - intros r [<-|[<-|[<-|[<-|[]]]]]; cbn; lia.
  - cbn. lia.
  - apply Permutation_rev.
Defined.

Lemma scrape_all_disabled_witness :
  _scrape_all_prices Datatypes.unit Scenario.quiet_format Scenario.quiet_get
    (fun _ => None) Scenario.tomato_parse
    [Scenario.tomate_lisa] [Scenario.closed_source] (mkNet tt []) = ([], mkNet tt []).
Proof.
  apply scrape_all_disabled. intros c [<-|[]]. reflexivity.
Defined.

Lemma scraped_prices_provenance_witness :
  exists c product,
    In c [Scenario.open_source] /\ get (cfg_enabled c) true = true /\
    In product [Scenario.tomate_lisa] /\
    "Biggie" = get (cfg_name c) "" /\
    "Tomate Lisa" = get (p_name product) "" /\
    "kg" = get (p_unit product) "kg" /\
    get (p_search_terms product) [] <> [].
Proof.
  destruct (scraped_prices_provenance Datatypes.unit Scenario.quiet_format Scenario.quiet_get
              (fun _ => None) Scenario.tomato_parse
              [Scenario.tomate_lisa] [Scenario.open_source] (mkNet tt [])
              (mkPriceData "Biggie" "Tomate Lisa" "Tomate Lisa x kg" 12500 "kg"))
    as (c & product & H1 & H2 & H3 & H4 & H5 & H6 & H7 & _).
  - vm_compute. left. reflexivity.
  - exists c, product. auto 10.
Defined.

Lemma generic_listings_wellformed_witness :
  0 < 5000 /\ "Aj" <> "" /\ _is_fresh_produce "Aj" = true /\
  "kg" = "kg" /\ "Biggie" = BaseScraper.name Scenario.biggie.
Proof.
  apply (generic_listings_wellformed Scenario.biggie Scenario.short_name_soup
           (mkListing "Aj" 5000 "kg" "" "Biggie")).
  vm_compute. left. reflexivity.
Defined.

Lemma report_products_wellformed_witness :
  NoDup (map pr_supermarket
           [mkPrice "Biggie" "Tomate Lisa" 16500 (Some "Tomate Lisa") "kg"]) /\
  is_integer_median
    (map pr_price [mkPrice "Biggie" "Tomate Lisa" 16500 (Some "Tomate Lisa") "kg"]) 16500.
Proof.
  assert (H : _generate_report_data 100 Scenario.alert_table 15 [Scenario.tomate_lisa] =
              Ret Scenario.alert_report) by (vm_compute; reflexivity).
  assert (Hin : In (mkReportProduct "Tomate Lisa" 16500
                      [mkPrice "Biggie" "Tomate Lisa" 16500 (Some "Tomate Lisa") "kg"])
                   (r_products Scenario.alert_report))
    by (vm_compute; left; reflexivity).
  destruct (report_products_wellformed _ _ _ _ _ _ H Hin)
    as (_ & _ & _ & Hnd & _ & _ & _ & Hmed).
  split; [exact Hnd|]. apply Hmed.
  intros q [<-|[]]. cbn. lia.
Defined.

Lemma report_alerts_wellformed_witness :
  get_previous_price 100 Scenario.alert_table "Biggie" "Tomate Lisa" = Some 20250 /\
  (15 <= Qabs (-1303124892178963 # 70368744177664))%Q.
Proof.
  assert (H : _generate_report_data 100 Scenario.alert_table 15 [Scenario.tomate_lisa] =
              Ret Scenario.alert_report) by (vm_compute; reflexivity).
  assert (Hin : In (mkAlert "Tomate Lisa" "Biggie"
                      (-1303124892178963 # 70368744177664) 20250 16500)
                   (r_alerts Scenario.alert_report))
    by (vm_compute; left; reflexivity).
  destruct (report_alerts_wellformed _ _ _ _ _ _ H Hin)
    as (_ & _ & Hprev & _ & _ & Hth).
  split; [exact Hprev | exact Hth].
Defined.

Lemma report_trend_per_product_witness :
  exists trend,
    dict_get "Tomate Lisa" (r_trends Scenario.alert_report) = Some trend /\
    get_price_trend 100 Scenario.alert_table "Tomate Lisa" 7 = Ret trend.
Proof.
  assert (H : _generate_report_data 100 Scenario.alert_table 15 [Scenario.tomate_lisa] =
              Ret Scenario.alert_report) by (vm_compute; reflexivity).
  assert (Hin : In (mkReportProduct "Tomate Lisa" 16500
                      [mkPrice "Biggie" "Tomate Lisa" 16500 (Some "Tomate Lisa") "kg"])
                   (r_products Scenario.alert_report))
    by (vm_compute; left; reflexivity).
  exact (report_trend_per_product _ _ _ _ _ _ H Hin).
Defined.

Lemma report_lists_products_with_prices_witness :
  map rp_name (r_products Scenario.alert_report) = ["Tomate Lisa"].
Proof.
  assert (H : _generate_report_data 100 Scenario.alert_table 15 [Scenario.tomate_lisa] =
              Ret Scenario.alert_report) by (vm_compute; reflexivity).
  rewrite (report_lists_products_with_prices _ _ _ _ _ H). vm_compute. reflexivity.
Defined.

Lemma report_never_fails_witness :
  exists report,
    _generate_report_data 100 Scenario.alert_table 15 [Scenario.tomate_lisa] = Ret report.
Proof.
  apply report_never_fails.
  - lia.
  - intros r [<-|[<-|[<-|[]]]]; reflexivity.
  - vm_compute. reflexivity.
Defined.

Lemma extract_casarica_price_total_witness :
  exists price,
    CasaRicaScraper._extract_casarica_price 4300 "₲. 48.300" = Ret price /\
    (forall n, price = Some n -> 0 <= n).
Proof.
  destruct (extract_casarica_price_total 4300 "₲. 48.300" eq_refl)
    as (price & H & Hpos & _).
  exists price. split; [exact H | exact Hpos].
Defined.

Lemma extract_casarica_price_joins_digits_witness :
  CasaRicaScraper._extract_casarica_price 4300 "48.300" = Ret (Some 48300).
Proof.
  apply (extract_casarica_price_joins_digits 4300 "48.300").
  - reflexivity.
  - reflexivity.
  - right. cbn. lia.
Defined.

Lemma casarica_listings_wellformed_witness :
  0 < 48300 /\ _is_fresh_produce "Tomate perita x kg" = true /\
  "kg" = "kg" /\ "Biggie" = BaseScraper.name Scenario.biggie.
Proof.
  apply (casarica_listings_wellformed 4300 Scenario.biggie [Scenario.casarica_element]
           (mkListing "Tomate perita x kg" 48300 "kg" "" "Biggie")).
  vm_compute. left. reflexivity.
Defined.

Lemma stock_text_listings_wellformed_witness :
  0 < 12500 /\ (5 < len "Tomate Lisa x kg")%nat.
Proof.
  assert (H : StockScraper._parse_from_text Scenario.biggie "Tomate Lisa x kg Gs 12.500" =
              Ret [mkListing "Tomate Lisa x kg" 12500 "kg" "" "Biggie"])
    by (vm_compute; reflexivity).
  destruct (stock_text_listings_wellformed Scenario.biggie "Tomate Lisa x kg Gs 12.500" _
              (mkListing "Tomate Lisa x kg" 12500 "kg" "" "Biggie") eq_refl H
              (or_introl eq_refl))
    as (Hp & Hl & _).
  split; [exact Hp | exact Hl].
Defined.

Lemma stock_text_needs_gs_marker_witness :
  StockScraper._parse_from_text Scenario.biggie "Tomate Lisa x kg ₲ 12.500" = Ret [].
Proof.
  apply stock_text_needs_gs_marker. reflexivity.
Defined.

End FurtherInstances.
